(** * fle-server: session registry, JSON-RPC router and connection hub

  A shallow embedding of the Go sources

    - internal/session   (generator.go, manager.go, types.go)
    - internal/jsonrpc   (types.go, validator.go, router.go)
    - internal/websocket (hub.go, client.go)

  Go strings are byte strings and are modelled as [string] (a list of
  8-bit [ascii]).  Maps are [gmap], sets are [gset].  Pointers to
  clients are modelled as [nat] addresses into an explicit store.
  Goroutines are not run against each other: an operation is one step,
  a request sent to the hub waits in a list until Run takes it, and the
  one send that can never be taken, the hub handing a client to itself,
  is recorded as the hub being blocked. *)

From Stdlib Require Import ZArith Ascii String List Bool Lia DecimalString.
From stdpp Require Import base option list gmap strings fin_maps fin_sets.

Local Open Scope string_scope.
Local Open Scope Z_scope.

(* ===================================================================== *)
(** * Byte-string helpers: the parts of [strings] and [fmt] the code uses *)
(* ===================================================================== *)

Module GoStrings.

(** [strings.ToLower], [strings.TrimSpace] and [fmt.Sscanf] are
    Unicode-aware in Go: they decode UTF-8, know the white space and the
    letters beyond ASCII, and ToLower rewrites invalid UTF-8.  The
    functions below are the Go functions on ASCII strings (every byte
    below 0x80, which is what [ascii_only] records), where Go works byte
    by byte as well.  Outside ASCII they are not the Go functions: bytes
    from 0x80 on are left untouched and are never white space here.  A
    statement about what the code does with an arbitrary string
    therefore assumes [ascii_only] of it. *)

Definition byte (c : ascii) : Z := Z.of_N (N_of_ascii c).

Definition is_ascii (c : ascii) : bool := byte c <? 128.

Fixpoint ascii_only (s : string) : bool :=
  match s with
  | EmptyString => true
  | String c s' => is_ascii c && ascii_only s'
  end.

Definition is_upper (c : ascii) : bool := (65 <=? byte c) && (byte c <=? 90).

Definition lower_byte (c : ascii) : ascii :=
  if is_upper c then ascii_of_N (N_of_ascii c + 32) else c.

(** strings.ToLower on an ASCII string: the letters A-Z are made small. *)
Fixpoint ToLower (s : string) : string :=
  match s with
  | EmptyString => EmptyString
  | String c s' => String (lower_byte c) (ToLower s')
  end.

(** The ASCII white space of [strings.TrimSpace] and of [fmt]'s
    [isSpace]: \t \n \v \f \r and the blank. *)
Definition isSpace (c : ascii) : bool :=
  ((9 <=? byte c) && (byte c <=? 13)) || (byte c =? 32).

Fixpoint TrimLeft (s : string) : string :=
  match s with
  | EmptyString => EmptyString
  | String c s' => if isSpace c then TrimLeft s' else s
  end.

Fixpoint TrimRight (s : string) : string :=
  match s with
  | EmptyString => EmptyString
  | String c s' =>
      match TrimRight s' with
      | EmptyString => if isSpace c then EmptyString else String c EmptyString
      | r => String c r
      end
  end.

(** strings.TrimSpace on an ASCII string: the white space at both ends is
    cut off. *)
Definition TrimSpace (s : string) : string := TrimRight (TrimLeft s).

(** strings.Split(s, sep) for a one-byte separator: always at least one
    part, [n] separators give [n+1] parts. *)
Fixpoint Split (s : string) (sep : ascii) : list string :=
  match s with
  | EmptyString => [EmptyString]
  | String c s' =>
      if Ascii.eqb c sep then EmptyString :: Split s' sep
      else match Split s' sep with
           | p :: ps => String c p :: ps
           | [] => [String c EmptyString]
           end
  end.

(** strings.Join *)
Fixpoint Join (l : list string) (sep : string) : string :=
  match l with
  | [] => ""
  | [x] => x
  | x :: rest => x +:+ sep +:+ Join rest sep
  end.

Definition is_digit (c : ascii) : bool := (48 <=? byte c) && (byte c <=? 57).

Definition digit_val (c : ascii) : Z := byte c - 48.

(** fmt's SkipSpace as Sscanf runs it (newlines are not space there):
    white space is skipped, a newline met while skipping is the error
    "unexpected newline". *)
Fixpoint SkipSpace (s : string) : option string :=
  match s with
  | EmptyString => Some EmptyString
  | String c s' =>
      if byte c =? 10 then None
      else if isSpace c then SkipSpace s'
      else Some s
  end.

(** The run of bytes [scanNumber] accepts for the verb %d: getBase gives
    the digit string "0123456789" (the underscore is accepted for %v
    only), and the run ends at the first byte that is not in it. *)
Fixpoint scanNumber (s : string) : string :=
  match s with
  | EmptyString => EmptyString
  | String c s' =>
      if is_digit c then String c (scanNumber s')
      else EmptyString
  end.

(** strconv.ParseUint(tok, 10, 64) on the digits of the token. *)
Fixpoint parse_decimal (acc : Z) (s : string) : option Z :=
  match s with
  | EmptyString => Some acc
  | String c s' =>
      if is_digit c then parse_decimal (10 * acc + digit_val c) s'
      else None
  end.

Definition int_min : Z := - 2 ^ 63.
Definition int_max : Z := 2 ^ 63 - 1.

(** [fmt.Sscanf(s, "%d", &number)]: [Some number] when it reports
    n = 1 and err = nil, [None] otherwise.  Leading white space is
    skipped, one optional sign is accepted, then at least one byte of
    the digit run is required; the token is handed to strconv.ParseInt.
    Input left over after the token is not an error. *)
Definition Sscanf_d (s : string) : option Z :=
  match SkipSpace s with
  | None => None
  | Some EmptyString => None
  | Some (String c rest as s1) =>
      let '(neg, body) :=
        if byte c =? 43 then (false, rest)
        else if byte c =? 45 then (true, rest)
        else (false, s1) in
      match scanNumber body with
      | EmptyString => None
      | tok =>
          match parse_decimal 0 tok with
          | None => None
          | Some v =>
              let n := if neg then - v else v in
              if (int_min <=? n) && (n <=? int_max) then Some n else None
          end
      end
  end.

End GoStrings.

(* ===================================================================== *)
(** * internal/session: generator.go *)
(* ===================================================================== *)

Module Generator.
Import GoStrings.

Definition dash : ascii := "-"%char.

(** Generator.IsValidFormat, for ASCII codes (see [GoStrings]). *)
Definition IsValidFormat (code : string) : bool :=
  if String.eqb code "" then false
  else
    let normalized := ToLower (TrimSpace code) in
    let parts := Split normalized dash in
    if negb (Nat.eqb (List.length parts) 3) then false
    else if existsb (fun part => String.eqb (TrimSpace part) "") parts then false
    else
      let lastPart := nth 2 parts "" in
      if Nat.eqb (String.length lastPart) 0 || Nat.ltb 2 (String.length lastPart)
      then false
      else
        match Sscanf_d lastPart with
        | None => false
        | Some number =>
            if (number <? 1) || (number >? 99) then false else true
        end.

(** Generator.NormalizeCode, for ASCII codes. *)
Definition NormalizeCode (code : string) : string :=
  ToLower (TrimSpace code).

End Generator.

(* ===================================================================== *)
(** * Values of Go's [interface{}] *)
(* ===================================================================== *)

(** Scalars are what validation rules inspect and what [fmt]'s %v prints:
    nil, a string, an int, a bool.  A request id that is a JSON number is
    a float64 in Go; it is kept as [SInt], which is exact for what the
    code does with an id (it is compared with nil and copied). *)
Inductive scalar :=
| SNil
| SString (s : string)
| SInt (z : Z)
| SBool (b : bool).

(* ===================================================================== *)
(** * internal/session: types.go and manager.go *)
(* ===================================================================== *)

Module Manager.
Import GoStrings Generator.

(** A time.Time is kept as the count of nanoseconds since a fixed
    instant, a time.Duration as a count of nanoseconds. *)
Record Session := {
  Code : string;
  CreatedAt : Z;
  LastAccessed : Z;
  Data : gmap string scalar
}.

Inductive SessionError :=
| ErrSessionNotFound
| ErrSessionExpired
| ErrInvalidSessionCode
| ErrCodeGenerationFailed
| ErrCreationCancelled.  (* fmt.Errorf("session creation cancelled: %w", ctx.Err()) *)

(** A nil [InitialData] map and an empty one are both copied to an
    empty [Data]; both are the empty map here. *)
Record SessionOptions := {
  MaxRetries : Z;
  SessionTimeout : Z;
  InitialData : gmap string scalar
}.

Definition DefaultSessionOptions : SessionOptions :=
  {| MaxRetries := 10;
     SessionTimeout := 24 * 3600 * 1000000000;
     InitialData := ∅ |}.

Record Manager := {
  sessions : gmap string Session;
  options : SessionOptions
}.

Definition NewManager (opts : option SessionOptions) : Manager :=
  {| sessions := ∅;
     options := match opts with Some o => o | None => DefaultSessionOptions end |}.

Definition set_sessions (m : Manager) (ss : gmap string Session) : Manager :=
  {| sessions := ss; options := options m |}.

(** A time.Duration is an int64 count of nanoseconds. *)
Definition minDuration : Z := - 2 ^ 63.
Definition maxDuration : Z := 2 ^ 63 - 1.

(** The Duration an integer stands for: itself when it fits, the nearest
    bound otherwise.  It is the identity on every value a Duration field
    can hold, and it is how Time.Sub rounds a difference that does not
    fit. *)
Definition as_Duration (d : Z) : Z := Z.max minDuration (Z.min maxDuration d).

Definition is_Duration (d : Z) : Prop := minDuration <= d <= maxDuration.

(** time.Since(t) when the clock reads [now]: Time.Sub returns
    maxDuration or minDuration when the difference does not fit. *)
Definition time_Since (now t : Z) : Z := as_Duration (now - t).

(** Manager.isExpired, with the clock reading of [time.Since] explicit.
    SessionTimeout is a Duration field; it is kept as an integer and read
    as the Duration it stands for. *)
Definition isExpired (m : Manager) (now : Z) (session : Session) : bool :=
  time_Since now (LastAccessed session) >? as_Duration (SessionTimeout (options m)).

(** What the retry loop of CreateSession leaves behind. *)
Inductive LoopExit :=
| LoopCancelled
| LoopDone (code : string) (collision : bool).

(** The loop [for attempt := 0; attempt <= options.MaxRetries; attempt++].
    [gen attempt] is what GenerateCode returns on that attempt and
    [cancelled attempt] whether ctx.Done() is ready when that attempt
    polls it; [fuel] counts the iterations that are left.  [code] and
    [collision] are the two variables declared before the loop. *)
Fixpoint createLoop (ss : gmap string Session) (gen : nat -> string)
         (cancelled : nat -> bool) (fuel attempt : nat)
         (code : string) (collision : bool) : LoopExit :=
  match fuel with
  | O => LoopDone code collision
  | S fuel' =>
      let code := gen attempt in
      if negb (IsValidFormat code)
      then createLoop ss gen cancelled fuel' (S attempt) code collision
      else
        let normalizedCode := NormalizeCode code in
        let collision := bool_decide (is_Some (ss !! normalizedCode)) in
        if negb collision then LoopDone normalizedCode collision
        else if cancelled attempt then LoopCancelled
        else createLoop ss gen cancelled fuel' (S attempt) code collision
  end.

(** Manager.CreateSession.  [opts = None] is the nil options pointer. *)
Definition CreateSession (m : Manager) (gen : nat -> string)
           (cancelled : nat -> bool) (now : Z) (opts : option SessionOptions)
  : (Session + SessionError) * Manager :=
  let options := match opts with Some o => o | None => options m end in
  match createLoop (sessions m) gen cancelled
          (Z.to_nat (MaxRetries options + 1)) 0 "" false with
  | LoopCancelled => (inr ErrCreationCancelled, m)
  | LoopDone code collision =>
      if collision then (inr ErrCodeGenerationFailed, m)
      else
        let session := {| Code := code; CreatedAt := now; LastAccessed := now;
                          Data := InitialData options |} in
        (inl session, set_sessions m (<[code := session]> (sessions m)))
  end.

Definition touch (s : Session) (now : Z) : Session :=
  {| Code := Code s; CreatedAt := CreatedAt s; LastAccessed := now; Data := Data s |}.

(** Manager.GetSession.  [now] is the clock reading of the expiry check,
    [now'] the later reading stored in LastAccessed. *)
Definition GetSession (m : Manager) (now now' : Z) (code : string)
  : (Session + SessionError) * Manager :=
  if String.eqb code "" then (inr ErrInvalidSessionCode, m)
  else if negb (IsValidFormat code) then (inr ErrInvalidSessionCode, m)
  else
    let normalizedCode := NormalizeCode code in
    match sessions m !! normalizedCode with
    | None => (inr ErrSessionNotFound, m)
    | Some session =>
        if isExpired m now session
        then (inr ErrSessionExpired, set_sessions m (delete normalizedCode (sessions m)))
        else
          let session := touch session now' in
          (inl session, set_sessions m (<[normalizedCode := session]> (sessions m)))
    end.

(** Manager.DeleteSession *)
Definition DeleteSession (m : Manager) (code : string) : bool * Manager :=
  if String.eqb code "" then (false, m)
  else if negb (IsValidFormat code) then (false, m)
  else
    let normalizedCode := NormalizeCode code in
    match sessions m !! normalizedCode with
    | Some _ => (true, set_sessions m (delete normalizedCode (sessions m)))
    | None => (false, m)
    end.

(** Manager.UpdateSessionData: the keys of [data] overwrite those of the
    session. *)
Definition UpdateSessionData (m : Manager) (now now' : Z) (code : string)
           (data : gmap string scalar) : option SessionError * Manager :=
  if String.eqb code "" then (Some ErrInvalidSessionCode, m)
  else
    let normalizedCode := NormalizeCode code in
    match sessions m !! normalizedCode with
    | None => (Some ErrSessionNotFound, m)
    | Some session =>
        if isExpired m now session
        then (Some ErrSessionExpired, set_sessions m (delete normalizedCode (sessions m)))
        else
          let session :=
            {| Code := Code session; CreatedAt := CreatedAt session;
               LastAccessed := now'; Data := data ∪ Data session |} in
          (None, set_sessions m (<[normalizedCode := session]> (sessions m)))
    end.

(** Manager.Cleanup.  The loop reads the clock once per visited entry;
    [now code] is the reading taken when the entry under [code] is
    visited, which makes the result independent of the iteration order. *)
Definition Cleanup (m : Manager) (now : string -> Z) : Z * Manager :=
  let expired := filter (fun kv => isExpired m (now kv.1) kv.2 = true) (sessions m) in
  let kept := filter (fun kv => isExpired m (now kv.1) kv.2 = false) (sessions m) in
  (Z.of_nat (size expired), set_sessions m kept).

Definition GetSessionCount (m : Manager) : Z := Z.of_nat (size (sessions m)).

End Manager.

(* ===================================================================== *)
(** * internal/jsonrpc: types.go *)
(* ===================================================================== *)

Module JsonRpc.
Import GoStrings.

Definition Version : string := "2.0".

(** A validation rule of a struct tag: its name, its parameter and the
    test it applies to the field's value. *)
Record Rule := {
  rule_tag : string;
  rule_param : string;
  rule_ok : scalar -> bool
}.

(** A field of a struct value as the validator sees it: the name taken
    from the json tag, the current value and the rules of the validate
    tag, in the order they are written. *)
Record Field := {
  field_name : string;
  field_value : scalar;
  field_rules : list Rule
}.

(** A value held in an [interface{}]: nil and the scalars, a struct with
    its validated fields, or any other value (map, slice, pointer to a
    value that is not a struct, ...), known by the name of its type. *)
Inductive any :=
| AScalar (v : scalar)
| AStruct (fields : list Field)
| AOpaque (go_type : string).

Definition nil : any := AScalar SNil.

Definition is_nil (a : any) : bool :=
  match a with AScalar SNil => true | _ => false end.

Record Request := {
  Request_JSONRPCVersion : string;
  Request_Method : string;
  Request_Params : option string;   (* json.RawMessage, None when nil *)
  Request_ID : any
}.

(** Request.IsNotification *)
Definition IsNotification (r : Request) : bool := is_nil (Request_ID r).

Record Error := {
  Error_Code : Z;
  Error_Message : string;
  Error_Data : any
}.

Record Response := {
  Response_JSONRPCVersion : string;
  Response_Result : any;
  Response_Error : option Error;
  Response_ID : any
}.

Definition ParseError : Z := -32700.
Definition InvalidRequest : Z := -32600.
Definition MethodNotFound : Z := -32601.
Definition InvalidParams : Z := -32602.
Definition InternalError : Z := -32603.

Definition ErrParse : Error :=
  {| Error_Code := ParseError; Error_Message := "Parse error"; Error_Data := nil |}.
Definition ErrMethodNotFound : Error :=
  {| Error_Code := MethodNotFound; Error_Message := "Method not found"; Error_Data := nil |}.
Definition ErrInternal : Error :=
  {| Error_Code := InternalError; Error_Message := "Internal error"; Error_Data := nil |}.

Definition NewErrorWithData (code : Z) (message : string) (data : any) : Error :=
  {| Error_Code := code; Error_Message := message; Error_Data := data |}.

Definition NewResponse (result : any) (id : any) : Response :=
  {| Response_JSONRPCVersion := Version; Response_Result := result;
     Response_Error := None; Response_ID := id |}.

Definition NewErrorResponse (err : Error) (id : any) : Response :=
  {| Response_JSONRPCVersion := Version; Response_Result := nil;
     Response_Error := Some err; Response_ID := id |}.

(* ===================================================================== *)
(** * The go-playground validator, as far as this package relies on it *)
(* ===================================================================== *)

(** What the library reports for one field: validator.FieldError. *)
Record FieldError := {
  fe_Field : string;
  fe_Tag : string;
  fe_Value : scalar;
  fe_Param : string
}.

(** FieldError.Kind() == reflect.String *)
Definition kind_is_string (v : scalar) : bool :=
  match v with SString _ => true | _ => false end.

(** The rules of one field are tried from left to right; the first one
    that fails is reported for the field and the rest of its tag is
    skipped. *)
Definition first_violation (name : string) (v : scalar) (rules : list Rule)
  : option FieldError :=
  match List.find (fun r => negb (rule_ok r v)) rules with
  | Some r => Some {| fe_Field := name; fe_Tag := rule_tag r;
                      fe_Value := v; fe_Param := rule_param r |}
  | None => None
  end.

(** Fields are visited in declaration order and every failing field
    contributes one error. *)
Definition field_errors (fs : list Field) : list FieldError :=
  omap (fun f => first_violation (field_name f) (field_value f) (field_rules f)) fs.

Inductive LibResult :=
| LibOk
| LibErrors (errs : list FieldError)    (* validator.ValidationErrors *)
| LibInvalid (msg : string).            (* *validator.InvalidValidationError *)

(** reflect.TypeOf(v).String() for a scalar; the nil interface has no
    type. *)
Definition scalar_type (v : scalar) : option string :=
  match v with
  | SNil => None
  | SString _ => Some "string"
  | SInt _ => Some "int"
  | SBool _ => Some "bool"
  end.

(** InvalidValidationError.Error *)
Definition InvalidValidationError_Error (t : option string) : string :=
  match t with
  | None => "validator: (nil)"
  | Some t => "validator: (nil " +:+ t +:+ ")"
  end.

(** validate.Struct: only struct values are validated; for any other
    value the error names the type of the value. *)
Definition validate_Struct (s : any) : LibResult :=
  match s with
  | AStruct fs =>
      match field_errors fs with
      | [] => LibOk
      | errs => LibErrors errs
      end
  | AScalar v => LibInvalid (InvalidValidationError_Error (scalar_type v))
  | AOpaque t => LibInvalid (InvalidValidationError_Error (Some t))
  end.

(** validate.Var *)
Definition validate_Var (v : scalar) (rules : list Rule) : LibResult :=
  match first_violation "" v rules with
  | None => LibOk
  | Some e => LibErrors [e]
  end.

(** Nested struct values are validated along with the struct that holds
    them. *)
Definition nested_fields (a : any) : list Field :=
  match a with AStruct fs => fs | _ => [] end.

Definition is_zero (v : scalar) : bool :=
  match v with
  | SNil => true
  | SString s => String.eqb s ""
  | SInt z => z =? 0
  | SBool b => negb b
  end.

(** The built-in rules used by the struct tags of this package, all on
    string and integer fields. *)
Definition required : Rule :=
  {| rule_tag := "required"; rule_param := ""; rule_ok := fun v => negb (is_zero v) |}.

Definition eq_rule (param : string) : Rule :=
  {| rule_tag := "eq"; rule_param := param;
     rule_ok := fun v => match v with SString s => String.eqb s param | _ => false end |}.

Definition itoa (z : Z) : string := NilZero.string_of_int (Z.to_int z).

Definition min_rule (n : nat) : Rule :=
  {| rule_tag := "min"; rule_param := itoa (Z.of_nat n);
     rule_ok := fun v => match v with
                         | SString s => Nat.leb n (String.length s)
                         | SInt z => Z.of_nat n <=? z
                         | _ => false
                         end |}.

(* ===================================================================== *)
(** * internal/jsonrpc: validator.go *)
(* ===================================================================== *)

Record ValidationError := {
  VE_Field : string;
  VE_Tag : string;
  VE_Value : scalar;
  VE_Param : string;
  VE_Message : string
}.

(** The values of Go's [error] that travel through this package: the
    package's own ValidationErrors, or any other error, kept by its text. *)
Inductive error :=
| ValidationErrors (errs : list ValidationError)
| OtherError (msg : string).

(** The Error() method of both error shapes. *)
Definition error_Error (e : error) : string :=
  match e with
  | ValidationErrors [] => "validation errors"
  | ValidationErrors errs => "validation failed: " +:+ Join (map VE_Message errs) "; "
  | OtherError msg => msg
  end.

(** fmt's %v on a field value. *)
Definition fmt_v (v : scalar) : string :=
  match v with
  | SNil => "<nil>"
  | SString s => s
  | SInt z => itoa z
  | SBool true => "true"
  | SBool false => "false"
  end.

Definition fmt_len (v : scalar) : string :=
  itoa (Z.of_nat (String.length (fmt_v v))).

(** Validator.validateSessionCode, on the string of the field, for ASCII
    codes. *)
Definition validateSessionCode (code : string) : bool :=
  if String.eqb code "" then false
  else
    let normalized := ToLower (TrimSpace code) in
    let parts := Split normalized "-"%char in
    if negb (Nat.eqb (List.length parts) 3) then false
    else if existsb (fun part => String.eqb (TrimSpace part) "") parts then false
    else
      let lastPart := nth 2 parts "" in
      if Nat.eqb (String.length lastPart) 0 || Nat.ltb 2 (String.length lastPart)
      then false
      else
        match Sscanf_d lastPart with
        | None => false
        | Some number => (number >=? 1) && (number <=? 99)
        end.

(** Validator.validateJSONRPCVersion *)
Definition validateJSONRPCVersion (version : string) : bool :=
  String.eqb version Version.

(** The two custom rules of registerCustomValidators. *)
Definition sessioncode : Rule :=
  {| rule_tag := "sessioncode"; rule_param := "";
     rule_ok := fun v => match v with SString s => validateSessionCode s | _ => false end |}.

Definition jsonrpcversion : Rule :=
  {| rule_tag := "jsonrpcversion"; rule_param := "";
     rule_ok := fun v => match v with SString s => validateJSONRPCVersion s | _ => false end |}.

(** Validator.buildErrorMessage *)
Definition buildErrorMessage (e : FieldError) : string :=
  let field := fe_Field e in
  let tag := fe_Tag e in
  let param := fe_Param e in
  let value := fe_Value e in
  if String.eqb tag "required" then
    "field '" +:+ field +:+ "' is required"
  else if String.eqb tag "eq" then
    "field '" +:+ field +:+ "' must equal '" +:+ param +:+ "', got '" +:+ fmt_v value +:+ "'"
  else if String.eqb tag "min" then
    if kind_is_string value then
      "field '" +:+ field +:+ "' must be at least " +:+ param +:+ " characters long, got " +:+ fmt_len value
    else
      "field '" +:+ field +:+ "' must be at least " +:+ param +:+ ", got '" +:+ fmt_v value +:+ "'"
  else if String.eqb tag "max" then
    if kind_is_string value then
      "field '" +:+ field +:+ "' must be at most " +:+ param +:+ " characters long, got " +:+ fmt_len value
    else
      "field '" +:+ field +:+ "' must be at most " +:+ param +:+ ", got '" +:+ fmt_v value +:+ "'"
  else if String.eqb tag "len" then
    "field '" +:+ field +:+ "' must be exactly " +:+ param +:+ " in length, got " +:+ fmt_len value
  else if String.eqb tag "oneof" then
    "field '" +:+ field +:+ "' must be one of [" +:+ param +:+ "], got '" +:+ fmt_v value +:+ "'"
  else if String.eqb tag "email" then
    "field '" +:+ field +:+ "' must be a valid email address, got '" +:+ fmt_v value +:+ "'"
  else if String.eqb tag "url" then
    "field '" +:+ field +:+ "' must be a valid URL, got '" +:+ fmt_v value +:+ "'"
  else if String.eqb tag "numeric" then
    "field '" +:+ field +:+ "' must be numeric, got '" +:+ fmt_v value +:+ "'"
  else if String.eqb tag "alpha" then
    "field '" +:+ field +:+ "' must contain only alphabetic characters, got '" +:+ fmt_v value +:+ "'"
  else if String.eqb tag "alphanum" then
    "field '" +:+ field +:+ "' must contain only alphanumeric characters, got '" +:+ fmt_v value +:+ "'"
  else if String.eqb tag "sessioncode" then
    "field '" +:+ field +:+ "' must be a valid session code in format 'adjective-noun-number' (e.g., 'happy-panda-42'), got '" +:+ fmt_v value +:+ "'"
  else if String.eqb tag "jsonrpcversion" then
    "field '" +:+ field +:+ "' must be exactly '2.0' for JSON-RPC 2.0 compliance, got '" +:+ fmt_v value +:+ "'"
  else if String.eqb tag "gt" then
    "field '" +:+ field +:+ "' must be greater than " +:+ param +:+ ", got '" +:+ fmt_v value +:+ "'"
  else if String.eqb tag "gte" then
    "field '" +:+ field +:+ "' must be greater than or equal to " +:+ param +:+ ", got '" +:+ fmt_v value +:+ "'"
  else if String.eqb tag "lt" then
    "field '" +:+ field +:+ "' must be less than " +:+ param +:+ ", got '" +:+ fmt_v value +:+ "'"
  else if String.eqb tag "lte" then
    "field '" +:+ field +:+ "' must be less than or equal to " +:+ param +:+ ", got '" +:+ fmt_v value +:+ "'"
  else if String.eqb tag "dive" then
    "field '" +:+ field +:+ "' contains invalid nested values"
  else
    "field '" +:+ field +:+ "' failed validation rule '" +:+ tag +:+ "' with value '" +:+ fmt_v value +:+ "'".

(** The conversion done in the body of the loop of Validate. *)
Definition customErr (e : FieldError) : ValidationError :=
  {| VE_Field := fe_Field e; VE_Tag := fe_Tag e; VE_Value := fe_Value e;
     VE_Param := fe_Param e; VE_Message := buildErrorMessage e |}.

(** The loop [for _, validationErr := range validationErrs] with its
    [break] at the end of the first iteration. *)
Definition convert_first (errs : list FieldError) (conv : FieldError -> ValidationError)
  : list ValidationError :=
  match errs with
  | [] => []
  | validationErr :: _ => [conv validationErr]
  end.

(** Validator.Validate *)
Definition Validate (s : any) : option error :=
  match validate_Struct s with
  | LibOk => None
  | LibErrors validationErrs => Some (ValidationErrors (convert_first validationErrs customErr))
  | LibInvalid msg => Some (OtherError msg)
  end.

(** Validator.ValidateVar: as Validate, with the generic field name. *)
Definition ValidateVar (field : scalar) (rules : list Rule) : option error :=
  match validate_Var field rules with
  | LibOk => None
  | LibErrors validationErrs =>
      Some (ValidationErrors (convert_first validationErrs
              (fun e => {| VE_Field := "value"; VE_Tag := fe_Tag e; VE_Value := fe_Value e;
                           VE_Param := fe_Param e; VE_Message := buildErrorMessage e |})))
  | LibInvalid msg => Some (OtherError msg)
  end.

(** The struct tags of Error, Request and Response in types.go. *)
Definition Error_fields (e : Error) : list Field :=
  [ {| field_name := "code"; field_value := SInt (Error_Code e); field_rules := [required] |};
    {| field_name := "message"; field_value := SString (Error_Message e);
       field_rules := [required; min_rule 1] |} ]
  ++ nested_fields (Error_Data e).

Definition Request_struct (r : Request) : any :=
  AStruct
    ([ {| field_name := "jsonrpc"; field_value := SString (Request_JSONRPCVersion r);
          field_rules := [required; eq_rule "2.0"] |};
       {| field_name := "method"; field_value := SString (Request_Method r);
          field_rules := [required; min_rule 1] |} ]
     ++ nested_fields (Request_ID r)).

Definition Response_struct (r : Response) : any :=
  AStruct
    ([ {| field_name := "jsonrpc"; field_value := SString (Response_JSONRPCVersion r);
          field_rules := [required; eq_rule "2.0"] |} ]
     ++ nested_fields (Response_Result r)
     ++ match Response_Error r with Some e => Error_fields e | None => [] end
     ++ nested_fields (Response_ID r)).

(** Validator.ValidateRequest; [None] is the nil pointer. *)
Definition ValidateRequest (req : option Request) : option error :=
  match req with
  | None => Some (ValidationErrors
                    [ {| VE_Field := "request"; VE_Tag := "required"; VE_Value := SNil;
                         VE_Param := ""; VE_Message := "request cannot be nil" |} ])
  | Some r => Validate (Request_struct r)
  end.

(** Validator.ValidateResponse *)
Definition ValidateResponse (resp : option Response) : option error :=
  match resp with
  | None => Some (ValidationErrors
                    [ {| VE_Field := "response"; VE_Tag := "required"; VE_Value := SNil;
                         VE_Param := ""; VE_Message := "response cannot be nil" |} ])
  | Some r => Validate (Response_struct r)
  end.

(** Validator.ValidateSessionCode *)
Definition ValidateSessionCode (code : string) : option error :=
  ValidateVar (SString code) [required; sessioncode].

End JsonRpc.

(* ===================================================================== *)
(** * internal/jsonrpc: router.go *)
(* ===================================================================== *)

Module Router.
Import GoStrings JsonRpc.

(** What a call of a handler does: it returns its pair, or it panics. *)
Inductive HandlerOutcome :=
| Returns (result : any) (err : option error)
| Panics (r : string).

(** HandlerFunc, as a function of the raw params (the context carries no
    data the router looks at). *)
Definition HandlerFunc := option string -> HandlerOutcome.

(** reflect.Type values are named by a number. *)
Definition GoType := nat.

(** A schema held in an [interface{}]: a reflect.Type, or any other
    value, which is then itself the target of json.Unmarshal. *)
Inductive Schema :=
| SchemaType (schemaType : GoType)
| SchemaValue (instance : any).

Record MethodInfo := {
  Handler : option HandlerFunc;
  ParamsSchema : option Schema;
  ResultSchema : option Schema;
  Description : string;
  ValidateParams : bool;
  ValidateResult : bool
}.

Definition emptyMethodInfo : MethodInfo :=
  {| Handler := None; ParamsSchema := None; ResultSchema := None;
     Description := ""; ValidateParams := false; ValidateResult := false |}.

Definition with_Handler (info : MethodInfo) (h : option HandlerFunc) : MethodInfo :=
  {| Handler := h; ParamsSchema := ParamsSchema info; ResultSchema := ResultSchema info;
     Description := Description info; ValidateParams := ValidateParams info;
     ValidateResult := ValidateResult info |}.

Definition with_ParamsSchema (info : MethodInfo) (s : option Schema) : MethodInfo :=
  {| Handler := Handler info; ParamsSchema := s; ResultSchema := ResultSchema info;
     Description := Description info; ValidateParams := ValidateParams info;
     ValidateResult := ValidateResult info |}.

(** The router is its method table; the validator holds no state. *)
Record Router := {
  methods : gmap string MethodInfo
}.

Definition NewRouter : Router := {| methods := ∅ |}.

(** Router.RegisterMethod.  [handler = None] is the nil handler and
    [info = None] the nil info pointer, for which the call allocates the
    struct itself.  The Go method writes the handler into the struct that
    [info] points to and stores that pointer.  [info = Some i] stands for
    a pointer to a struct with the contents [i] that no entry of the
    table shares: the table holds contents, not pointers, so two names
    registered with one and the same struct, which in Go then show the
    handler written last, are not described by this definition.  The
    calls that fail return before the write and are described for every
    [info]. *)
Definition RegisterMethod (r : Router) (methodName : string)
           (handler : option HandlerFunc) (info : option MethodInfo)
  : option error * Router :=
  if String.eqb methodName "" then
    (Some (OtherError "method name cannot be empty"), r)
  else
    match handler with
    | None => (Some (OtherError "handler cannot be nil"), r)
    | Some _ =>
        match ValidateVar (SString methodName) [required; min_rule 1] with
        | Some err => (Some (OtherError ("invalid method name: " +:+ error_Error err)), r)
        | None =>
            match methods r !! methodName with
            | Some _ =>
                (Some (OtherError ("method '" +:+ methodName +:+ "' is already registered")), r)
            | None =>
                let info := match info with Some i => i | None => emptyMethodInfo end in
                let info := with_Handler info handler in
                (None, {| methods := <[methodName := info]> (methods r) |})
            end
        end
    end.

Definition is_some {A} (o : option A) : bool :=
  match o with Some _ => true | None => false end.

(** Router.RegisterMethodWithValidation *)
Definition RegisterMethodWithValidation (r : Router) (methodName : string)
           (handler : option HandlerFunc) (paramsSchema resultSchema : option Schema)
           (description : string) : option error * Router :=
  let info := {| Handler := None; ParamsSchema := paramsSchema; ResultSchema := resultSchema;
                 Description := description;
                 ValidateParams := is_some paramsSchema;
                 ValidateResult := is_some resultSchema |} in
  RegisterMethod r methodName handler (Some info).

(** Router.RegisterSimpleMethod *)
Definition RegisterSimpleMethod (r : Router) (methodName : string)
           (handler : option HandlerFunc) (description : string) : option error * Router :=
  let info := {| Handler := None; ParamsSchema := None; ResultSchema := None;
                 Description := description;
                 ValidateParams := false; ValidateResult := false |} in
  RegisterMethod r methodName handler (Some info).

(** Router.UnregisterMethod *)
Definition UnregisterMethod (r : Router) (methodName : string) : option error * Router :=
  match methods r !! methodName with
  | None => (Some (OtherError ("method '" +:+ methodName +:+ "' is not registered")), r)
  | Some _ => (None, {| methods := delete methodName (methods r) |})
  end.

(** Router.HasMethod *)
Definition HasMethod (r : Router) (methodName : string) : bool :=
  is_some (methods r !! methodName).

(** Router.MethodCount *)
Definition MethodCount (r : Router) : Z := Z.of_nat (size (methods r)).

(** Router.Clear *)
Definition Clear (r : Router) : Router := {| methods := ∅ |}.

(** Router.callHandler: a panic of the handler, also the one of calling a
    nil function value, is recovered into an error. *)
Definition callHandler (handler : option HandlerFunc) (params : option string)
  : any * option error :=
  match handler with
  | None =>
      (nil, Some (OtherError
         "handler panic: runtime error: invalid memory address or nil pointer dereference"))
  | Some h =>
      match h params with
      | Returns result err => (result, err)
      | Panics r => (nil, Some (OtherError ("handler panic: " +:+ r)))
      end
  end.

(** Router.createValidationError *)
Definition createValidationError (err : error) : Error :=
  match err with
  | ValidationErrors (e0 :: _) =>
      NewErrorWithData InvalidRequest "Request validation failed"
                       (AScalar (SString (VE_Message e0)))
  | _ => NewErrorWithData InvalidRequest "Request validation failed"
                          (AScalar (SString (error_Error err)))
  end.

(** Router.createParamsError *)
Definition createParamsError (err : error) : Error :=
  match err with
  | ValidationErrors (e0 :: _) =>
      NewErrorWithData InvalidParams "Parameter validation failed"
                       (AScalar (SString (VE_Message e0)))
  | _ => NewErrorWithData InvalidParams "Parameter validation failed"
                          (AScalar (SString (error_Error err)))
  end.

(** Router.createInternalError *)
Definition createInternalError (err : error) : Error :=
  NewErrorWithData InternalError "Internal error" (AScalar (SString (error_Error err))).

Section Routing.

(** The standard library the router calls into. *)

(** json.Unmarshal(params, target): the error, if any, and the target
    after the call. *)
Variable json_Unmarshal : string -> any -> option string * any.
(** reflect.New(t).Interface(): a fresh zero instance of the type. *)
Variable reflect_New : GoType -> any.
(** reflect.TypeOf, Type.AssignableTo and the %v of a type. *)
Variable reflect_TypeOf : any -> GoType.
Variable AssignableTo : GoType -> GoType -> bool.
Variable type_String : GoType -> string.
(** json.Unmarshal(requestJSON, &request) and json.Marshal(response). *)
Variable json_Unmarshal_Request : string -> Request + string.
Variable json_Marshal_Response : Response -> string + string.

(** Router.validateParams.  Unmarshalling into a schema that is not a
    reflect.Type writes into the registered schema value itself, so the
    schema after the call is returned with the verdict. *)
Definition validateParams (params : option string) (schema : Schema)
  : option error * Schema :=
  match params with
  | None => (None, schema)
  | Some p =>
      match schema with
      | SchemaType schemaType =>
          let '(err, instance) := json_Unmarshal p (reflect_New schemaType) in
          match err with
          | Some e => (Some (OtherError ("failed to parse params: " +:+ e)), schema)
          | None => (Validate instance, schema)
          end
      | SchemaValue target =>
          let '(err, target') := json_Unmarshal p target in
          match err with
          | Some e => (Some (OtherError ("failed to parse params: " +:+ e)), SchemaValue target')
          | None => (Validate target', SchemaValue target')
          end
      end
  end.

(** Router.validateResult *)
Definition validateResult (result : any) (schema : Schema) : option error :=
  if is_nil result then None
  else
    match schema with
    | SchemaType schemaType =>
        let resultType := reflect_TypeOf result in
        if negb (AssignableTo resultType schemaType) then
          Some (OtherError ("result type " +:+ type_String resultType +:+
                            " is not assignable to schema type " +:+ type_String schemaType))
        else Validate result
    | SchemaValue _ => Validate result
    end.

(** The params check shared by Route and routeNotification:
    [if methodInfo.ValidateParams && methodInfo.ParamsSchema != nil]. *)
Definition checkParams (r : Router) (name : string) (methodInfo : MethodInfo)
           (params : option string) : option error * Router :=
  match ValidateParams methodInfo, ParamsSchema methodInfo with
  | true, Some schema =>
      let '(err, schema') := validateParams params schema in
      (err, {| methods := <[name := with_ParamsSchema methodInfo (Some schema')]> (methods r) |})
  | _, _ => (None, r)
  end.

(** Router.routeNotification *)
Definition routeNotification (r : Router) (request : Request) : Router :=
  match methods r !! Request_Method request with
  | None => r
  | Some methodInfo =>
      let '(err, r') := checkParams r (Request_Method request) methodInfo
                                    (Request_Params request) in
      match err with
      | Some _ => r'
      | None =>
          let _ := callHandler (Handler methodInfo) (Request_Params request) in r'
      end
  end.

(** Router.Route; the router is returned for the sake of the schema
    values that validateParams may have written. *)
Definition Route (r : Router) (request : Request) : option Response * Router :=
  match ValidateRequest (Some request) with
  | Some err => (Some (NewErrorResponse (createValidationError err) (Request_ID request)), r)
  | None =>
      if IsNotification request then (None, routeNotification r request)
      else
        match methods r !! Request_Method request with
        | None => (Some (NewErrorResponse ErrMethodNotFound (Request_ID request)), r)
        | Some methodInfo =>
            let '(perr, r') := checkParams r (Request_Method request) methodInfo
                                           (Request_Params request) in
            match perr with
            | Some err =>
                (Some (NewErrorResponse (createParamsError err) (Request_ID request)), r')
            | None =>
                let '(result, herr) :=
                  callHandler (Handler methodInfo) (Request_Params request) in
                match herr with
                | Some err =>
                    (Some (NewErrorResponse (createInternalError err) (Request_ID request)), r')
                | None =>
                    let rerr :=
                      match ValidateResult methodInfo, ResultSchema methodInfo with
                      | true, Some schema => validateResult result schema
                      | _, _ => None
                      end in
                    match rerr with
                    | Some err =>
                        (Some (NewErrorResponse
                                 (createInternalError
                                    (OtherError ("result validation failed: " +:+ error_Error err)))
                                 (Request_ID request)), r')
                    | None =>
                        let response := NewResponse result (Request_ID request) in
                        match ValidateResponse (Some response) with
                        | Some err =>
                            (Some (NewErrorResponse
                                     (createInternalError
                                        (OtherError ("response validation failed: "
                                                     +:+ error_Error err)))
                                     (Request_ID request)), r')
                        | None => (Some response, r')
                        end
                    end
                end
            end
        end
  end.

(** The pair ([]byte, error) a call returns; [None] is nil. *)
Definition marshal_pair (m : string + string) : option string * option string :=
  match m with
  | inl bytes => (Some bytes, None)
  | inr e => (None, Some e)
  end.

(** Router.RouteJSON *)
Definition RouteJSON (r : Router) (requestJSON : string)
  : (option string * option string) * Router :=
  match json_Unmarshal_Request requestJSON with
  | inr _ =>
      let response := NewErrorResponse ErrParse nil in
      (marshal_pair (json_Marshal_Response response), r)
  | inl request =>
      let '(response, r') := Route r request in
      match response with
      | None => ((None, None), r')
      | Some response =>
          match json_Marshal_Response response with
          | inl responseJSON => ((Some responseJSON, None), r')
          | inr _ =>
              let errorResponse := NewErrorResponse ErrInternal (Request_ID request) in
              ((fst (marshal_pair (json_Marshal_Response errorResponse)), None), r')
          end
      end
  end.

End Routing.

End Router.

(* ===================================================================== *)
(** * internal/websocket: hub.go and client.go *)
(* ===================================================================== *)

Module Websocket.
Import JsonRpc.

(** A buffered channel of messages: what is queued, the capacity it was
    made with, and whether it has been closed. *)
Record Chan := {
  buf : list string;
  cap : nat;
  closed : bool
}.

Definition make_chan (capacity : nat) : Chan :=
  {| buf := []; cap := capacity; closed := false |}.

(** The send case of a [select] with a [default]: sending on a closed
    channel panics, a channel with room takes the message, and otherwise
    the default case runs. *)
Inductive TrySend :=
| SendPanics
| Sent (ch : Chan)
| QueueFull.

Definition try_send (ch : Chan) (message : string) : TrySend :=
  if closed ch then SendPanics
  else if Nat.ltb (List.length (buf ch)) (cap ch)
       then Sent {| buf := buf ch ++ [message]; cap := cap ch; closed := closed ch |}
       else QueueFull.

(** The receive case of a [select] with a [default]: a queued message is
    taken if there is one, a closed and drained channel yields the zero
    value, and otherwise the default case runs. *)
Inductive TryRecv :=
| Received (ch : Chan)
| NotReady.

Definition try_recv (ch : Chan) : TryRecv :=
  match buf ch with
  | _ :: rest => Received {| buf := rest; cap := cap ch; closed := closed ch |}
  | [] => if closed ch then Received ch else NotReady
  end.

(** close(ch): closing a closed channel panics. *)
Definition close_chan (ch : Chan) : option Chan :=
  if closed ch then None
  else Some {| buf := buf ch; cap := cap ch; closed := true |}.

(** Clients are referred to by pointer; the fields of Client that the hub
    reads and writes. *)
Definition ptr := nat.

Record Client := {
  sessionCode : string;
  send : Chan
}.

Definition with_send (c : Client) (ch : Chan) : Client :=
  {| sessionCode := sessionCode c; send := ch |}.

(** NewClient: the queue is made with room for 256 messages. *)
Definition NewClient (code : string) : Client :=
  {| sessionCode := code; send := make_chan 256 |}.

Record Hub := {
  clients : gset ptr;
  sessions : gmap string ptr
}.

Definition NewHub : Hub := {| clients := ∅; sessions := ∅ |}.

(** What travels over the hub's register, unregister and broadcast
    channels. *)
Inductive HubRequest :=
| ReqRegister (client : ptr)
| ReqUnregister (client : ptr)
| ReqBroadcast (message : string).

(** The goroutine that runs a piece of code: the one that runs Hub.Run,
    or any other (a connection's pumps, an HTTP handler). *)
Inductive Goroutine :=
| HubLoop
| Other.

(** The hub, the clients it points to, the requests that other
    goroutines are handing to the hub and that Run has not yet taken,
    the router the clients share ([None] when they were built with a nil
    router), and whether the goroutine of Run is blocked for good.

    The register, unregister and broadcast channels of the hub have no
    buffer and Run is their only receiver.  A goroutine other than the
    hub's that sends on one of them waits until Run takes the request:
    the pending request in [inbox] stands for it.  A send by the
    goroutine of Run itself is never taken: that is [hub_blocked]. *)
Record World := {
  hub : Hub;
  heap : gmap ptr Client;
  inbox : list HubRequest;
  router : option Router.Router;
  hub_blocked : bool
}.

Definition set_hub (w : World) (h : Hub) : World :=
  {| hub := h; heap := heap w; inbox := inbox w; router := router w;
     hub_blocked := hub_blocked w |}.

Definition set_client (w : World) (p : ptr) (c : Client) : World :=
  {| hub := hub w; heap := <[p := c]> (heap w); inbox := inbox w; router := router w;
     hub_blocked := hub_blocked w |}.

Definition submit (w : World) (req : HubRequest) : World :=
  {| hub := hub w; heap := heap w; inbox := inbox w ++ [req]; router := router w;
     hub_blocked := hub_blocked w |}.

Definition set_router (w : World) (r : option Router.Router) : World :=
  {| hub := hub w; heap := heap w; inbox := inbox w; router := r;
     hub_blocked := hub_blocked w |}.

Definition set_blocked (w : World) : World :=
  {| hub := hub w; heap := heap w; inbox := inbox w; router := router w;
     hub_blocked := true |}.

(** Hub.RegisterClient and Hub.BroadcastMessage, called by goroutines
    other than the hub's: the argument is handed to the goroutine that
    runs Run. *)
Definition RegisterClient (w : World) (client : ptr) : World :=
  submit w (ReqRegister client).

Definition BroadcastMessage (w : World) (message : string) : World :=
  submit w (ReqBroadcast message).

(** Hub.UnregisterClient, [h.unregister <- client], run by goroutine [g].
    From another goroutine the request waits for Run to take it.  From
    the goroutine of Run itself, which is how broadcastMessage calls it,
    nobody is left to receive: the send never completes and the hub is
    blocked. *)
Definition UnregisterClient (g : Goroutine) (w : World) (client : ptr) : World :=
  match g with
  | Other => submit w (ReqUnregister client)
  | HubLoop => set_blocked w
  end.

(** In what follows [None] is a panic of the running goroutine (also the
    one of following a pointer that is not in the store). *)

(** Hub.registerClient *)
Definition registerClient (w : World) (client : ptr) : option World :=
  c ← heap w !! client;
  Some (set_hub w {| clients := {[client]} ∪ clients (hub w);
                     sessions := <[sessionCode c := client]> (sessions (hub w)) |}).

(** Hub.unregisterClient *)
Definition unregisterClient (w : World) (client : ptr) : option World :=
  if decide (client ∈ clients (hub w)) then
    c ← heap w !! client;
    let w := set_hub w {| clients := clients (hub w) ∖ {[client]};
                          sessions := delete (sessionCode c) (sessions (hub w)) |} in
    match try_recv (send c) with
    | Received ch => Some (set_client w client (with_send c ch))
    | NotReady =>
        ch ← close_chan (send c);
        Some (set_client w client (with_send c ch))
    end
  else Some w.

(** What the [select] of the hub did: the message is in the queue, or
    the queue was full and the default case has run. *)
Inductive Enqueue :=
| Enqueued (w : World)
| Evicted (w : World).

(** The body of the two [select] statements of the hub, run by
    goroutine [g]: enqueue, or close the queue and call
    UnregisterClient. *)
Definition send_or_evict (g : Goroutine) (w : World) (client : ptr) (message : string)
  : option Enqueue :=
  c ← heap w !! client;
  match try_send (send c) message with
  | SendPanics => None
  | Sent ch => Some (Enqueued (set_client w client (with_send c ch)))
  | QueueFull =>
      ch ← close_chan (send c);
      Some (Evicted (UnregisterClient g (set_client w client (with_send c ch)) client))
  end.

(** Hub.SendToSession, called by goroutines other than the hub's.  After
    an eviction the caller is the one waiting for Run to take the
    request. *)
Definition SendToSession (w : World) (code : string) (message : string) : option World :=
  match sessions (hub w) !! code with
  | None => Some w
  | Some client =>
      match send_or_evict Other w client message with
      | Some (Enqueued w') => Some w'
      | Some (Evicted w') => Some w'
      | None => None
      end
  end.

(** The loop of broadcastMessage over the snapshot, in the goroutine of
    Run.  The call of UnregisterClient after an eviction does not
    return, so the loop goes no further: the clients that come later in
    the snapshot are not visited. *)
Fixpoint broadcastLoop (w : World) (snapshot : list ptr) (message : string) : option World :=
  match snapshot with
  | [] => Some w
  | client :: rest =>
      match send_or_evict HubLoop w client message with
      | Some (Enqueued w') => broadcastLoop w' rest message
      | Some (Evicted w') => Some w'
      | None => None
      end
  end.

(** Hub.broadcastMessage: the snapshot is taken first; Go leaves its
    order open, [elements] fixes one. *)
Definition broadcastMessage (w : World) (message : string) : option World :=
  broadcastLoop w (elements (clients (hub w))) message.

(** One turn of the loop of Hub.Run: the request taken from one of the
    three channels is served. *)
Definition serve (w : World) (req : HubRequest) : option World :=
  match req with
  | ReqRegister client => registerClient w client
  | ReqUnregister client => unregisterClient w client
  | ReqBroadcast message => broadcastMessage w message
  end.

(** The loop of Run over the requests it receives, one at a time.  A hub
    that is blocked takes no request any more. *)
Fixpoint Run (w : World) (reqs : list HubRequest) : option World :=
  match reqs with
  | [] => Some w
  | req :: rest =>
      if hub_blocked w then Some w
      else w' ← serve w req; Run w' rest
  end.

(** Hub.GetClientCount, Hub.HasSession *)
Definition GetClientCount (w : World) : Z := Z.of_nat (size (clients (hub w))).

Definition HasSession (w : World) (code : string) : bool :=
  Router.is_some (sessions (hub w) !! code).

(** The [select] of Client.Send, processJSONRPCMessage and
    sendJSONRPCError: enqueue, or drop the message. *)
Definition send_or_drop (w : World) (client : ptr) (message : string) : option World :=
  c ← heap w !! client;
  match try_send (send c) message with
  | SendPanics => None
  | Sent ch => Some (set_client w client (with_send c ch))
  | QueueFull => Some w
  end.

(** Client.Send *)
Definition Send (w : World) (client : ptr) (message : string) : option World :=
  send_or_drop w client message.

Section ClientPumps.

Variable json_Unmarshal : string -> any -> option string * any.
Variable reflect_New : Router.GoType -> any.
Variable reflect_TypeOf : any -> Router.GoType.
Variable AssignableTo : Router.GoType -> Router.GoType -> bool.
Variable type_String : Router.GoType -> string.
Variable json_Unmarshal_Request : string -> Request + string.
Variable json_Marshal_Response : Response -> string + string.

(** Client.sendJSONRPCError *)
Definition sendJSONRPCError (w : World) (client : ptr) (id : any) (rpcError : Error)
           (details : string) : option World :=
  let err := if negb (String.eqb details "")
             then NewErrorWithData (Error_Code rpcError) (Error_Message rpcError)
                                   (AScalar (SString details))
             else rpcError in
  let response := NewErrorResponse err id in
  match json_Marshal_Response response with
  | inr _ => Some w
  | inl responseBytes => send_or_drop w client responseBytes
  end.

(** Client.processJSONRPCMessage *)
Definition processJSONRPCMessage (w : World) (client : ptr) (message : string)
  : option World :=
  match router w with
  | None => sendJSONRPCError w client nil ErrInternal "JSON-RPC router not available"
  | Some r =>
      let '((responseBytes, err), r') :=
        Router.RouteJSON json_Unmarshal reflect_New reflect_TypeOf AssignableTo
                         type_String json_Unmarshal_Request json_Marshal_Response
                         r message in
      let w := set_router w (Some r') in
      match err with
      | Some e => sendJSONRPCError w client nil ErrInternal e
      | None =>
          match responseBytes with
          | None => Some w
          | Some responseBytes => send_or_drop w client responseBytes
          end
      end
  end.

End ClientPumps.

End Websocket.

(* ===================================================================== *)
(** * The session-code format, in words *)
(* ===================================================================== *)

Module SessionCodeSpec.
Import GoStrings Generator.

(** The format as the specification words it: after trimming and
    lowercasing, exactly three dash-separated non-empty segments, the
    last of which parses as an integer in [1,99].  "Parses as an integer"
    is read as strconv.Atoi reads it: the whole segment is an optional
    sign followed by decimal digits and nothing else. *)
Definition parses_as_integer (s : string) : option Z :=
  match s with
  | EmptyString => None
  | String c rest =>
      if byte c =? 43 then
        match rest with EmptyString => None | _ => parse_decimal 0 rest end
      else if byte c =? 45 then
        match rest with EmptyString => None | _ => option_map Z.opp (parse_decimal 0 rest) end
      else parse_decimal 0 s
  end.

Definition spec_IsValidFormat (code : string) : bool :=
  match Split (ToLower (TrimSpace code)) dash with
  | [a; b; n] =>
      negb (String.eqb a "") && negb (String.eqb b "") && negb (String.eqb n "")
      && match parses_as_integer n with
         | Some k => (1 <=? k) && (k <=? 99)
         | None => false
         end
  | _ => false
  end.

(** The shape the code accepts. *)

Fixpoint no_dash (s : string) : bool :=
  match s with
  | EmptyString => true
  | String c s' => negb (Ascii.eqb c dash) && no_dash s'
  end.

(** A segment is blank when it holds white space only (or nothing). *)
Fixpoint blank (s : string) : bool :=
  match s with
  | EmptyString => true
  | String c s' => isSpace c && blank s'
  end.

Definition nonzero_digit (c : ascii) : bool := (49 <=? byte c) && (byte c <=? 57).

(** The last segments from which Sscanf reads a number in [1,99] out of
    at most two bytes: a digit 1-9; two digits other than 00; a plus
    sign or a white-space byte other than the newline, then a digit 1-9;
    a digit 1-9 followed by one byte that is not a digit (Sscanf reads
    the digit and leaves that byte unread). *)
Definition last_segment_ok (n : string) : bool :=
  match n with
  | String d EmptyString => nonzero_digit d
  | String c1 (String c2 EmptyString) =>
      (is_digit c1 && is_digit c2 && negb ((byte c1 =? 48) && (byte c2 =? 48)))
      || ((byte c1 =? 43) && nonzero_digit c2)
      || (isSpace c1 && negb (byte c1 =? 10) && nonzero_digit c2)
      || (nonzero_digit c1 && negb (is_digit c2))
  | _ => false
  end.

Definition accepted_shape (code : string) : Prop :=
  exists a b n : string,
    ToLower (TrimSpace code) = a +:+ "-" +:+ b +:+ "-" +:+ n
    /\ no_dash a = true /\ no_dash b = true /\ no_dash n = true
    /\ blank a = false /\ blank b = false
    /\ last_segment_ok n = true.

(** The checks IsValidFormat runs on the last part. *)
Definition last_part_check (lastPart : string) : bool :=
  if Nat.eqb (String.length lastPart) 0 || Nat.ltb 2 (String.length lastPart)
  then false
  else
    match Sscanf_d lastPart with
    | None => false
    | Some number =>
        if (number <? 1) || (number >? 99) then false else true
    end.

(** The checks IsValidFormat runs on the normalized code. *)
Definition checks_after_normalize (normalized : string) : bool :=
  let parts := Split normalized dash in
  if negb (Nat.eqb (List.length parts) 3) then false
  else if existsb (fun part => String.eqb (TrimSpace part) "") parts then false
  else
    let lastPart := nth 2 parts "" in
    if Nat.eqb (String.length lastPart) 0 || Nat.ltb 2 (String.length lastPart)
    then false
    else
      match Sscanf_d lastPart with
      | None => false
      | Some number =>
          if (number <? 1) || (number >? 99) then false else true
      end.







(** Two codes that differ in the case of their letters only. *)
Definition same_up_to_case (c1 c2 : string) : Prop := ToLower c1 = ToLower c2.

(** The 256 bytes, for properties settled by running through them. *)
Definition all_bytes : list ascii := List.map ascii_of_nat (seq 0 256).

End SessionCodeSpec.

(* ===================================================================== *)
(** * Routing: the notions the properties use, and stand-ins for the libraries *)
(* ===================================================================== *)

Module RoutingSpec.
Import GoStrings JsonRpc Router.

(** Every rule violation of a struct value, field by field in declaration
    order and, within a field, rule by rule in the order of its tag. *)
Definition violations (fs : list Field) : list FieldError :=
  flat_map
    (fun f =>
       List.map (fun r => {| fe_Field := field_name f; fe_Tag := rule_tag r;
                             fe_Value := field_value f; fe_Param := rule_param r |})
                (List.filter (fun r => negb (rule_ok r (field_value f))) (field_rules f)))
    fs.

(** The five kinds of response Route can give to a request. *)
Definition response_kind_ok (resp : Response) : Prop :=
  Response_Error resp = None
  \/ exists e, Response_Error resp = Some e
               /\ (Error_Code e = InvalidRequest \/ Error_Code e = MethodNotFound
                   \/ Error_Code e = InvalidParams \/ Error_Code e = InternalError).

(** Stand-ins for encoding/json and reflect, used where a statement is
    run on a concrete input: every type is type 0, a target is left as it
    is, the wire bytes decode to the request they are said to carry, and
    a response is rendered by its error code. *)
Definition plain_Unmarshal (_ : string) (target : any) : option string * any :=
  (None, target).
Definition plain_New (_ : GoType) : any := AStruct [].
Definition plain_TypeOf (_ : any) : GoType := 0%nat.
Definition plain_AssignableTo (a b : GoType) : bool := Nat.eqb a b.
Definition plain_type_String (_ : GoType) : string := "T".
Definition decode_as (req : Request) (_ : string) : Request + string := inl req.
Definition render (resp : Response) : string + string :=
  inl (match Response_Error resp with
       | Some e => "error " +:+ itoa (Error_Code e)
       | None => "result"
       end).

(** A notification sent with the wrong protocol version. *)
Definition old_version_notification : Request :=
  {| Request_JSONRPCVersion := "1.0"; Request_Method := "ping";
     Request_Params := None; Request_ID := nil |}.

(** A request with an id, and a handler that answers it. *)
Definition ping_request : Request :=
  {| Request_JSONRPCVersion := "2.0"; Request_Method := "ping";
     Request_Params := None; Request_ID := AScalar (SInt 1) |}.

Definition pong : HandlerFunc := fun _ => Returns (AScalar (SString "pong")) None.

Definition ping_notification : Request :=
  {| Request_JSONRPCVersion := "2.0"; Request_Method := "ping";
     Request_Params := None; Request_ID := nil |}.

(** Params of a "join" method that break two rules at once: the name is
    missing and the code is not a session code. *)
Definition join_params : list Field :=
  [ {| field_name := "name"; field_value := SString ""; field_rules := [required] |};
    {| field_name := "code"; field_value := SString "happy-panda-100";
       field_rules := [required; sessioncode] |} ].

Definition join_Unmarshal (_ : string) (_ : any) : option string * any :=
  (None, AStruct join_params).

Definition join_router : Router :=
  snd (RegisterMethodWithValidation NewRouter "join" (Some pong)
         (Some (SchemaType 0%nat)) None "join a session").

Definition join_request : Request :=
  {| Request_JSONRPCVersion := "2.0"; Request_Method := "join";
     Request_Params := Some "{}"; Request_ID := AScalar (SString "r1") |}.

End RoutingSpec.

(* ===================================================================== *)
(** * The hub: worlds to run it in, and the notions the properties use *)
(* ===================================================================== *)

Module HubSpec.
Import JsonRpc Websocket.

(** Two connections opened for the same session code, not yet registered. *)
Definition two_clients_one_code : World :=
  {| hub := NewHub;
     heap := {[ 1%nat := NewClient "happy-panda-42"; 2%nat := NewClient "happy-panda-42" ]};
     inbox := [];
     router := None;
     hub_blocked := false |}.

(** One connection, not yet registered. *)
Definition one_client : World :=
  {| hub := NewHub;
     heap := {[ 1%nat := NewClient "happy-panda-42" ]};
     inbox := [];
     router := None;
     hub_blocked := false |}.

(** A queue is full when it holds as many messages as it has room for. *)
Definition full (ch : Chan) : bool := negb (Nat.ltb (List.length (buf ch)) (cap ch)).

(** [n] messages sent to a session one after the other. *)
Fixpoint send_many (w : World) (code : string) (n : nat) : option World :=
  match n with
  | O => Some w
  | S n' => w' ← SendToSession w code "tick"; send_many w' code n'
  end.

(** The registry is consistent when the index and the client set agree:
    the keys of the index are the session codes of the registered
    clients, and every client in the index is registered. *)
Definition registry_consistent (w : World) : Prop :=
  (forall code, is_Some (sessions (hub w) !! code) <->
                exists p c, p ∈ clients (hub w) /\ heap w !! p = Some c
                            /\ sessionCode c = code)
  /\ (forall code p, sessions (hub w) !! code = Some p -> p ∈ clients (hub w)).

(** The part of consistency that the code keeps: an entry of the index
    points to a registered client that carries the entry's code. *)
Definition index_sound (w : World) : Prop :=
  forall code p, sessions (hub w) !! code = Some p ->
    p ∈ clients (hub w)
    /\ exists c, heap w !! p = Some c /\ sessionCode c = code.

(** The world an enqueue of the hub leaves, whichever way it went. *)
Definition world_of (e : Enqueue) : World :=
  match e with Enqueued w => w | Evicted w => w end.

(** What the hub does to a queue when it sends to it. *)
Definition after_hub_send (ch : Chan) (message : string) : Chan :=
  if full ch then {| buf := buf ch; cap := cap ch; closed := true |}
  else {| buf := buf ch ++ [message]; cap := cap ch; closed := closed ch |}.

(** A registered connection whose queue has been filled to capacity. *)
Definition full_client : Client :=
  {| sessionCode := "happy-panda-42";
     send := {| buf := repeat "tick" 256; cap := 256; closed := false |} |}.

Definition full_world : World :=
  {| hub := {| clients := {[ 1%nat ]}; sessions := {[ "happy-panda-42" := 1%nat ]} |};
     heap := {[ 1%nat := full_client ]};
     inbox := [];
     router := None;
     hub_blocked := false |}.

End HubSpec.

(* ===================================================================== *)
(** * The session store: the notions the properties use *)
(* ===================================================================== *)

Module StoreSpec.
Import GoStrings Generator Manager.

(** Every session is stored under its own code. *)
Definition keys_are_codes (m : Manager) : Prop :=
  forall k s, sessions m !! k = Some s -> Code s = k.

(** Every key of the store is a well-formed, normalized code. *)
Definition keys_well_formed (m : Manager) : Prop :=
  forall k, is_Some (sessions m !! k) ->
    IsValidFormat k = true /\ NormalizeCode k = k.

(** The session [s] is in the store under the key [key]. *)
Definition stored_under (m : Manager) (key : string) (s : Session) : Prop :=
  sessions m !! key = Some s.

(** Options that differ from the defaults in the number of retries. *)
Definition opts_retries (n : Z) : SessionOptions :=
  {| MaxRetries := n; SessionTimeout := SessionTimeout DefaultSessionOptions;
     InitialData := ∅ |}.

(** A store with one session, created at time 0. *)
Definition panda : Session :=
  {| Code := "happy-panda-42"; CreatedAt := 0; LastAccessed := 0; Data := ∅ |}.

Definition one_session : Manager :=
  {| sessions := {[ "happy-panda-42" := panda ]}; options := DefaultSessionOptions |}.

End StoreSpec.

(* ===================================================================== *)
(** * internal/session: GenerateCode, sequences of operations, and the
      caller in the server package *)
(* ===================================================================== *)

Module SessionOps.
Import GoStrings Generator Manager.

(** Generator.GenerateCode.  [petName] is what petname.Generate(2, "-")
    returns and [r] what rng.Intn(99) returns. *)
Definition GenerateCode (petName : string) (r : Z) : string :=
  petName +:+ "-" +:+ JsonRpc.itoa (r + 1).

(** A word of the petname lists: lowercase letters only. *)
Definition is_lower (c : ascii) : bool := (97 <=? byte c) && (byte c <=? 122).

Fixpoint lowercase_word (s : string) : bool :=
  match s with
  | EmptyString => true
  | String c s' => is_lower c && lowercase_word s'
  end.

(** Manager.ListSessions; Go leaves the order of the codes open,
    [map_to_list] fixes one. *)
Definition ListSessions (m : Manager) : list string :=
  List.map fst (map_to_list (sessions m)).

(** The calls a user of the manager can make, each with the readings of
    the clock and the generator output it consumes. *)
Inductive StoreOp :=
| OpCreate (gen : nat -> string) (cancelled : nat -> bool) (now : Z)
           (opts : option SessionOptions)
| OpGet (now now' : Z) (code : string)
| OpUpdate (now now' : Z) (code : string) (data : gmap string scalar)
| OpDelete (code : string)
| OpCleanup (now : string -> Z).

Definition apply_op (m : Manager) (op : StoreOp) : Manager :=
  match op with
  | OpCreate gen cancelled now opts => snd (CreateSession m gen cancelled now opts)
  | OpGet now now' code => snd (GetSession m now now' code)
  | OpUpdate now now' code data => snd (UpdateSessionData m now now' code data)
  | OpDelete code => snd (DeleteSession m code)
  | OpCleanup now => snd (Cleanup m now)
  end.

Definition apply_ops (m : Manager) (ops : list StoreOp) : Manager :=
  fold_left apply_op ops m.

(** Server.handleWebSocket, from the query parameter to the call of
    ServeWS: the session code the new connection is given.  The code
    asked for is looked up; when that fails a session is created with the
    manager's own options and a context that is never cancelled.  [now]
    and [now'] are the clock readings of GetSession, [now''] that of
    CreateSession; an error is the answer "Failed to create session". *)
Definition handleWebSocket_session (m : Manager) (gen : nat -> string)
           (now now' now'' : Z) (sessionCode : string)
  : (string + SessionError) * Manager :=
  let '(sessionCode, m) :=
    if negb (String.eqb sessionCode "") then
      match GetSession m now now' sessionCode with
      | (inl existingSession, m') => (Code existingSession, m')
      | (inr _, m') => ("", m')
      end
    else (sessionCode, m) in
  if String.eqb sessionCode "" then
    match CreateSession m gen (fun _ => false) now'' None with
    | (inl newSession, m') => (inl (Code newSession), m')
    | (inr err, m') => (inr err, m')
    end
  else (inl sessionCode, m).

End SessionOps.

(* ===================================================================== *)
(** * internal/jsonrpc: the rest of types.go, validator.go and router.go *)
(* ===================================================================== *)

Module JsonRpcOps.
Import GoStrings JsonRpc Router.

(** Response.IsError, Response.IsSuccess *)
Definition IsError (r : Response) : bool := is_some (Response_Error r).
Definition IsSuccess (r : Response) : bool := negb (is_some (Response_Error r)).

Definition ServerErrorStart : Z := -32099.
Definition ServerErrorEnd : Z := -32000.

Definition ErrInvalidRequest : Error :=
  {| Error_Code := InvalidRequest; Error_Message := "Invalid Request"; Error_Data := nil |}.
Definition ErrInvalidParams : Error :=
  {| Error_Code := InvalidParams; Error_Message := "Invalid params"; Error_Data := nil |}.

(** NewError *)
Definition NewError (code : Z) (message : string) : Error :=
  {| Error_Code := code; Error_Message := message; Error_Data := nil |}.

(** IsValidErrorCode, IsReservedErrorCode, IsServerErrorCode *)
Definition IsValidErrorCode (code : Z) : bool := true.

Definition IsReservedErrorCode (code : Z) : bool :=
  (code >=? -32768) && (code <=? -32000).

Definition IsServerErrorCode (code : Z) : bool :=
  (code >=? ServerErrorStart) && (code <=? ServerErrorEnd).

(** NewRequest.  [json_Marshal] is json.Marshal on the params value; nil
    params are not marshalled and give nil raw params. *)
Definition NewRequest (json_Marshal : any -> string + string)
           (method : string) (params : any) (id : any) : Request + string :=
  if is_nil params then
    inl {| Request_JSONRPCVersion := Version; Request_Method := method;
           Request_Params := None; Request_ID := id |}
  else
    match json_Marshal params with
    | inr err => inr ("failed to marshal params: " +:+ err)
    | inl bytes =>
        inl {| Request_JSONRPCVersion := Version; Request_Method := method;
               Request_Params := Some bytes; Request_ID := id |}
    end.

(** NewNotification *)
Definition NewNotification (json_Marshal : any -> string + string)
           (method : string) (params : any) : Request + string :=
  NewRequest json_Marshal method params nil.

(** Validator.ValidateError; [None] is the nil pointer. *)
Definition ValidateError (err : option Error) : option error :=
  match err with
  | None => Some (ValidationErrors
                    [ {| VE_Field := "error"; VE_Tag := "required"; VE_Value := SNil;
                         VE_Param := ""; VE_Message := "error cannot be nil" |} ])
  | Some e => Validate (AStruct (Error_fields e))
  end.

(** Router.GetMethodInfo *)
Definition GetMethodInfo (r : Router) (methodName : string) : MethodInfo + error :=
  match methods r !! methodName with
  | Some info => inl info
  | None => inr (OtherError ("method '" +:+ methodName +:+ "' is not registered"))
  end.

(** Router.GetMethods; Go leaves the order of the names open,
    [map_to_list] fixes one. *)
Definition GetMethods (r : Router) : list string :=
  List.map fst (map_to_list (methods r)).

End JsonRpcOps.

(* ===================================================================== *)
(** * internal/websocket: the rest of hub.go and client.go *)
(* ===================================================================== *)

Module HubOps.
Import JsonRpc Websocket.

(** Hub.GetSessionCodes; Go leaves the order of the codes open,
    [map_to_list] fixes one. *)
Definition GetSessionCodes (w : World) : list string :=
  List.map fst (map_to_list (sessions (hub w))).

(** ServeWS once the upgrade has succeeded: the client is built and handed
    to the hub for registration.  [client] is the address of the new
    client. *)
Definition ServeWS (w : World) (client : ptr) (code : string) : World :=
  RegisterClient (set_client w client (NewClient code)) client.

(** What writePump puts on the socket. *)
Inductive Frame :=
| TextFrame (payload : string)
| CloseFrame
| PingFrame.

Definition newline : string := String (ascii_of_nat 10) EmptyString.

(** The loop [for i := 0; i < n; i++] of writePump: each queued message
    is written after a newline. *)
Fixpoint writeQueued (written : string) (queued : list string) : string :=
  match queued with
  | [] => written
  | m :: rest => writeQueued (written +:+ newline +:+ m) rest
  end.

(** One pass through the [case message, ok := <-c.send] branch of
    writePump, for a queue that has something to receive: the frames sent,
    the queue afterwards, and whether the loop goes on.  [writer_ok] and
    [close_ok] say whether NextWriter and the writer's Close succeed; the
    frame is on the wire once Close has succeeded.  [None]: nothing to
    receive, the goroutine waits. *)
Definition writePump_message (ch : Chan) (writer_ok close_ok : bool)
  : option (list Frame * Chan * bool) :=
  match buf ch with
  | message :: queued =>
      if negb writer_ok
      then Some ([], {| buf := queued; cap := cap ch; closed := closed ch |}, false)
      else
        let payload := writeQueued message queued in
        let ch' := {| buf := []; cap := cap ch; closed := closed ch |} in
        if close_ok then Some ([TextFrame payload], ch', true)
        else Some ([], ch', false)
  | [] =>
      if closed ch then Some ([CloseFrame], ch, false) else None
  end.

End HubOps.

(* ===================================================================== *)
(** * Notions and inputs used by the further properties *)
(* ===================================================================== *)

Module CodeNotions.
Import GoStrings Generator SessionCodeSpec.

(** No capital letter and no white space. *)
Fixpoint tidy (s : string) : bool :=
  match s with
  | EmptyString => true
  | String c s' => negb (is_upper c) && negb (isSpace c) && tidy s'
  end.

(** The numbers GenerateCode can append, as text. *)
Definition suffix_ok (n : string) : bool := last_segment_ok n && tidy n && no_dash n.

End CodeNotions.

Module StoreExamples.
Import GoStrings Generator Manager StoreSpec.

(** A generator that yields the code of the stored session first and a
    free code afterwards. *)
Definition taken_then_free (attempt : nat) : string :=
  match attempt with
  | O => "Happy-Panda-42"
  | _ => "blue-river-7"
  end.

Definition never (attempt : nat) : bool := false.

Definition river : Session :=
  {| Code := "blue-river-7"; CreatedAt := 5; LastAccessed := 5; Data := ∅ |}.

End StoreExamples.

Module RoutingExamples.
Import GoStrings JsonRpc Router RoutingSpec.

(** A struct value: the results and decoded params that are validated
    field by field.  Every other value is validated as a whole. *)
Definition is_struct (a : any) : bool :=
  match a with AStruct _ => true | _ => false end.

(** A handler that panics, and one that returns an error. *)
Definition crashing : HandlerFunc := fun _ => Panics "boom".
Definition failing : HandlerFunc := fun _ => Returns nil (Some (OtherError "no such user")).

(** A router with the three handlers. *)
Definition three_methods : Router :=
  snd (RegisterSimpleMethod
         (snd (RegisterSimpleMethod
                 (snd (RegisterSimpleMethod NewRouter "ping" (Some pong) "ping"))
                 "crash" (Some crashing) "crash"))
         "fail" (Some failing) "fail").

Definition request_for (method : string) : Request :=
  {| Request_JSONRPCVersion := "2.0"; Request_Method := method;
     Request_Params := None; Request_ID := AScalar (SInt 7) |}.

(** json.Marshal of a value, as far as an example needs it. *)
Definition show (a : any) : string + string :=
  match a with
  | AScalar v => inl (fmt_v v)
  | _ => inr "unsupported type"
  end.

(** What an error carried by a response of Route looks like. *)
Definition standard_error (e : Error) : Prop :=
  (e = ErrMethodNotFound
   \/ exists code message data,
        e = NewErrorWithData code message (AScalar (SString data))
        /\ (code = InvalidRequest \/ code = InvalidParams \/ code = InternalError)
        /\ message <> "")
  /\ JsonRpcOps.IsReservedErrorCode (Error_Code e) = true
  /\ JsonRpcOps.IsServerErrorCode (Error_Code e) = false.

(** The same method table with the params check of one method switched
    off. *)
Definition without_params_check (r : Router) (name : string) : Router :=
  match methods r !! name with
  | Some info =>
      {| methods := <[name := {| Handler := Handler info; ParamsSchema := ParamsSchema info;
                                 ResultSchema := ResultSchema info;
                                 Description := Description info;
                                 ValidateParams := false;
                                 ValidateResult := ValidateResult info |}]> (methods r) |}
  | None => r
  end.

(** Two method entries that differ at most in the state of a schema
    value that params are decoded into. *)
Definition same_method (a b : MethodInfo) : Prop :=
  Handler b = Handler a /\ ResultSchema b = ResultSchema a
  /\ Description b = Description a
  /\ ValidateParams b = ValidateParams a /\ ValidateResult b = ValidateResult a
  /\ match ParamsSchema a with
     | Some (SchemaValue _) => exists v, ParamsSchema b = Some (SchemaValue v)
     | other => ParamsSchema b = other
     end.

(** A method whose result must be of type 1, while every result is of
    type 0. *)
Definition typed_router : Router :=
  snd (RegisterMethodWithValidation NewRouter "ping" (Some pong) None
         (Some (SchemaType 1%nat)) "typed ping").

(** Names for the two types of that example. *)
Definition type_name (t : GoType) : string :=
  match t with O => "string" | _ => "main.Pong" end.

(** A decoder that rejects every input, and a renderer that fails on
    every response. *)
Definition failing_Unmarshal (_ : string) (target : any) : option string * any :=
  (Some "unexpected end of JSON input", target).
Definition no_render (_ : Response) : string + string := inr "unsupported type".
Definition undecodable (_ : string) : Request + string := inr "invalid character".

(** What a successful registration of [name] shows whatever else refers
    to the info struct: the name was free and is taken now, there is one
    method more, the other names are registered or not as before,
    registering the name again fails and changes nothing, and
    UnregisterMethod succeeds and frees the name again. *)
Definition registered (r r' : Router) (name : string) : Prop :=
  HasMethod r name = false
  /\ HasMethod r' name = true
  /\ MethodCount r' = MethodCount r + 1
  /\ (forall other, other <> name -> HasMethod r' other = HasMethod r other)
  /\ (forall h2 info2, exists e, RegisterMethod r' name h2 info2 = (Some e, r'))
  /\ fst (UnregisterMethod r' name) = None
  /\ HasMethod (snd (UnregisterMethod r' name)) name = false
  /\ MethodCount (snd (UnregisterMethod r' name)) = MethodCount r.

(** What holds besides when the call has allocated the struct itself, so
    that no other name can share it: the entry is [entry], the entries of
    the other names are untouched, and UnregisterMethod gives back the
    router as it was. *)
Definition registered_own (r r' : Router) (name : string) (entry : MethodInfo) : Prop :=
  JsonRpcOps.GetMethodInfo r' name = inl entry
  /\ (forall other, other <> name -> methods r' !! other = methods r !! other)
  /\ UnregisterMethod r' name = (None, r).

End RoutingExamples.

Module HubNotions.
Import JsonRpc Websocket HubSpec HubOps.

(** Every registered client is a client that exists. *)
Definition clients_allocated (w : World) : Prop :=
  forall p, p ∈ clients (hub w) -> is_Some (heap w !! p).

(** Client.Send called once for each message of a list, in order. *)
Fixpoint send_all (w : World) (client : ptr) (messages : list string) : option World :=
  match messages with
  | [] => Some w
  | m :: rest => w' ← Send w client m; send_all w' client rest
  end.

(** A queue after one more message has been put on it. *)
Definition enqueued (ch : Chan) (message : string) : Chan :=
  {| buf := buf ch ++ [message]; cap := cap ch; closed := closed ch |}.

(** Two connections registered under two codes, nothing queued. *)
Definition two_sessions : World :=
  {| hub := {| clients := {[ 1%nat; 2%nat ]};
               sessions := {[ "happy-panda-42" := 1%nat; "calm-otter-7" := 2%nat ]} |};
     heap := {[ 1%nat := NewClient "happy-panda-42"; 2%nat := NewClient "calm-otter-7" ]};
     inbox := [];
     router := None;
     hub_blocked := false |}.

(** One registered connection that shares a router with a ping method. *)
Definition ping_world : World :=
  {| hub := {| clients := {[ 1%nat ]}; sessions := {[ "happy-panda-42" := 1%nat ]} |};
     heap := {[ 1%nat := NewClient "happy-panda-42" ]};
     inbox := [];
     router := Some (snd (Router.RegisterSimpleMethod Router.NewRouter "ping"
                            (Some RoutingSpec.pong) "ping"));
     hub_blocked := false |}.

End HubNotions.

(* ===================================================================== *)
(** * Part II: properties *)
(* ===================================================================== *)


(* ===================================================================== *)
(** * Properties of the session-code format *)
(* ===================================================================== *)

Module GeneratorProps.
Import GoStrings Generator SessionCodeSpec.

Lemma all_bytes_complete (c : ascii) : In c all_bytes.
Proof.
  unfold all_bytes. rewrite <- (ascii_nat_embedding c).
  apply in_map. apply in_seq.
  pose proof (nat_ascii_bounded c). lia.
Qed.

Lemma forall_bytes (P : ascii -> bool) :
  forallb P all_bytes = true -> forall c, P c = true.
Proof.
  intros H c. rewrite forallb_forall in H. apply H, all_bytes_complete.
Qed.

Lemma forall_bytes2 (P : ascii -> ascii -> bool) :
  forallb (fun a => forallb (P a) all_bytes) all_bytes = true ->
  forall a b, P a b = true.
Proof.
  intros H a b.
  apply (forall_bytes (P a)). apply (forall_bytes _ H).
Qed.

(** ** Lowercasing and trimming commute *)

Lemma isSpace_lower_byte c : isSpace (lower_byte c) = isSpace c.
Proof.
  apply Bool.eqb_prop.
  revert c. apply forall_bytes. vm_compute. reflexivity.
Qed.

Lemma ToLower_TrimLeft s : ToLower (TrimLeft s) = TrimLeft (ToLower s).
Proof.
  induction s as [|c s IH]; simpl; [reflexivity|].
  rewrite isSpace_lower_byte. destruct (isSpace c); [exact IH|reflexivity].
Qed.

Lemma ToLower_TrimRight s : ToLower (TrimRight s) = TrimRight (ToLower s).
Proof.
  induction s as [|c s IH]; simpl; [reflexivity|].
  rewrite <- IH, isSpace_lower_byte.
  destruct (TrimRight s) as [|d r]; simpl.
  - destruct (isSpace c); reflexivity.
  - reflexivity.
Qed.

Lemma ToLower_TrimSpace s : ToLower (TrimSpace s) = TrimSpace (ToLower s).
Proof.
  unfold TrimSpace. rewrite ToLower_TrimRight, ToLower_TrimLeft. reflexivity.
Qed.

Lemma ToLower_empty s : ToLower s = "" <-> s = "".
Proof. destruct s; simpl; split; congruence. Qed.

(** ** Blank segments *)

Lemma TrimRight_nonspace c s : isSpace c = false -> TrimRight (String c s) <> "".
Proof.
  intros Hc. simpl. destruct (TrimRight s); [rewrite Hc|]; discriminate.
Qed.

Lemma TrimLeft_shape s :
  (TrimLeft s = "" /\ blank s = true)
  \/ (exists c r, TrimLeft s = String c r /\ isSpace c = false /\ blank s = false).
Proof.
  induction s as [|c s IH]; simpl.
  - left. split; reflexivity.
  - destruct (isSpace c) eqn:Hc; simpl.
    + exact IH.
    + right. exists c, s. repeat split; assumption.
Qed.

Lemma TrimSpace_blank s : String.eqb (TrimSpace s) "" = blank s.
Proof.
  unfold TrimSpace.
  destruct (TrimLeft_shape s) as [[-> ->]|(c & r & -> & Hc & ->)].
  - reflexivity.
  - apply String.eqb_neq. apply TrimRight_nonspace, Hc.
Qed.

(** ** Splitting at dashes *)

Lemma Split_no_dash p : no_dash p = true -> Split p dash = [p].
Proof.
  induction p as [|c p IH]; simpl; [reflexivity|].
  intros H. apply andb_prop in H as [Hc Hp].
  apply negb_true_iff in Hc. rewrite Hc, (IH Hp). reflexivity.
Qed.

Lemma Split_app p t :
  no_dash p = true -> Split (p +:+ String dash t) dash = p :: Split t dash.
Proof.
  induction p as [|c p IH]; simpl.
  - intros _. reflexivity.
  - intros H. apply andb_prop in H as [Hc Hp].
    apply negb_true_iff in Hc. rewrite Hc, (IH Hp). reflexivity.
Qed.

Lemma Split_nonempty s : Split s dash <> [].
Proof.
  destruct s as [|c s]; simpl; [discriminate|].
  destruct (Ascii.eqb c dash); [discriminate|].
  destruct (Split s dash); discriminate.
Qed.

Lemma Split_inv s : forall parts,
  Split s dash = parts ->
  Join parts "-" = s /\ forallb no_dash parts = true.
Proof.
  induction s as [|c s IH]; intros parts; simpl.
  - intros <-. split; reflexivity.
  - destruct (Ascii.eqb c dash) eqn:Hc.
    + intros <-. destruct (IH _ eq_refl) as [Hj Hn].
      apply Ascii.eqb_eq in Hc. subst c.
      destruct (Split s dash) as [|q qs] eqn:Hs; [now apply Split_nonempty in Hs|].
      split.
      * change (Join ("" :: q :: qs) "-") with (String dash (Join (q :: qs) "-")).
        rewrite Hj. reflexivity.
      * simpl in *. exact Hn.
    + destruct (Split s dash) as [|q qs] eqn:Hs; [now apply Split_nonempty in Hs|].
      intros <-. destruct (IH _ eq_refl) as [Hj Hn]. split.
      * rewrite <- Hj. destruct qs; reflexivity.
      * simpl in *. rewrite Hc. exact Hn.
Qed.

Lemma Split_three s a b n :
  Split s dash = [a; b; n] <->
  s = a +:+ "-" +:+ b +:+ "-" +:+ n
  /\ no_dash a = true /\ no_dash b = true /\ no_dash n = true.
Proof.
  split.
  - intros H. apply Split_inv in H as [Hj Hn]. simpl in *.
    apply andb_prop in Hn as [Ha Hn]. apply andb_prop in Hn as [Hb Hn].
    apply andb_prop in Hn as [Hn _]. auto.
  - intros (-> & Ha & Hb & Hn).
    change ("-" +:+ b +:+ "-" +:+ n) with (String dash (b +:+ String dash n)).
    rewrite (Split_app _ _ Ha), (Split_app _ _ Hb), (Split_no_dash _ Hn).
    reflexivity.
Qed.

(** ** The last segment *)

Lemma last_part_check_ok n : last_part_check n = last_segment_ok n.
Proof.
  destruct n as [|c1 [|c2 [|c3 r]]].
  - reflexivity.
  - apply Bool.eqb_prop. revert c1.
    apply (forall_bytes (fun c => Bool.eqb (last_part_check (String c ""))
                                           (last_segment_ok (String c "")))).
    vm_compute. reflexivity.
  - apply Bool.eqb_prop. revert c1 c2.
    apply (forall_bytes2 (fun a b => Bool.eqb (last_part_check (String a (String b "")))
                                              (last_segment_ok (String a (String b ""))))).
    vm_compute. reflexivity.
  - reflexivity.
Qed.

Lemma last_segment_not_blank n : last_segment_ok n = true -> blank n = false.
Proof.
  destruct n as [|c1 [|c2 [|c3 r]]]; try discriminate.
  - revert c1.
    assert (H : forall c, implb (last_segment_ok (String c "")) (negb (blank (String c ""))) = true).
    { apply forall_bytes. vm_compute. reflexivity. }
    intros c Hc. specialize (H c). rewrite Hc in H. simpl in H.
    apply negb_true_iff in H. exact H.
  - revert c1 c2.
    assert (H : forall a b, implb (last_segment_ok (String a (String b "")))
                                  (negb (blank (String a (String b "")))) = true).
    { apply forall_bytes2. vm_compute. reflexivity. }
    intros a b Hc. specialize (H a b). rewrite Hc in H. simpl in H.
    apply negb_true_iff in H. exact H.
Qed.

(** ** The verdict of IsValidFormat *)

Lemma IsValidFormat_unfold code :
  IsValidFormat code =
  if String.eqb code "" then false else checks_after_normalize (ToLower (TrimSpace code)).
Proof. reflexivity. Qed.

Lemma checks_after_normalize_shape s :
  checks_after_normalize s = true <->
  exists a b n : string,
    s = a +:+ "-" +:+ b +:+ "-" +:+ n
    /\ no_dash a = true /\ no_dash b = true /\ no_dash n = true
    /\ blank a = false /\ blank b = false
    /\ last_segment_ok n = true.
Proof.
  unfold checks_after_normalize.
  destruct (Split s dash) as [|a [|b [|n [|x rest]]]] eqn:Hs;
    try (split; [discriminate|];
         intros (a' & b' & n' & Heq & Ha & Hb & Hn & _);
         pose proof (proj2 (Split_three s a' b' n') (conj Heq (conj Ha (conj Hb Hn)))) as Hs';
         rewrite Hs in Hs'; discriminate).
  cbn [List.length Nat.eqb negb existsb nth].
  rewrite !TrimSpace_blank.
  fold (last_part_check n). rewrite last_part_check_ok.
  apply Split_three in Hs as (Heq & Ha & Hb & Hn).
  split.
  - intros H.
    destruct (blank a) eqn:Hba; [discriminate|].
    destruct (blank b) eqn:Hbb; [discriminate|].
    destruct (blank n) eqn:Hbn; [discriminate|]. simpl in H.
    exists a, b, n. repeat split; assumption.
  - intros (a' & b' & n' & Heq' & Ha' & Hb' & Hn' & Hba & Hbb & Hl).
    assert (Hs' : Split s dash = [a'; b'; n']) by (apply Split_three; auto).
    assert (Hs'' : Split s dash = [a; b; n]) by (apply Split_three; auto).
    rewrite Hs' in Hs''. injection Hs'' as -> -> ->.
    rewrite Hba, Hbb, (last_segment_not_blank _ Hl). simpl. exact Hl.
Qed.

Lemma IsValidFormat_shape code : IsValidFormat code = true <-> accepted_shape code.
Proof.
  rewrite IsValidFormat_unfold. unfold accepted_shape.
  destruct (String.eqb code "") eqn:He.
  - apply String.eqb_eq in He. subst code. split; [discriminate|].
    intros (a & b & n & Heq & _). exfalso.
    destruct a; discriminate Heq.
  - apply checks_after_normalize_shape.
Qed.

Lemma IsValidFormat_case_insensitive c1 c2 :
  same_up_to_case c1 c2 -> IsValidFormat c1 = IsValidFormat c2.
Proof.
  unfold same_up_to_case. intros H.
  rewrite !IsValidFormat_unfold, !ToLower_TrimSpace, H.
  destruct (String.eqb c1 "") eqn:H1; destruct (String.eqb c2 "") eqn:H2; try reflexivity.
  - apply String.eqb_eq in H1. subst c1. symmetry in H.
    apply (proj1 (ToLower_empty c2)) in H. subst c2. discriminate.
  - apply String.eqb_eq in H2. subst c2.
    apply (proj1 (ToLower_empty c1)) in H. subst c1. discriminate.
Qed.

Lemma validateSessionCode_mirrors code :
  JsonRpc.validateSessionCode code = IsValidFormat code.
Proof.
  unfold JsonRpc.validateSessionCode, IsValidFormat.
  destruct (String.eqb code ""); [reflexivity|].
  cbv zeta. fold dash.
  destruct (negb _); [reflexivity|].
  destruct (existsb _ _); [reflexivity|].
  destruct (_ || _); [reflexivity|].
  destruct (Sscanf_d _) as [number|]; [|reflexivity].
  destruct (number <? 1) eqn:H1; destruct (number >? 99) eqn:H2;
    destruct (number >=? 1) eqn:H3; destruct (number <=? 99) eqn:H4;
    simpl; try reflexivity; lia.
Qed.

(** ** Examples from the generator's tests *)

Example valid_plain : IsValidFormat "happy-panda-42" = true.
Proof. reflexivity. Qed.

Example valid_upper : IsValidFormat "HAPPY-PANDA-42" = true.
Proof. reflexivity. Qed.

Example valid_spaces : IsValidFormat "  happy-panda-42  " = true.
Proof. reflexivity. Qed.

Example invalid_zero : IsValidFormat "happy-panda-0" = false.
Proof. reflexivity. Qed.

Example invalid_empty_part : IsValidFormat "happy--42" = false.
Proof. reflexivity. Qed.

Example valid_leading_zero : IsValidFormat "happy-panda-01" = true.
Proof. reflexivity. Qed.

Example invalid_trailing_dash : IsValidFormat "happy-panda-42-" = false.
Proof. reflexivity. Qed.

Example invalid_three_digits : IsValidFormat "happy-panda-123" = false.
Proof. reflexivity. Qed.

Example normalize_upper : NormalizeCode "HAPPY-PANDA-42" = "happy-panda-42".
Proof. reflexivity. Qed.

(** The verb %d reads digits only: the underscore ends the number and is
    left unread, as any other byte after a digit. *)
Example scan_stops_at_underscore : Sscanf_d "4_" = Some 4 /\ Sscanf_d "_4" = None.
Proof. split; reflexivity. Qed.

Example valid_digit_underscore : IsValidFormat "happy-panda-4_" = true.
Proof. reflexivity. Qed.

(** C5, as stated, fails in both directions.  "happy-panda-007" has three
    non-empty segments and a last segment that parses as 7, yet the code
    rejects it, because the last segment is longer than two bytes;
    "happy-panda-4a" is accepted although "4a" is not an integer, because
    Sscanf stops reading after the digit. *)
Lemma format_as_worded_differs :
  (spec_IsValidFormat "happy-panda-007" = true /\
   IsValidFormat "happy-panda-007" = false)
  /\ (spec_IsValidFormat "happy-panda-4a" = false /\
      IsValidFormat "happy-panda-4a" = true).
Proof. repeat split; reflexivity. Qed.

(** C5 (amended).  For ASCII codes, IsValidFormat accepts exactly the
    codes that, trimmed and lowercased, are three dash-separated segments
    none of which is blank and whose last segment has one of the shapes of
    [last_segment_ok] (at most two bytes from which Sscanf reads a number in
    [1,99]); the sessioncode rule of the validator gives the same verdict;
    "happy-panda-100" is rejected, "happy-panda-4_" is accepted as is
    every last segment made of a digit 1-9 and one byte that is not a
    digit; and two codes that differ only in the case of their letters
    get the same verdict. *)
Theorem session_code_format (code code' : string) :
  ascii_only code = true ->
  ascii_only code' = true ->
  (IsValidFormat code = true <-> accepted_shape code)
  /\ JsonRpc.validateSessionCode code = IsValidFormat code
  /\ IsValidFormat "happy-panda-100" = false
  /\ IsValidFormat "happy-panda-4_" = true
  /\ (forall d c, nonzero_digit d = true -> is_digit c = false ->
      last_segment_ok (String d (String c EmptyString)) = true)
  /\ (same_up_to_case code code' -> IsValidFormat code' = IsValidFormat code).
Proof.
  intros _ _. split; [apply IsValidFormat_shape|].
  split; [apply validateSessionCode_mirrors|].
  split; [reflexivity|]. split; [reflexivity|].
  split.
  { intros d c Hd Hc. unfold last_segment_ok. rewrite Hd, Hc.
    rewrite !orb_true_r. reflexivity. }
  intros H. symmetry. apply IsValidFormat_case_insensitive, H.
Qed.

Lemma session_code_format_witness :
  ascii_only "Happy-Panda-42" = true /\ ascii_only "HAPPY-PANDA-42" = true /\
  ((IsValidFormat "Happy-Panda-42" = true <-> accepted_shape "Happy-Panda-42")
   /\ JsonRpc.validateSessionCode "Happy-Panda-42" = IsValidFormat "Happy-Panda-42"
   /\ IsValidFormat "happy-panda-100" = false
   /\ IsValidFormat "happy-panda-4_" = true
   /\ (forall d c, nonzero_digit d = true -> is_digit c = false ->
       last_segment_ok (String d (String c EmptyString)) = true)
   /\ (same_up_to_case "Happy-Panda-42" "HAPPY-PANDA-42" ->
       IsValidFormat "HAPPY-PANDA-42" = IsValidFormat "Happy-Panda-42")).
Proof.
  split; [reflexivity|]. split; [reflexivity|].
  apply (session_code_format "Happy-Panda-42" "HAPPY-PANDA-42"); reflexivity.
Defined.

End GeneratorProps.

(* ===================================================================== *)
(** * White space around a code, and the normal form in the words of the
      specification *)
(* ===================================================================== *)

Module TrimProps.
Import GoStrings Generator SessionCodeSpec GeneratorProps.

Lemma append_assoc (a b c : string) : (a +:+ b) +:+ c = a +:+ (b +:+ c).
Proof.
  induction a as [|x a IH]; [reflexivity|].
  change (String x ((a +:+ b) +:+ c) = String x (a +:+ (b +:+ c))).
  rewrite IH. reflexivity.
Qed.

Lemma blank_app a b : blank (a +:+ b) = blank a && blank b.
Proof.
  induction a as [|x a IH]; [reflexivity|].
  change (isSpace x && blank (a +:+ b) = isSpace x && blank a && blank b).
  rewrite IH. apply andb_assoc.
Qed.

Lemma TrimLeft_blank ws : blank ws = true -> TrimLeft ws = "".
Proof.
  induction ws as [|c ws IH]; simpl; [reflexivity|].
  intros H. apply andb_prop in H as [Hc Hws]. rewrite Hc. apply IH, Hws.
Qed.

Lemma TrimLeft_pad ws s : blank ws = true -> TrimLeft (ws +:+ s) = TrimLeft s.
Proof.
  induction ws as [|c ws IH]; simpl; [reflexivity|].
  intros H. apply andb_prop in H as [Hc Hws]. rewrite Hc. apply IH, Hws.
Qed.

Lemma TrimRight_blank ws : blank ws = true -> TrimRight ws = "".
Proof.
  induction ws as [|c ws IH]; simpl; [reflexivity|].
  intros H. apply andb_prop in H as [Hc Hws]. rewrite (IH Hws), Hc. reflexivity.
Qed.

Lemma TrimRight_pad s ws : blank ws = true -> TrimRight (s +:+ ws) = TrimRight s.
Proof.
  intros Hws. induction s as [|c s IH]; simpl.
  - apply TrimRight_blank, Hws.
  - rewrite IH. reflexivity.
Qed.

Lemma TrimLeft_app_nonblank s t :
  blank s = false -> TrimLeft (s +:+ t) = TrimLeft s +:+ t.
Proof.
  induction s as [|c s IH]; simpl; [discriminate|].
  destruct (isSpace c); simpl; [exact IH|reflexivity].
Qed.

Lemma TrimSpace_pad ws1 s ws2 :
  blank ws1 = true -> blank ws2 = true ->
  TrimSpace (ws1 +:+ s +:+ ws2) = TrimSpace s.
Proof.
  intros H1 H2. unfold TrimSpace. rewrite (TrimLeft_pad _ _ H1).
  destruct (blank s) eqn:Hs.
  - rewrite (TrimLeft_blank s Hs).
    rewrite TrimLeft_blank; [reflexivity|].
    rewrite blank_app, Hs, H2. reflexivity.
  - rewrite (TrimLeft_app_nonblank _ _ Hs). apply TrimRight_pad, H2.
Qed.












End TrimProps.

(* ===================================================================== *)
(** * Properties of the session manager *)
(* ===================================================================== *)

Module ManagerProps.
Import GoStrings Generator Manager SessionCodeSpec TrimProps StoreSpec.



(** ** The retry loop of CreateSession *)

(** When every candidate of the remaining attempts fails the format
    check, the loop leaves [collision] as it found it and [code] holding
    the last candidate, unnormalized. *)
Lemma createLoop_all_malformed ss gen cancelled fuel : forall attempt code collision,
  (forall i, (attempt <= i < attempt + fuel)%nat -> IsValidFormat (gen i) = false) ->
  createLoop ss gen cancelled fuel attempt code collision =
  LoopDone (match fuel with O => code | S n => gen (attempt + n)%nat end) collision.
Proof.
  induction fuel as [|fuel IH]; intros attempt code collision Hbad; simpl.
  - reflexivity.
  - rewrite (Hbad attempt) by lia. simpl.
    rewrite IH by (intros i Hi; apply Hbad; lia).
    destruct fuel as [|n].
    + rewrite Nat.add_0_r. reflexivity.
    + f_equal. f_equal. lia.
Qed.

(** With candidates that all fail the format check, CreateSession stores
    the session under the last candidate as the generator gave it. *)
Lemma CreateSession_all_malformed m gen cancelled now opts :
  0 <= MaxRetries opts ->
  (forall i, Z.of_nat i <= MaxRetries opts -> IsValidFormat (gen i) = false) ->
  exists s,
    CreateSession m gen cancelled now (Some opts)
    = (inl s, set_sessions m (<[gen (Z.to_nat (MaxRetries opts)) := s]> (sessions m)))
    /\ Code s = gen (Z.to_nat (MaxRetries opts)).
Proof.
  intros Hpos Hbad. unfold CreateSession.
  rewrite createLoop_all_malformed by (intros i Hi; apply Hbad; lia).
  replace (Z.to_nat (MaxRetries opts + 1)) with (S (Z.to_nat (MaxRetries opts))) by lia.
  simpl. eexists. split; reflexivity.
Qed.

(** C10 fails on the code.  CreateSession looks only at [collision] once
    the loop is over.  With MaxRetries = -1 the loop body never runs and
    a session is stored under the empty code, whatever the generator
    yields; with MaxRetries = 0 and a candidate that fails the format
    check, the session is stored under that candidate as it is.  Neither
    key satisfies IsValidFormat, and the second is not its own
    NormalizeCode. *)
Theorem CreateSession_stores_malformed_key :
  (forall gen cancelled now,
     exists s m',
       CreateSession (NewManager None) gen cancelled now (Some (opts_retries (-1)))
       = (inl s, m')
       /\ stored_under m' "" s /\ Code s = "" /\ IsValidFormat "" = false)
  /\ (forall cancelled now,
       exists s m',
         CreateSession (NewManager None) (fun _ => "Happy Panda") cancelled now
                       (Some (opts_retries 0))
         = (inl s, m')
         /\ stored_under m' "Happy Panda" s
         /\ IsValidFormat "Happy Panda" = false
         /\ NormalizeCode "Happy Panda" <> "Happy Panda").
Proof.
  split.
  - intros gen cancelled now. eexists _, _. split; [reflexivity|].
    split; [apply lookup_insert_eq|]. split; reflexivity.
  - intros cancelled now. eexists _, _. split; [reflexivity|].
    split; [apply lookup_insert_eq|]. split; [reflexivity|]. discriminate.
Qed.

End ManagerProps.

(* ===================================================================== *)
(** * Properties of the session store *)
(* ===================================================================== *)

Module StoreProps.
Import GoStrings Generator Manager SessionCodeSpec GeneratorProps StoreSpec.

(** ** Normalizing is idempotent and keeps a code well-formed *)

Lemma lower_byte_idem c : lower_byte (lower_byte c) = lower_byte c.
Proof.
  assert (H : forall c, Ascii.eqb (lower_byte (lower_byte c)) (lower_byte c) = true).
  { apply forall_bytes. vm_compute. reflexivity. }
  apply Ascii.eqb_eq, H.
Qed.

Lemma ToLower_idem s : ToLower (ToLower s) = ToLower s.
Proof.
  induction s as [|c s IH]; simpl; [reflexivity|].
  rewrite lower_byte_idem, IH. reflexivity.
Qed.

Lemma TrimRight_idem s : TrimRight (TrimRight s) = TrimRight s.
Proof.
  induction s as [|c s IH]; simpl; [reflexivity|].
  destruct (TrimRight s) as [|d r] eqn:Hr.
  - destruct (isSpace c) eqn:Hc; simpl; [reflexivity|]. rewrite Hc. reflexivity.
  - change (TrimRight (String c (String d r))) with
      (match TrimRight (String d r) with
       | EmptyString => if isSpace c then EmptyString else String c EmptyString
       | u => String c u
       end).
    rewrite IH. reflexivity.
Qed.

Lemma TrimRight_head c r :
  isSpace c = false -> exists r', TrimRight (String c r) = String c r'.
Proof.
  intros Hc. simpl. destruct (TrimRight r) as [|d u].
  - rewrite Hc. eauto.
  - eauto.
Qed.

Lemma TrimSpace_idem s : TrimSpace (TrimSpace s) = TrimSpace s.
Proof.
  unfold TrimSpace.
  destruct (TrimLeft_shape s) as [[-> _]|(c & r & -> & Hc & _)]; [reflexivity|].
  destruct (TrimRight_head c r Hc) as [r' Hr'].
  assert (HL : TrimLeft (TrimRight (String c r)) = TrimRight (String c r)).
  { rewrite Hr'. cbn [TrimLeft]. rewrite Hc. reflexivity. }
  rewrite HL. apply TrimRight_idem.
Qed.

Lemma NormalizeCode_idem code : NormalizeCode (NormalizeCode code) = NormalizeCode code.
Proof.
  unfold NormalizeCode.
  rewrite <- ToLower_TrimSpace, TrimSpace_idem, ToLower_idem. reflexivity.
Qed.

Lemma IsValidFormat_NormalizeCode code :
  IsValidFormat code = true -> IsValidFormat (NormalizeCode code) = true.
Proof.
  rewrite !IsValidFormat_unfold.
  destruct (String.eqb code ""); [discriminate|].
  fold (NormalizeCode code). fold (NormalizeCode (NormalizeCode code)).
  rewrite NormalizeCode_idem. intros H. rewrite H.
  destruct (String.eqb_spec (NormalizeCode code) "") as [E|]; [|reflexivity].
  rewrite E in H. discriminate.
Qed.

(** ** The retry loop *)

(** The loop ends without a collision either on a candidate that passed
    the format check, normalized and not yet in the store, or with no
    well-formed candidate seen at all. *)
Lemma createLoop_done ss gen cancelled fuel : forall attempt code collision code',
  createLoop ss gen cancelled fuel attempt code collision = LoopDone code' false ->
  (IsValidFormat code' = true /\ NormalizeCode code' = code' /\ ss !! code' = None)
  \/ (collision = false
      /\ forall i, (attempt <= i < attempt + fuel)%nat -> IsValidFormat (gen i) = false).
Proof.
  induction fuel as [|fuel IH]; intros attempt code collision code'; simpl.
  - intros H. injection H as _ ->. right. split; [reflexivity|]. intros i Hi. lia.
  - destruct (IsValidFormat (gen attempt)) eqn:Hv; simpl.
    + destruct (bool_decide (is_Some (ss !! NormalizeCode (gen attempt)))) eqn:Hcol; simpl.
      * destruct (cancelled attempt); [discriminate|].
        intros H. apply IH in H as [H|[H _]]; [left; exact H|discriminate].
      * intros H. injection H as <-. left.
        split; [apply IsValidFormat_NormalizeCode, Hv|].
        split; [apply NormalizeCode_idem|].
        apply bool_decide_eq_false in Hcol.
        destruct (ss !! NormalizeCode (gen attempt)) eqn:E; [|reflexivity].
        exfalso. apply Hcol. eauto.
    + intros H. apply IH in H as [H|[Hc Hall]]; [left; exact H|].
      right. split; [exact Hc|]. intros i Hi.
      destruct (decide (i = attempt)) as [->|Hne]; [exact Hv|]. apply Hall. lia.
Qed.

(** ** What the operations keep *)

Lemma CreateSession_keys_are_codes m gen cancelled now opts :
  keys_are_codes m -> keys_are_codes (snd (CreateSession m gen cancelled now opts)).
Proof.
  intros Hk. unfold CreateSession.
  destruct (createLoop _ _ _ _ _ _ _) as [|code collision]; [exact Hk|].
  destruct collision; [exact Hk|]. simpl.
  intros k s. simpl. destruct (decide (code = k)) as [<-|Hne].
  - rewrite lookup_insert_eq. intros H. injection H as <-. reflexivity.
  - rewrite lookup_insert_ne by exact Hne. apply Hk.
Qed.

Lemma GetSession_keys_are_codes m now now' code :
  keys_are_codes m -> keys_are_codes (snd (GetSession m now now' code)).
Proof.
  intros Hk. unfold GetSession.
  destruct (String.eqb code ""); [exact Hk|].
  destruct (IsValidFormat code); [|exact Hk]. simpl.
  destruct (sessions m !! NormalizeCode code) as [s0|] eqn:Hs; [|exact Hk].
  destruct (isExpired m now s0); simpl; intros k s; simpl.
  - destruct (decide (NormalizeCode code = k)) as [<-|Hne].
    + rewrite lookup_delete_eq. discriminate.
    + rewrite lookup_delete_ne by exact Hne. apply Hk.
  - destruct (decide (NormalizeCode code = k)) as [<-|Hne].
    + rewrite lookup_insert_eq. intros H. injection H as <-. simpl. apply Hk, Hs.
    + rewrite lookup_insert_ne by exact Hne. apply Hk.
Qed.

Lemma UpdateSessionData_keys_are_codes m now now' code data :
  keys_are_codes m -> keys_are_codes (snd (UpdateSessionData m now now' code data)).
Proof.
  intros Hk. unfold UpdateSessionData.
  destruct (String.eqb code ""); [exact Hk|].
  destruct (sessions m !! NormalizeCode code) as [s0|] eqn:Hs; [|exact Hk].
  destruct (isExpired m now s0); simpl; intros k s; simpl.
  - destruct (decide (NormalizeCode code = k)) as [<-|Hne].
    + rewrite lookup_delete_eq. discriminate.
    + rewrite lookup_delete_ne by exact Hne. apply Hk.
  - destruct (decide (NormalizeCode code = k)) as [<-|Hne].
    + rewrite lookup_insert_eq. intros H. injection H as <-. simpl. apply Hk, Hs.
    + rewrite lookup_insert_ne by exact Hne. apply Hk.
Qed.

Lemma DeleteSession_keys_are_codes m code :
  keys_are_codes m -> keys_are_codes (snd (DeleteSession m code)).
Proof.
  intros Hk. unfold DeleteSession.
  destruct (String.eqb code ""); [exact Hk|].
  destruct (IsValidFormat code); [|exact Hk]. simpl.
  destruct (sessions m !! NormalizeCode code) as [s0|] eqn:Hs; [|exact Hk].
  simpl. intros k s. simpl.
  destruct (decide (NormalizeCode code = k)) as [<-|Hne].
  - rewrite lookup_delete_eq. discriminate.
  - rewrite lookup_delete_ne by exact Hne. apply Hk.
Qed.

Lemma Cleanup_keys_are_codes m now :
  keys_are_codes m -> keys_are_codes (snd (Cleanup m now)).
Proof.
  intros Hk k s. unfold Cleanup. simpl.
  intros H. apply map_lookup_filter_Some in H as [H _]. apply Hk, H.
Qed.

(** The operations that do not create sessions only ever remove keys or
    rewrite an entry in place. *)
Lemma GetSession_keys m now now' code k :
  is_Some (sessions (snd (GetSession m now now' code)) !! k) -> is_Some (sessions m !! k).
Proof.
  unfold GetSession.
  destruct (String.eqb code ""); [auto|].
  destruct (IsValidFormat code); [|auto]. simpl.
  destruct (sessions m !! NormalizeCode code) as [s0|] eqn:Hs; [|auto].
  destruct (isExpired m now s0); simpl.
  - destruct (decide (NormalizeCode code = k)) as [<-|Hne].
    + rewrite lookup_delete_eq. intros [x Hx]. discriminate.
    + rewrite lookup_delete_ne by exact Hne. auto.
  - destruct (decide (NormalizeCode code = k)) as [<-|Hne].
    + rewrite Hs. eauto.
    + rewrite lookup_insert_ne by exact Hne. auto.
Qed.

Lemma UpdateSessionData_keys m now now' code data k :
  is_Some (sessions (snd (UpdateSessionData m now now' code data)) !! k) ->
  is_Some (sessions m !! k).
Proof.
  unfold UpdateSessionData.
  destruct (String.eqb code ""); [auto|].
  destruct (sessions m !! NormalizeCode code) as [s0|] eqn:Hs; [|auto].
  destruct (isExpired m now s0); simpl.
  - destruct (decide (NormalizeCode code = k)) as [<-|Hne].
    + rewrite lookup_delete_eq. intros [x Hx]. discriminate.
    + rewrite lookup_delete_ne by exact Hne. auto.
  - destruct (decide (NormalizeCode code = k)) as [<-|Hne].
    + rewrite Hs. eauto.
    + rewrite lookup_insert_ne by exact Hne. auto.
Qed.

Lemma DeleteSession_keys m code k :
  is_Some (sessions (snd (DeleteSession m code)) !! k) -> is_Some (sessions m !! k).
Proof.
  unfold DeleteSession.
  destruct (String.eqb code ""); [auto|].
  destruct (IsValidFormat code); [|auto]. simpl.
  destruct (sessions m !! NormalizeCode code) as [s0|] eqn:Hs; [|auto].
  simpl. destruct (decide (NormalizeCode code = k)) as [<-|Hne].
  - rewrite lookup_delete_eq. intros [x Hx]. discriminate.
  - rewrite lookup_delete_ne by exact Hne. auto.
Qed.

Lemma Cleanup_keys m now k :
  is_Some (sessions (snd (Cleanup m now)) !! k) -> is_Some (sessions m !! k).
Proof.
  unfold Cleanup. simpl. intros [s H].
  apply map_lookup_filter_Some in H as [H _]. eauto.
Qed.

(** CreateSession keeps the keys well-formed as soon as one of the
    candidates it may try passes the format check. *)
Lemma CreateSession_keys_well_formed m gen cancelled now opts :
  keys_well_formed m ->
  (exists i, 0 <= Z.of_nat i <= MaxRetries opts /\ IsValidFormat (gen i) = true) ->
  keys_well_formed (snd (CreateSession m gen cancelled now (Some opts))).
Proof.
  intros Hk (i & Hi & Hv). unfold CreateSession.
  destruct (createLoop _ _ _ _ _ _ _) as [|code collision] eqn:HL; [exact Hk|].
  destruct collision; [exact Hk|]. simpl.
  apply createLoop_done in HL as [(Hok & Hnorm & _)|[_ Hall]].
  - intros k. simpl. destruct (decide (code = k)) as [<-|Hne].
    + intros _. split; assumption.
    + rewrite lookup_insert_ne by exact Hne. apply Hk.
  - exfalso. rewrite Hall in Hv; [discriminate|]. lia.
Qed.

(** C6 on a concrete store: a lookup in any letter case within the
    timeout returns the session with its LastAccessed moved to the second
    clock reading. *)
Example GetSession_fresh :
  fst (GetSession one_session 5 6 "Happy-Panda-42") = inl (touch panda 6).
Proof. reflexivity. Qed.

Example GetSession_expired :
  fst (GetSession one_session (SessionTimeout DefaultSessionOptions + 1) 0 "happy-panda-42")
  = inr ErrSessionExpired.
Proof. reflexivity. Qed.

Example GetSession_malformed :
  fst (GetSession one_session 5 6 "happy-panda-100") = inr ErrInvalidSessionCode.
Proof. reflexivity. Qed.

Example GetSession_missing :
  fst (GetSession one_session 5 6 "blue-river-7") = inr ErrSessionNotFound.
Proof. reflexivity. Qed.

End StoreProps.

(* ===================================================================== *)
(** * Properties of the validator and the router *)
(* ===================================================================== *)

Module RouterProps.
Import GoStrings JsonRpc Router RoutingSpec.

(** ** The envelope check *)

Lemma version_field_ok v :
  first_violation "jsonrpc" (SString v) [required; eq_rule "2.0"] = None <-> v = "2.0".
Proof.
  unfold first_violation. simpl.
  destruct (String.eqb_spec v ""); simpl.
  - subst v. split; discriminate.
  - destruct (String.eqb_spec v "2.0"); simpl; split; congruence.
Qed.

Lemma method_field_ok m :
  first_violation "method" (SString m) [required; min_rule 1] = None <-> m <> "".
Proof.
  unfold first_violation. simpl.
  destruct (String.eqb_spec m ""); simpl.
  - subst m. split; [discriminate|congruence].
  - destruct m as [|c m]; [congruence|]. simpl. split; congruence.
Qed.

Lemma ValidateRequest_pass req :
  nested_fields (Request_ID req) = [] ->
  (ValidateRequest (Some req) = None <->
   Request_JSONRPCVersion req = "2.0" /\ Request_Method req <> "").
Proof.
  intros Hid. unfold ValidateRequest, Validate, Request_struct, validate_Struct.
  rewrite Hid. unfold field_errors. cbn [app omap list_omap field_name field_value field_rules].
  pose proof (version_field_ok (Request_JSONRPCVersion req)) as Hv.
  pose proof (method_field_ok (Request_Method req)) as Hm.
  destruct (first_violation "jsonrpc" _ _) eqn:E1;
    destruct (first_violation "method" _ _) eqn:E2; simpl.
  all: split; [try discriminate | intros [H1 H2]].
  all: try (apply Hv in H1; discriminate).
  all: try (apply Hm in H2; discriminate).
  - intros _. split; [apply Hv | apply Hm]; reflexivity.
  - reflexivity.
Qed.

Lemma notification_has_no_nested_id req :
  IsNotification req = true -> nested_fields (Request_ID req) = [].
Proof.
  unfold IsNotification, is_nil. destruct (Request_ID req) as [[| | |]| |]; try discriminate.
  reflexivity.
Qed.

(** A failed envelope check is answered with InvalidRequest. *)
Lemma createValidationError_code err :
  Error_Code (createValidationError err) = InvalidRequest.
Proof. destruct err as [[|e0 errs]|msg]; reflexivity. Qed.

Lemma createParamsError_code err :
  Error_Code (createParamsError err) = InvalidParams.
Proof. destruct err as [[|e0 errs]|msg]; reflexivity. Qed.

(** ** The method registry *)

Lemma method_name_accepted name :
  name <> "" -> ValidateVar (SString name) [required; min_rule 1] = None.
Proof.
  intros Hne. unfold ValidateVar, validate_Var, first_violation. simpl.
  destruct (String.eqb_spec name ""); [contradiction|]. simpl.
  destruct name; [contradiction|]. reflexivity.
Qed.

(** C9.  RegisterMethod fails exactly when the name is empty, the handler
    is nil or the name is already registered; UnregisterMethod fails
    exactly when the name is not registered; a failed call returns the
    router it was given, and a duplicate registration leaves the entry
    that is already there as it is. *)
Theorem registry_failure_atomicity (r : Router) (name : string)
        (handler : option HandlerFunc) (info : option MethodInfo) :
  (is_some (fst (RegisterMethod r name handler info)) = true <->
   name = "" \/ handler = None \/ is_Some (methods r !! name))
  /\ (is_some (fst (RegisterMethod r name handler info)) = true ->
      snd (RegisterMethod r name handler info) = r)
  /\ (forall old, methods r !! name = Some old ->
      methods (snd (RegisterMethod r name handler info)) !! name = Some old)
  /\ (is_some (fst (UnregisterMethod r name)) = true <-> methods r !! name = None)
  /\ (is_some (fst (UnregisterMethod r name)) = true ->
      snd (UnregisterMethod r name) = r).
Proof.
  unfold RegisterMethod, UnregisterMethod.
  destruct (String.eqb_spec name "") as [->|Hne].
  - simpl. destruct (methods r !! "") eqn:E; simpl; repeat split; auto; try discriminate.
  - rewrite (method_name_accepted name Hne).
    destruct handler as [h|]; destruct (methods r !! name) as [old|] eqn:E; simpl.
    all: repeat split; auto; try discriminate.
    all: try (intros old' H; rewrite ?lookup_insert_eq; congruence).
    intros [H|[H|[x H]]]; [contradiction|discriminate|discriminate].
Qed.

Lemma registry_failure_atomicity_witness :
  is_some (fst (RegisterMethod join_router "join" (Some pong) None)) = true
  /\ snd (RegisterMethod join_router "join" (Some pong) None) = join_router
  /\ is_some (fst (UnregisterMethod join_router "leave")) = true
  /\ snd (UnregisterMethod join_router "leave") = join_router.
Proof.
  destruct (registry_failure_atomicity join_router "join" (Some pong) None)
    as (H1 & H2 & _).
  destruct (registry_failure_atomicity join_router "leave" (Some pong) None)
    as (_ & _ & _ & H3 & H4).
  assert (Hdup : is_some (fst (RegisterMethod join_router "join" (Some pong) None)) = true).
  { apply H1. right. right. vm_compute. eauto. }
  assert (Hun : is_some (fst (UnregisterMethod join_router "leave")) = true).
  { apply H3. vm_compute. reflexivity. }
  split; [exact Hdup|]. split; [exact (H2 Hdup)|]. split; [exact Hun|]. exact (H4 Hun).
Defined.

(** ** Routing *)

Section Routing.

Variable json_Unmarshal : string -> any -> option string * any.
Variable reflect_New : GoType -> any.
Variable reflect_TypeOf : any -> GoType.
Variable AssignableTo : GoType -> GoType -> bool.
Variable type_String : GoType -> string.
Variable json_Unmarshal_Request : string -> Request + string.
Variable json_Marshal_Response : Response -> string + string.

Local Abbreviation Route := (Route json_Unmarshal reflect_New reflect_TypeOf AssignableTo type_String).
Local Abbreviation RouteJSON :=
  (RouteJSON json_Unmarshal reflect_New reflect_TypeOf AssignableTo type_String
             json_Unmarshal_Request json_Marshal_Response).
Local Abbreviation validateParams := (validateParams json_Unmarshal reflect_New).
Local Abbreviation checkParams := (checkParams json_Unmarshal reflect_New).
Local Abbreviation routeNotification := (routeNotification json_Unmarshal reflect_New).

Ltac kind_error := right; eexists; split; [reflexivity|]; simpl;
  rewrite ?createValidationError_code, ?createParamsError_code; auto.

Lemma Route_response r req resp r' :
  Route r req = (Some resp, r') ->
  Response_ID resp = Request_ID req /\ response_kind_ok resp.
Proof.
  unfold Router.Route.
  destruct (ValidateRequest (Some req)) as [err|].
  { intros H. injection H as <- <-. split; [reflexivity|kind_error]. }
  destruct (IsNotification req); [discriminate|].
  destruct (methods r !! Request_Method req) as [methodInfo|].
  2: { intros H. injection H as <- <-. split; [reflexivity|kind_error]. }
  destruct (checkParams r _ methodInfo _) as [perr r1].
  destruct perr as [err|].
  { intros H. injection H as <- <-. split; [reflexivity|kind_error]. }
  destruct (callHandler _ _) as [result herr].
  destruct herr as [err|].
  { intros H. injection H as <- <-. split; [reflexivity|kind_error]. }
  match goal with |- context [match ?x with Some _ => _ | None => _ end] =>
    destruct x as [err|] end.
  { intros H. injection H as <- <-. split; [reflexivity|kind_error]. }
  destruct (ValidateResponse _) as [err|].
  { intros H. injection H as <- <-. split; [reflexivity|kind_error]. }
  intros H. injection H as <- <-. split; [reflexivity|left; reflexivity].
Qed.

Lemma Route_answers_requests r req :
  IsNotification req = false -> exists resp, fst (Route r req) = Some resp.
Proof.
  intros Hn. unfold Router.Route. rewrite Hn.
  destruct (ValidateRequest (Some req)) as [err|]; [eexists; reflexivity|].
  destruct (methods r !! Request_Method req) as [methodInfo|]; [|eexists; reflexivity].
  destruct (checkParams r _ methodInfo _) as [perr r1].
  destruct perr as [err|]; [eexists; reflexivity|].
  destruct (callHandler _ _) as [result herr].
  destruct herr as [err|]; [eexists; reflexivity|].
  match goal with |- context [match ?x with Some _ => _ | None => _ end] =>
    destruct x as [err|] end; [eexists; reflexivity|].
  destruct (ValidateResponse _) as [err|]; eexists; reflexivity.
Qed.

(** C7.  A request that carries an id is always answered; the answer is a
    success or an error with one of the codes InvalidRequest,
    MethodNotFound, InvalidParams, InternalError, and it carries the id of
    the request.  RouteJSON hands out the bytes of a response with that
    id.  When the bytes given to RouteJSON do not parse, the result is the
    marshalled ParseError response, whose id is nil. *)
Theorem response_id_preserved (r : Router) (req : Request) (requestJSON : string) :
  IsNotification req = false ->
  (exists resp,
     fst (Route r req) = Some resp
     /\ Response_ID resp = Request_ID req
     /\ response_kind_ok resp)
  /\ (json_Unmarshal_Request requestJSON = inl req ->
      exists resp,
        Response_ID resp = Request_ID req
        /\ fst (RouteJSON r requestJSON)
           = (fst (marshal_pair (json_Marshal_Response resp)), None))
  /\ (forall bad e, json_Unmarshal_Request bad = inr e ->
      fst (RouteJSON r bad)
      = marshal_pair (json_Marshal_Response (NewErrorResponse ErrParse nil))
      /\ Response_ID (NewErrorResponse ErrParse nil) = nil
      /\ Response_Error (NewErrorResponse ErrParse nil) = Some ErrParse
      /\ Error_Code ErrParse = ParseError).
Proof.
  intros Hn.
  destruct (Route_answers_requests r req Hn) as [resp Hresp].
  destruct (Route r req) as [o r'] eqn:HR. simpl in Hresp. subst o.
  destruct (Route_response _ _ _ _ HR) as [Hid Hkind].
  split; [|split].
  - exists resp. auto.
  - intros Hparse. unfold Router.RouteJSON. rewrite Hparse, HR.
    destruct (json_Marshal_Response resp) as [bytes|e] eqn:HM.
    + exists resp. rewrite HM. simpl. auto.
    + exists (NewErrorResponse ErrInternal (Request_ID req)). simpl. auto.
  - intros bad e Hbad. unfold Router.RouteJSON. rewrite Hbad. simpl. auto.
Qed.

(** C2 (amended).  A notification whose envelope is valid gets no
    response, whatever the router holds: Route returns nil and RouteJSON
    returns nil bytes and a nil error (unknown method, params that fail
    their schema and failing handlers included).  A notification whose
    envelope fails validation is answered with an InvalidRequest error
    whose id is nil. *)
Theorem notification_response (r : Router) (req : Request) (requestJSON : string) :
  IsNotification req = true ->
  (Request_JSONRPCVersion req = "2.0" /\ Request_Method req <> "" ->
   fst (Route r req) = None
   /\ (json_Unmarshal_Request requestJSON = inl req ->
       fst (RouteJSON r requestJSON) = (None, None)))
  /\ (Request_JSONRPCVersion req <> "2.0" \/ Request_Method req = "" ->
      exists resp e,
        fst (Route r req) = Some resp
        /\ Response_ID resp = nil
        /\ Response_Error resp = Some e
        /\ Error_Code e = InvalidRequest).
Proof.
  intros Hn.
  pose proof (ValidateRequest_pass req (notification_has_no_nested_id req Hn)) as Henv.
  split.
  - intros Hok. apply Henv in Hok.
    assert (HR : fst (Route r req) = None).
    { unfold Router.Route. rewrite Hok, Hn. reflexivity. }
    split; [exact HR|].
    intros Hparse. unfold Router.RouteJSON. rewrite Hparse.
    destruct (Route r req) as [o r']. simpl in HR. subst o. reflexivity.
  - intros Hbad.
    destruct (ValidateRequest (Some req)) as [err|] eqn:HV.
    + exists (NewErrorResponse (createValidationError err) (Request_ID req)),
             (createValidationError err).
      unfold Router.Route. rewrite HV. simpl.
      repeat split.
      * unfold IsNotification, is_nil in Hn.
        destruct (Request_ID req) as [[| | |]| |]; try discriminate. reflexivity.
      * apply createValidationError_code.
    + exfalso. destruct (proj1 Henv eq_refl) as [Hv Hm].
      destruct Hbad; contradiction.
Qed.

(** ** Fast-fail validation *)

Lemma find_head_filter {A} (p : A -> bool) (l : list A) :
  List.find p l = head (List.filter p l).
Proof.
  induction l as [|x l IH]; simpl; [reflexivity|].
  destruct (p x); [reflexivity|exact IH].
Qed.

Lemma field_errors_head fs : head (field_errors fs) = head (violations fs).
Proof.
  induction fs as [|f fs IH]; [reflexivity|].
  unfold field_errors, violations in *. simpl.
  unfold first_violation at 1. rewrite find_head_filter.
  destruct (List.filter _ (field_rules f)) as [|r rs]; simpl.
  - exact IH.
  - reflexivity.
Qed.

Lemma Validate_first_violation fs e rest :
  violations fs = e :: rest ->
  Validate (AStruct fs) = Some (ValidationErrors [customErr e]).
Proof.
  intros Hv. pose proof (field_errors_head fs) as Hh. rewrite Hv in Hh.
  unfold Validate, validate_Struct.
  destruct (field_errors fs) as [|e' es]; [discriminate|].
  simpl in Hh. injection Hh as ->. reflexivity.
Qed.

(** C8.  A struct value that breaks two or more rules gets exactly one
    error from Validate: the first violated rule (fields in declaration
    order, rules in tag order), with its field, tag, offending value,
    parameter and message.  When the value is the params of a request,
    the response carries an InvalidParams error whose data is the message
    of that one error. *)
Theorem fast_fail_validation (fs : list Field) (r : Router) (req : Request)
        (info : MethodInfo) (schemaType : GoType) (p : string) :
  (2 <= List.length (violations fs))%nat ->
  exists e rest,
    violations fs = e :: rest
    /\ Validate (AStruct fs) = Some (ValidationErrors [customErr e])
    /\ VE_Field (customErr e) = fe_Field e /\ VE_Tag (customErr e) = fe_Tag e
    /\ VE_Value (customErr e) = fe_Value e /\ VE_Param (customErr e) = fe_Param e
    /\ VE_Message (customErr e) = buildErrorMessage e
    /\ createParamsError (ValidationErrors [customErr e])
       = NewErrorWithData InvalidParams "Parameter validation failed"
                          (AScalar (SString (buildErrorMessage e)))
    /\ (ValidateRequest (Some req) = None ->
        IsNotification req = false ->
        methods r !! Request_Method req = Some info ->
        ValidateParams info = true ->
        ParamsSchema info = Some (SchemaType schemaType) ->
        Request_Params req = Some p ->
        json_Unmarshal p (reflect_New schemaType) = (None, AStruct fs) ->
        fst (Route r req)
        = Some (NewErrorResponse
                  (NewErrorWithData InvalidParams "Parameter validation failed"
                                    (AScalar (SString (buildErrorMessage e))))
                  (Request_ID req))).
Proof.
  intros Hlen.
  destruct (violations fs) as [|e rest] eqn:Hv; [simpl in Hlen; lia|].
  exists e, rest. split; [reflexivity|].
  pose proof (Validate_first_violation fs e rest Hv) as HV.
  repeat split; try reflexivity; try exact HV.
  intros Henv Hn Hm Hvp Hps Hp Hdec.
  unfold Router.Route. rewrite Henv, Hn, Hm.
  unfold Router.checkParams. rewrite Hvp, Hps.
  unfold Router.validateParams. rewrite Hp, Hdec, HV. reflexivity.
Qed.

End Routing.

(** C2, as stated, fails: a notification sent with version "1.0" is
    answered by Route, and RouteJSON returns bytes for it. *)
Lemma notification_with_bad_envelope_is_answered :
  IsNotification old_version_notification = true
  /\ fst (Route plain_Unmarshal plain_New plain_TypeOf plain_AssignableTo
                plain_type_String NewRouter old_version_notification)
     = Some (NewErrorResponse
               (NewErrorWithData InvalidRequest "Request validation failed"
                  (AScalar (SString "field 'jsonrpc' must equal '2.0', got '1.0'")))
               nil)
  /\ fst (RouteJSON plain_Unmarshal plain_New plain_TypeOf plain_AssignableTo
                    plain_type_String (decode_as old_version_notification) render
                    NewRouter "notification with jsonrpc 1.0")
     = (Some "error -32600", None).
Proof. repeat split; reflexivity. Qed.

Lemma notification_response_witness :
  IsNotification ping_notification = true
  /\ fst (Route plain_Unmarshal plain_New plain_TypeOf plain_AssignableTo
                plain_type_String NewRouter ping_notification) = None.
Proof.
  split; [reflexivity|].
  apply (notification_response plain_Unmarshal plain_New plain_TypeOf plain_AssignableTo
           plain_type_String (decode_as ping_notification) render
           NewRouter ping_notification "ping"); [reflexivity|].
  split; [reflexivity|discriminate].
Defined.

Lemma response_id_preserved_witness :
  IsNotification ping_request = false
  /\ exists resp,
       fst (Route plain_Unmarshal plain_New plain_TypeOf plain_AssignableTo
                  plain_type_String
                  (snd (RegisterSimpleMethod NewRouter "ping" (Some pong) "ping"))
                  ping_request) = Some resp
       /\ Response_ID resp = AScalar (SInt 1).
Proof.
  split; [reflexivity|].
  destruct (response_id_preserved plain_Unmarshal plain_New plain_TypeOf
              plain_AssignableTo plain_type_String (decode_as ping_request) render
              (snd (RegisterSimpleMethod NewRouter "ping" (Some pong) "ping"))
              ping_request "ping" eq_refl) as [(resp & H1 & H2 & _) _].
  exists resp. split; assumption.
Defined.

Lemma fast_fail_validation_witness :
  (2 <= List.length (violations join_params))%nat
  /\ fst (Route join_Unmarshal plain_New plain_TypeOf plain_AssignableTo
                plain_type_String join_router join_request)
     = Some (NewErrorResponse
               (NewErrorWithData InvalidParams "Parameter validation failed"
                  (AScalar (SString "field 'name' is required")))
               (AScalar (SString "r1"))).
Proof.
  assert (Hlen : (2 <= List.length (violations join_params))%nat) by (vm_compute; lia).
  split; [exact Hlen|].
  destruct (fast_fail_validation join_Unmarshal plain_New plain_TypeOf plain_AssignableTo
              plain_type_String join_params join_router join_request
              {| Handler := Some pong; ParamsSchema := Some (SchemaType 0%nat);
                 ResultSchema := None; Description := "join a session";
                 ValidateParams := true; ValidateResult := false |}
              0%nat "{}" Hlen)
    as (e & rest & Hv & _ & _ & _ & _ & _ & _ & _ & HRoute).
  injection Hv as <- _.
  apply HRoute; reflexivity.
Defined.
End RouterProps.

(* ===================================================================== *)
(** * Properties of the hub and of the connections *)
(* ===================================================================== *)

Module HubProps.
Import JsonRpc Websocket HubSpec.

(** ** One enqueue *)

Lemma send_or_evict_open g w p c m :
  heap w !! p = Some c -> closed (send c) = false ->
  send_or_evict g w p m =
  Some (if full (send c)
        then Evicted (UnregisterClient g
                        (set_client w p (with_send c (after_hub_send (send c) m))) p)
        else Enqueued (set_client w p (with_send c (after_hub_send (send c) m)))).
Proof.
  intros Hc Hopen.
  unfold send_or_evict, try_send, close_chan, after_hub_send, full.
  rewrite Hc. simpl. rewrite Hopen.
  destruct (Nat.ltb _ _); simpl; rewrite ?Hopen; reflexivity.
Qed.

Lemma send_or_drop_open w p c m :
  heap w !! p = Some c -> closed (send c) = false ->
  send_or_drop w p m =
  Some (if full (send c) then w
        else set_client w p (with_send c (after_hub_send (send c) m))).
Proof.
  intros Hc Hopen.
  unfold send_or_drop, try_send, after_hub_send, full.
  rewrite Hc. simpl. rewrite Hopen.
  destruct (Nat.ltb _ _); reflexivity.
Qed.

(** ** The broadcast loop *)



(** ** Eviction is completed by the hub *)

Lemma evicted_client_is_unregistered w p c :
  heap w !! p = Some c -> closed (send c) = true -> p ∈ clients (hub w) ->
  exists w' c',
    unregisterClient w p = Some w'
    /\ (p ∉ clients (hub w'))
    /\ sessions (hub w') !! sessionCode c = None
    /\ heap w' !! p = Some c' /\ closed (send c') = true.
Proof.
  intros Hc Hcl Hin. unfold unregisterClient.
  rewrite decide_True by exact Hin. rewrite Hc. simpl.
  unfold try_recv. destruct (buf (send c)) as [|x rest] eqn:Hb.
  - rewrite Hcl. eexists _, _. split; [reflexivity|]. simpl.
    split; [apply not_elem_of_difference; right; apply elem_of_singleton; reflexivity|].
    split; [apply lookup_delete_eq|].
    split; [apply lookup_insert_eq|]. exact Hcl.
  - eexists _, _. split; [reflexivity|]. simpl.
    split; [apply not_elem_of_difference; right; apply elem_of_singleton; reflexivity|].
    split; [apply lookup_delete_eq|].
    split; [apply lookup_insert_eq|]. exact Hcl.
Qed.

(** Served one after the other, unregistrations never close a queue
    twice: the close is reached only on an open queue, and a queue that
    was closed stays closed. *)
Lemma unregisterClient_no_second_close w p c :
  heap w !! p = Some c ->
  exists w' c',
    unregisterClient w p = Some w'
    /\ heap w' !! p = Some c'
    /\ (closed (send c) = true -> closed (send c') = true).
Proof.
  intros Hc. unfold unregisterClient.
  destruct (decide (p ∈ clients (hub w))) as [Hin|Hnin]; [|eauto].
  rewrite Hc. simpl. unfold try_recv, close_chan.
  destruct (buf (send c)) as [|x rest] eqn:Hb.
  - destruct (closed (send c)) eqn:Hcl; simpl.
    + eexists _, _. split; [reflexivity|]. simpl. rewrite lookup_insert_eq. eauto.
    + eexists _, _. split; [reflexivity|]. simpl. rewrite lookup_insert_eq. eauto.
  - eexists _, _. split; [reflexivity|]. simpl. rewrite lookup_insert_eq. eauto.
Qed.

Section ClientPumps.

Variable json_Unmarshal : string -> any -> option string * any.
Variable reflect_New : Router.GoType -> any.
Variable reflect_TypeOf : any -> Router.GoType.
Variable AssignableTo : Router.GoType -> Router.GoType -> bool.
Variable type_String : Router.GoType -> string.
Variable json_Unmarshal_Request : string -> Request + string.
Variable json_Marshal_Response : Response -> string + string.

Local Abbreviation processJSONRPCMessage :=
  (processJSONRPCMessage json_Unmarshal reflect_New reflect_TypeOf AssignableTo
                         type_String json_Unmarshal_Request json_Marshal_Response).




End ClientPumps.

(** The world with the full queue is reached by registering the
    connection and sending it 256 messages that nobody reads. *)
Lemma full_world_reached :
  (w ← Run one_client [ReqRegister 1%nat]; send_many w "happy-panda-42" 256)
  = Some full_world.
Proof. vm_compute. reflexivity. Qed.



(** ** The registry *)

(** A registration supersedes the index entry of its code and keeps every
    client that was registered before. *)
Lemma registerClient_supersedes w p c :
  heap w !! p = Some c ->
  exists w',
    registerClient w p = Some w'
    /\ sessions (hub w') !! sessionCode c = Some p
    /\ p ∈ clients (hub w')
    /\ (forall q, q ∈ clients (hub w) -> q ∈ clients (hub w')).
Proof.
  intros Hc. unfold registerClient. rewrite Hc. simpl.
  eexists. split; [reflexivity|]. simpl.
  split; [apply lookup_insert_eq|].
  split; [apply elem_of_union; left; apply elem_of_singleton; reflexivity|].
  intros q Hq. apply elem_of_union. right. exact Hq.
Qed.

Lemma send_or_evict_keeps_codes g w p m e :
  send_or_evict g w p m = Some e ->
  hub (world_of e) = hub w
  /\ (forall q c, heap w !! q = Some c ->
      exists c', heap (world_of e) !! q = Some c' /\ sessionCode c' = sessionCode c).
Proof.
  unfold send_or_evict. destruct (heap w !! p) as [c|] eqn:Hc; [simpl|discriminate].
  destruct (try_send (send c) m) as [|ch|]; [discriminate| |].
  - intros H. injection H as <-. split; [reflexivity|].
    intros q cq Hq. simpl. destruct (decide (p = q)) as [->|Hne].
    + rewrite lookup_insert_eq. eexists. split; [reflexivity|]. simpl. congruence.
    + rewrite lookup_insert_ne by exact Hne. eauto.
  - destruct (close_chan (send c)) as [ch|]; [simpl|discriminate].
    intros H. injection H as <-.
    assert (Hw : forall w0, hub (UnregisterClient g w0 p) = hub w0
                            /\ heap (UnregisterClient g w0 p) = heap w0).
    { intros w0. destruct g; split; reflexivity. }
    cbn [world_of]. destruct (Hw (set_client w p (with_send c ch))) as [-> ->].
    split; [reflexivity|].
    intros q cq Hq. simpl. destruct (decide (p = q)) as [->|Hne].
    + rewrite lookup_insert_eq. eexists. split; [reflexivity|]. simpl. congruence.
    + rewrite lookup_insert_ne by exact Hne. eauto.
Qed.

Lemma broadcastLoop_keeps_codes m : forall snapshot w w',
  broadcastLoop w snapshot m = Some w' ->
  hub w' = hub w
  /\ (forall q c, heap w !! q = Some c ->
      exists c', heap w' !! q = Some c' /\ sessionCode c' = sessionCode c).
Proof.
  induction snapshot as [|p rest IH]; intros w w'; simpl.
  - intros H. injection H as <-. split; [reflexivity|]. eauto.
  - destruct (send_or_evict HubLoop w p m) as [e|] eqn:H1; [|discriminate].
    apply send_or_evict_keeps_codes in H1 as [Hh1 Hc1].
    destruct e as [w1|w1]; cbn [world_of] in Hh1, Hc1.
    + intros H2. apply IH in H2 as [Hh2 Hc2]. split; [congruence|].
      intros q c Hq. destruct (Hc1 q c Hq) as (c1 & Hq1 & Hs1).
      destruct (Hc2 q c1 Hq1) as (c2 & Hq2 & Hs2). exists c2. split; congruence.
    + intros H2. injection H2 as <-. split; [exact Hh1|exact Hc1].
Qed.

(** Whatever the hub serves, an entry of the index keeps pointing to a
    registered client that carries the entry's code. *)
Lemma serve_keeps_index_sound w req w' :
  index_sound w -> serve w req = Some w' -> index_sound w'.
Proof.
  intros Hs. destruct req as [p|p|m]; simpl.
  - unfold registerClient. destruct (heap w !! p) as [c|] eqn:Hc; [simpl|discriminate].
    intros H. injection H as <-. intros code q. simpl.
    destruct (decide (sessionCode c = code)) as [<-|Hne].
    + rewrite lookup_insert_eq. intros H. injection H as <-.
      split; [apply elem_of_union; left; apply elem_of_singleton; reflexivity|eauto].
    + rewrite lookup_insert_ne by exact Hne. intros Hq.
      destruct (Hs code q Hq) as [Hin Hc']. split; [|exact Hc'].
      apply elem_of_union. right. exact Hin.
  - unfold unregisterClient. destruct (decide (p ∈ clients (hub w))) as [Hin|Hnin].
    2: { intros H. injection H as <-. exact Hs. }
    destruct (heap w !! p) as [c|] eqn:Hc; [simpl|discriminate].
    assert (Hgen : forall ch,
      index_sound (set_client
                     (set_hub w {| clients := clients (hub w) ∖ {[p]};
                                   sessions := delete (sessionCode c) (sessions (hub w)) |})
                     p (with_send c ch))).
    { intros ch code q. simpl.
      destruct (decide (sessionCode c = code)) as [<-|Hne].
      - rewrite lookup_delete_eq. discriminate.
      - rewrite lookup_delete_ne by exact Hne. intros Hq.
        destruct (Hs code q Hq) as [Hqin (cq & Hcq & Hcode)].
        assert (Hpq : p <> q) by (intros ->; congruence).
        split.
        + apply elem_of_difference. split; [exact Hqin|].
          intros Hx. apply elem_of_singleton in Hx. congruence.
        + exists cq. rewrite lookup_insert_ne by exact Hpq. auto. }
    destruct (try_recv (send c)) as [ch|].
    + intros H. injection H as <-. apply Hgen.
    + destruct (close_chan (send c)) as [ch|]; [simpl|discriminate].
      intros H. injection H as <-. apply Hgen.
  - unfold broadcastMessage. intros H.
    apply broadcastLoop_keeps_codes in H as [Hh Hc].
    intros code q. rewrite Hh. intros Hq.
    destruct (Hs code q Hq) as [Hin (cq & Hcq & Hcode)].
    split; [exact Hin|].
    destruct (Hc q cq Hcq) as (c' & Hc' & Hs'). exists c'. split; congruence.
Qed.

Lemma Run_keeps_index_sound reqs : forall w w',
  index_sound w -> Run w reqs = Some w' -> index_sound w'.
Proof.
  induction reqs as [|req rest IH]; intros w w' Hs; simpl.
  - intros H. injection H as <-. exact Hs.
  - destruct (hub_blocked w); [intros H; injection H as <-; exact Hs|].
    destruct (serve w req) as [w1|] eqn:H1; [simpl|discriminate].
    intros H2. eapply IH; [|exact H2]. eapply serve_keeps_index_sound; eassumption.
Qed.

(** C1 fails on the code.  Two connections register under one code and
    the index points to the second.  When the first, superseded one is
    unregistered, the hub deletes the index entry of its code although the
    entry belongs to the second connection: that connection is still in the
    client set, its code is no longer a key of the index, and the registry
    is not consistent. *)
Theorem superseded_unregister_breaks_index :
  exists w2 w3,
    Run two_clients_one_code [ReqRegister 1%nat; ReqRegister 2%nat] = Some w2
    /\ clients (hub w2) = {[ 1%nat; 2%nat ]}
    /\ sessions (hub w2) !! "happy-panda-42" = Some 2%nat
    /\ Run w2 [ReqUnregister 1%nat] = Some w3
    /\ clients (hub w3) = {[ 2%nat ]}
    /\ heap w3 !! 2%nat = Some (NewClient "happy-panda-42")
    /\ sessions (hub w3) !! "happy-panda-42" = None
    /\ ~ registry_consistent w3.
Proof.
  eexists _, _.
  split; [vm_compute; reflexivity|].
  split; [vm_compute; reflexivity|].
  split; [vm_compute; reflexivity|].
  split; [vm_compute; reflexivity|].
  split; [vm_compute; reflexivity|].
  split; [vm_compute; reflexivity|].
  split; [vm_compute; reflexivity|].
  intros [Hkeys _].
  destruct (proj2 (Hkeys "happy-panda-42")) as [p Hp].
  - exists 2%nat, (NewClient "happy-panda-42").
    split; [vm_compute; reflexivity|]. split; reflexivity.
  - vm_compute in Hp. discriminate.
Qed.

(** C3 fails on the code.  unregisterClient tests for "already closed" by
    receiving from the queue, and a receive also succeeds when a message
    is waiting: a connection that is unregistered while one message is
    queued loses that message and its queue is never closed. *)
Theorem unregister_with_queued_message_leaves_queue_open :
  exists w1 w2 w3,
    Run one_client [ReqRegister 1%nat] = Some w1
    /\ SendToSession w1 "happy-panda-42" "hello" = Some w2
    /\ heap w2 !! 1%nat
       = Some {| sessionCode := "happy-panda-42";
                 send := {| buf := ["hello"]; cap := 256; closed := false |} |}
    /\ Run w2 [ReqUnregister 1%nat] = Some w3
    /\ clients (hub w3) = ∅
    /\ sessions (hub w3) = ∅
    /\ heap w3 !! 1%nat
       = Some {| sessionCode := "happy-panda-42";
                 send := {| buf := []; cap := 256; closed := false |} |}.
Proof.
  eexists _, _, _.
  split; [vm_compute; reflexivity|].
  split; [vm_compute; reflexivity|].
  split; [vm_compute; reflexivity|].
  split; [vm_compute; reflexivity|].
  split; [vm_compute; reflexivity|].
  split; vm_compute; reflexivity.
Qed.

End HubProps.

(* ===================================================================== *)
(** * More on session codes *)
(* ===================================================================== *)

Module CodeProps.
Import GoStrings Generator Manager SessionCodeSpec GeneratorProps TrimProps StoreSpec
       StoreProps SessionOps CodeNotions.

Lemma ToLower_app a b : ToLower (a +:+ b) = ToLower a +:+ ToLower b.
Proof.
  induction a as [|x a IH]; [reflexivity|].
  change (String (lower_byte x) (ToLower (a +:+ b))
          = String (lower_byte x) (ToLower a +:+ ToLower b)).
  rewrite IH. reflexivity.
Qed.

Lemma NormalizeCode_case c1 c2 :
  same_up_to_case c1 c2 -> NormalizeCode c1 = NormalizeCode c2.
Proof.
  unfold same_up_to_case, NormalizeCode. intros H.
  rewrite !ToLower_TrimSpace, H. reflexivity.
Qed.

(** X1.  NormalizeCode is idempotent, gives the same result for codes
    that differ in letter case only, and ignores white space put around
    the code. *)
Theorem NormalizeCode_canonical (code code' ws1 ws2 : string) :
  ascii_only code = true ->
  ascii_only code' = true ->
  blank ws1 = true ->
  blank ws2 = true ->
  NormalizeCode (NormalizeCode code) = NormalizeCode code
  /\ (same_up_to_case code code' -> NormalizeCode code = NormalizeCode code')
  /\ NormalizeCode (ws1 +:+ code +:+ ws2) = NormalizeCode code.
Proof.
  intros _ _ H1 H2. split; [apply NormalizeCode_idem|].
  split; [apply NormalizeCode_case|].
  unfold NormalizeCode. rewrite (TrimSpace_pad _ _ _ H1 H2). reflexivity.
Qed.

Lemma NormalizeCode_canonical_witness :
  NormalizeCode (NormalizeCode "  Happy-Panda-42 ") = NormalizeCode "  Happy-Panda-42 "
  /\ NormalizeCode ("  " +:+ "Happy-Panda-42" +:+ " ") = "happy-panda-42".
Proof.
  destruct (NormalizeCode_canonical "  Happy-Panda-42 " "HAPPY-PANDA-42" "" ""
              eq_refl eq_refl eq_refl eq_refl) as (H1 & _ & _).
  split; [exact H1|reflexivity].
Defined.

Lemma checks_after_normalize_empty : checks_after_normalize "" = false.
Proof. reflexivity. Qed.

Lemma IsValidFormat_by_normal_form c1 c2 :
  NormalizeCode c1 = NormalizeCode c2 ->
  (c1 = "" <-> c2 = "") ->
  IsValidFormat c1 = IsValidFormat c2.
Proof.
  intros Hn He. rewrite !IsValidFormat_unfold.
  fold (NormalizeCode c1). fold (NormalizeCode c2). rewrite Hn.
  destruct (String.eqb_spec c1 "") as [E1|E1]; destruct (String.eqb_spec c2 "") as [E2|E2];
    try reflexivity; tauto.
Qed.

(** X2.  The verdict of IsValidFormat does not change when white space is
    put around the code, and a code that is accepted is still accepted
    once it is normalized. *)
Theorem IsValidFormat_padding_and_normal_form (code ws1 ws2 : string) :
  ascii_only code = true ->
  blank ws1 = true ->
  blank ws2 = true ->
  IsValidFormat (ws1 +:+ code +:+ ws2) = IsValidFormat code
  /\ (IsValidFormat code = true -> IsValidFormat (NormalizeCode code) = true).
Proof.
  intros _ H1 H2. split; [|apply IsValidFormat_NormalizeCode].
  rewrite !IsValidFormat_unfold.
  rewrite (TrimSpace_pad _ _ _ H1 H2).
  destruct (String.eqb_spec code "") as [->|Hne].
  - destruct (String.eqb (ws1 +:+ "" +:+ ws2) ""); reflexivity.
  - destruct (String.eqb_spec (ws1 +:+ code +:+ ws2) "") as [E|_]; [|reflexivity].
    exfalso. destruct ws1; simpl in E; [|discriminate].
    destruct code; [congruence|discriminate].
Qed.

Lemma IsValidFormat_padding_and_normal_form_witness :
  IsValidFormat ("  " +:+ "happy-panda-42" +:+ "  ") = IsValidFormat "happy-panda-42".
Proof.
  apply (IsValidFormat_padding_and_normal_form "happy-panda-42" "  " "  ");
    reflexivity.
Defined.

(** ** Generated codes *)

Lemma tidy_app a b : tidy (a +:+ b) = tidy a && tidy b.
Proof.
  induction a as [|x a IH]; [reflexivity|].
  change (negb (is_upper x) && negb (isSpace x) && tidy (a +:+ b)
          = negb (is_upper x) && negb (isSpace x) && tidy a && tidy b).
  rewrite IH. apply andb_assoc.
Qed.

Lemma tidy_ToLower s : tidy s = true -> ToLower s = s.
Proof.
  induction s as [|c s IH]; simpl; [reflexivity|].
  intros H. apply andb_prop in H as [H Hs]. apply andb_prop in H as [Hu _].
  apply negb_true_iff in Hu. unfold lower_byte. rewrite Hu, (IH Hs). reflexivity.
Qed.

Lemma tidy_TrimRight s : tidy s = true -> TrimRight s = s.
Proof.
  induction s as [|c s IH]; simpl; [reflexivity|].
  intros H. apply andb_prop in H as [H Hs]. apply andb_prop in H as [_ Hc].
  apply negb_true_iff in Hc. rewrite (IH Hs), Hc. destruct s; reflexivity.
Qed.

Lemma tidy_TrimSpace s : tidy s = true -> TrimSpace s = s.
Proof.
  intros H. unfold TrimSpace.
  assert (HL : TrimLeft s = s).
  { destruct s as [|c s]; simpl; [reflexivity|]. simpl in H.
    apply andb_prop in H as [H _]. apply andb_prop in H as [_ Hc].
    apply negb_true_iff in Hc. rewrite Hc. reflexivity. }
  rewrite HL. apply tidy_TrimRight, H.
Qed.

Lemma is_lower_facts c :
  is_lower c = true ->
  is_upper c = false /\ isSpace c = false /\ Ascii.eqb c dash = false.
Proof.
  assert (H : forall c, implb (is_lower c)
                          (negb (is_upper c) && negb (isSpace c) && negb (Ascii.eqb c dash))
                        = true).
  { apply forall_bytes. vm_compute. reflexivity. }
  intros Hc. specialize (H c). rewrite Hc in H. simpl in H.
  apply andb_prop in H as [H H3]. apply andb_prop in H as [H1 H2].
  apply negb_true_iff in H1, H2, H3. auto.
Qed.

Lemma lowercase_word_facts s :
  lowercase_word s = true -> tidy s = true /\ no_dash s = true.
Proof.
  induction s as [|c s IH]; simpl; [auto|].
  intros H. apply andb_prop in H as [Hc Hs].
  destruct (is_lower_facts c Hc) as (H1 & H2 & H3).
  destruct (IH Hs) as [Ht Hn]. rewrite H1, H2, H3, Ht, Hn. auto.
Qed.

Lemma lowercase_word_not_blank s :
  s <> "" -> lowercase_word s = true -> blank s = false.
Proof.
  destruct s as [|c s]; [congruence|]. simpl. intros _ H.
  apply andb_prop in H as [Hc _].
  destruct (is_lower_facts c Hc) as (_ & H2 & _). rewrite H2. reflexivity.
Qed.

Lemma suffix_of_Intn r :
  0 <= r < 99 -> suffix_ok (JsonRpc.itoa (r + 1)) = true.
Proof.
  intros Hr.
  assert (H : forallb (fun k => suffix_ok (JsonRpc.itoa (Z.of_nat k + 1))) (seq 0 99) = true)
    by (vm_compute; reflexivity).
  rewrite forallb_forall in H.
  specialize (H (Z.to_nat r)). rewrite Z2Nat.id in H by lia.
  apply H. apply in_seq. lia.
Qed.

(** X3.  A code made by GenerateCode from two non-empty words of lowercase
    letters and a number drawn by Intn(99) passes IsValidFormat and is its
    own normal form. *)
Theorem GenerateCode_well_formed (adjective noun : string) (r : Z) :
  adjective <> "" -> noun <> "" ->
  lowercase_word adjective = true -> lowercase_word noun = true ->
  0 <= r < 99 ->
  IsValidFormat (GenerateCode (adjective +:+ "-" +:+ noun) r) = true
  /\ NormalizeCode (GenerateCode (adjective +:+ "-" +:+ noun) r)
     = GenerateCode (adjective +:+ "-" +:+ noun) r.
Proof.
  intros Ha Hn Hla Hln Hr.
  pose proof (suffix_of_Intn r Hr) as Hs. unfold suffix_ok in Hs.
  apply andb_prop in Hs as [Hs Hnd]. apply andb_prop in Hs as [Hlast Htn].
  destruct (lowercase_word_facts _ Hla) as [Hta Hda].
  destruct (lowercase_word_facts _ Hln) as [Htb Hdb].
  set (n := JsonRpc.itoa (r + 1)) in *.
  assert (Hcode : GenerateCode (adjective +:+ "-" +:+ noun) r
                  = adjective +:+ "-" +:+ noun +:+ "-" +:+ n).
  { unfold GenerateCode. fold n. rewrite append_assoc.
    change (("-" +:+ noun) +:+ "-" +:+ n) with ("-" +:+ (noun +:+ "-" +:+ n)).
    reflexivity. }
  assert (Htidy : tidy (adjective +:+ "-" +:+ noun +:+ "-" +:+ n) = true).
  { rewrite tidy_app, Hta.
    change ("-" +:+ noun +:+ "-" +:+ n) with (String dash (noun +:+ String dash n)).
    cbn [tidy andb]. rewrite tidy_app, Htb. cbn [tidy]. rewrite Htn. reflexivity. }
  assert (Hnorm : NormalizeCode (adjective +:+ "-" +:+ noun +:+ "-" +:+ n)
                  = adjective +:+ "-" +:+ noun +:+ "-" +:+ n).
  { unfold NormalizeCode. rewrite (tidy_TrimSpace _ Htidy). apply tidy_ToLower, Htidy. }
  rewrite Hcode. split; [|exact Hnorm].
  apply IsValidFormat_shape. exists adjective, noun, n.
  split; [exact Hnorm|].
  repeat split; auto using lowercase_word_not_blank.
Qed.

Lemma GenerateCode_well_formed_witness :
  IsValidFormat (GenerateCode ("happy" +:+ "-" +:+ "panda") 41) = true
  /\ GenerateCode ("happy" +:+ "-" +:+ "panda") 41 = "happy-panda-42".
Proof.
  split; [|reflexivity].
  apply (GenerateCode_well_formed "happy" "panda" 41); try reflexivity;
    try discriminate; lia.
Defined.

End CodeProps.

(* ===================================================================== *)
(** * More on the session store *)
(* ===================================================================== *)

Module StoreOpsProps.
Import GoStrings Generator Manager SessionCodeSpec GeneratorProps StoreSpec StoreProps
       SessionOps CodeProps StoreExamples.

(** ** Creating sessions *)

Lemma CreateSession_outcome (m : Manager) (gen : nat -> string)
      (cancelled : nat -> bool) (now : Z) (opts : SessionOptions) :
  (exists i : nat, Z.of_nat i <= MaxRetries opts /\ IsValidFormat (gen i) = true) ->
  match CreateSession m gen cancelled now (Some opts) with
  | (inl s, m') =>
      sessions m !! Code s = None
      /\ IsValidFormat (Code s) = true /\ NormalizeCode (Code s) = Code s
      /\ sessions m' = <[Code s := s]> (sessions m)
      /\ options m' = options m
      /\ CreatedAt s = now /\ LastAccessed s = now /\ Data s = InitialData opts
  | (inr e, m') =>
      m' = m /\ (e = ErrCodeGenerationFailed \/ e = ErrCreationCancelled)
  end.
Proof.
  intros (i & Hi & Hv). unfold CreateSession.
  destruct (createLoop _ _ _ _ _ _ _) as [|code collision] eqn:HL; [auto|].
  destruct collision; [auto|].
  apply createLoop_done in HL as [(Hok & Hnorm & Hfree)|[_ Hall]].
  - simpl. repeat split; assumption.
  - exfalso. rewrite Hall in Hv; [discriminate|]. lia.
Qed.

(** X4.  When one of the candidates CreateSession may try passes the format
    check, a successful call stores the new session under a key that was
    free, well-formed and normalized, and changes nothing else; the
    session carries that key as its code, the time of creation in both
    timestamps and the initial data.  A failed call leaves the store as
    it was. *)
Theorem CreateSession_adds_fresh_session (m : Manager) (gen : nat -> string)
        (cancelled : nat -> bool) (now : Z) (opts : SessionOptions) :
  (exists i : nat, Z.of_nat i <= MaxRetries opts /\ IsValidFormat (gen i) = true) ->
  match CreateSession m gen cancelled now (Some opts) with
  | (inl s, m') =>
      sessions m !! Code s = None
      /\ IsValidFormat (Code s) = true /\ NormalizeCode (Code s) = Code s
      /\ sessions m' = <[Code s := s]> (sessions m)
      /\ options m' = options m
      /\ CreatedAt s = now /\ LastAccessed s = now /\ Data s = InitialData opts
  | (inr e, m') =>
      m' = m /\ (e = ErrCodeGenerationFailed \/ e = ErrCreationCancelled)
  end.
Proof. apply CreateSession_outcome. Qed.

Lemma CreateSession_adds_fresh_session_witness :
  exists s m',
    CreateSession one_session taken_then_free never 5 (Some DefaultSessionOptions)
    = (inl s, m')
    /\ Code s = "blue-river-7"
    /\ sessions one_session !! Code s = None.
Proof.
  assert (Hex : exists i : nat, Z.of_nat i <= MaxRetries DefaultSessionOptions
                                /\ IsValidFormat (taken_then_free i) = true).
  { exists 0%nat. split; [vm_compute; discriminate|reflexivity]. }
  pose proof (CreateSession_adds_fresh_session one_session taken_then_free never 5
                DefaultSessionOptions Hex) as H.
  destruct (CreateSession one_session taken_then_free never 5 (Some DefaultSessionOptions))
    as [[s|e] m'] eqn:E.
  - exists s, m'. split; [reflexivity|]. split; [|apply H].
    vm_compute in E. injection E as <- _. reflexivity.
  - vm_compute in E. discriminate.
Defined.

(** The loop runs through candidates that are well-formed, taken, and not
    cancelled, remembering only that there was a collision. *)
Lemma createLoop_through_collisions ss gen cancelled k : forall fuel attempt code collision,
  (forall i, (attempt <= i < attempt + k)%nat ->
     IsValidFormat (gen i) = true
     /\ is_Some (ss !! NormalizeCode (gen i))
     /\ cancelled i = false) ->
  exists code' collision',
    createLoop ss gen cancelled (k + fuel) attempt code collision
    = createLoop ss gen cancelled fuel (attempt + k) code' collision'
    /\ (k = 0%nat -> code' = code /\ collision' = collision)
    /\ ((0 < k)%nat -> collision' = true).
Proof.
  induction k as [|k IH]; intros fuel attempt code collision Hpre.
  - exists code, collision. rewrite Nat.add_0_r. simpl. split; [reflexivity|].
    split; [auto|lia].
  - destruct (Hpre attempt) as (Hv & Hc & Hn); [lia|].
    cbn [Nat.add createLoop]. rewrite Hv. cbn [negb].
    rewrite (bool_decide_eq_true_2 _ Hc), Hn. cbn [negb].
    destruct (IH fuel (S attempt) (gen attempt) true) as (code' & collision' & Heq & H0 & Hpos).
    { intros i Hi. apply Hpre. lia. }
    exists code', collision'. split.
    + rewrite Heq. f_equal. lia.
    + split; [lia|]. intros _. destruct k; [apply H0; reflexivity|apply Hpos; lia].
Qed.

(** X5.  The retry loop of CreateSession.  After [k] candidates that are
    well-formed but taken (with the context not cancelled at those
    attempts), a well-formed free candidate is used, whether or not the
    context is cancelled by then; a taken candidate ends the call with the
    cancellation error when the context is cancelled, and with
    ErrCodeGenerationFailed when it was the last attempt allowed.  The two
    errors leave the store unchanged. *)
Theorem CreateSession_retries (m : Manager) (gen : nat -> string)
        (cancelled : nat -> bool) (now : Z) (opts : SessionOptions) (k : nat) :
  Z.of_nat k <= MaxRetries opts ->
  (forall i, (i < k)%nat ->
     IsValidFormat (gen i) = true
     /\ is_Some (sessions m !! NormalizeCode (gen i))
     /\ cancelled i = false) ->
  IsValidFormat (gen k) = true ->
  (sessions m !! NormalizeCode (gen k) = None ->
   exists s,
     CreateSession m gen cancelled now (Some opts)
     = (inl s, set_sessions m (<[NormalizeCode (gen k) := s]> (sessions m)))
     /\ Code s = NormalizeCode (gen k))
  /\ (is_Some (sessions m !! NormalizeCode (gen k)) -> cancelled k = true ->
      CreateSession m gen cancelled now (Some opts) = (inr ErrCreationCancelled, m))
  /\ (is_Some (sessions m !! NormalizeCode (gen k)) -> cancelled k = false ->
      Z.of_nat k = MaxRetries opts ->
      CreateSession m gen cancelled now (Some opts) = (inr ErrCodeGenerationFailed, m)).
Proof.
  intros Hk Hpre Hv. unfold CreateSession.
  assert (Hfuel : Z.to_nat (MaxRetries opts + 1)
                  = (k + S (Z.to_nat (MaxRetries opts) - k))%nat) by lia.
  rewrite Hfuel.
  destruct (createLoop_through_collisions (sessions m) gen cancelled k
              (S (Z.to_nat (MaxRetries opts) - k)) 0%nat "" false)
    as (code' & collision' & Heq & _ & _).
  { intros i Hi. apply Hpre. lia. }
  rewrite Heq. cbn [Nat.add createLoop]. rewrite Hv. cbn [negb].
  split; [|split].
  - intros Hfree. rewrite bool_decide_eq_false_2 by (rewrite Hfree; intros [x Hx]; discriminate).
    cbn [negb]. eexists. split; reflexivity.
  - intros Htaken Hc. rewrite (bool_decide_eq_true_2 _ Htaken), Hc. reflexivity.
  - intros Htaken Hc Hlast. rewrite (bool_decide_eq_true_2 _ Htaken), Hc. cbn [negb].
    replace (Z.to_nat (MaxRetries opts) - k)%nat with 0%nat by lia.
    reflexivity.
Qed.

Lemma CreateSession_retries_witness :
  exists s,
    CreateSession one_session taken_then_free never 5 (Some DefaultSessionOptions)
    = (inl s, set_sessions one_session (<["blue-river-7" := s]> (sessions one_session)))
    /\ Code s = "blue-river-7".
Proof.
  assert (Hk : Z.of_nat 1 <= MaxRetries DefaultSessionOptions) by (vm_compute; discriminate).
  assert (Hpre : forall i, (i < 1)%nat ->
            IsValidFormat (taken_then_free i) = true
            /\ is_Some (sessions one_session !! NormalizeCode (taken_then_free i))
            /\ never i = false).
  { intros i Hi. destruct i; [|lia]. split; [reflexivity|].
    split; [|reflexivity]. vm_compute. eauto. }
  destruct (CreateSession_retries one_session taken_then_free never 5
              DefaultSessionOptions 1 Hk Hpre eq_refl) as (H & _).
  apply H. reflexivity.
Defined.

(** ** Looking a session up *)

Lemma GetSession_by_normal_form m now now' c1 c2 :
  NormalizeCode c1 = NormalizeCode c2 -> (c1 = "" <-> c2 = "") ->
  GetSession m now now' c1 = GetSession m now now' c2.
Proof.
  intros Hn He. unfold GetSession.
  rewrite (IsValidFormat_by_normal_form c1 c2 Hn He), Hn.
  destruct (String.eqb_spec c1 "") as [E1|E1]; destruct (String.eqb_spec c2 "") as [E2|E2];
    try reflexivity; tauto.
Qed.

Lemma DeleteSession_by_normal_form m c1 c2 :
  NormalizeCode c1 = NormalizeCode c2 -> (c1 = "" <-> c2 = "") ->
  DeleteSession m c1 = DeleteSession m c2.
Proof.
  intros Hn He. unfold DeleteSession.
  rewrite (IsValidFormat_by_normal_form c1 c2 Hn He), Hn.
  destruct (String.eqb_spec c1 "") as [E1|E1]; destruct (String.eqb_spec c2 "") as [E2|E2];
    try reflexivity; tauto.
Qed.

Lemma same_up_to_case_empty c1 c2 : same_up_to_case c1 c2 -> (c1 = "" <-> c2 = "").
Proof.
  unfold same_up_to_case. intros H. split; intros ->.
  - symmetry in H. apply (proj1 (ToLower_empty c2)) in H. exact H.
  - apply (proj1 (ToLower_empty c1)) in H. exact H.
Qed.

(** X6.  GetSession, DeleteSession and UpdateSessionData do not tell apart
    two codes that differ in the case of their letters only: they return
    the same result and leave the same store. *)
Theorem lookups_ignore_case (m : Manager) (now now' : Z) (c1 c2 : string)
        (data : gmap string scalar) :
  ascii_only c1 = true -> ascii_only c2 = true ->
  same_up_to_case c1 c2 ->
  GetSession m now now' c1 = GetSession m now now' c2
  /\ DeleteSession m c1 = DeleteSession m c2
  /\ UpdateSessionData m now now' c1 data = UpdateSessionData m now now' c2 data.
Proof.
  intros _ _ H.
  pose proof (NormalizeCode_case c1 c2 H) as Hn.
  pose proof (same_up_to_case_empty c1 c2 H) as He.
  split; [apply GetSession_by_normal_form; assumption|].
  split; [apply DeleteSession_by_normal_form; assumption|].
  unfold UpdateSessionData. rewrite Hn.
  destruct (String.eqb_spec c1 "") as [E1|E1]; destruct (String.eqb_spec c2 "") as [E2|E2];
    try reflexivity; tauto.
Qed.

Lemma lookups_ignore_case_witness :
  fst (GetSession one_session 5 6 "HAPPY-PANDA-42") = inl (touch panda 6)
  /\ GetSession one_session 5 6 "HAPPY-PANDA-42" = GetSession one_session 5 6 "happy-panda-42".
Proof.
  split; [reflexivity|].
  apply (lookups_ignore_case one_session 5 6 "HAPPY-PANDA-42" "happy-panda-42" ∅);
    reflexivity.
Defined.

(** X7.  When one of the candidates CreateSession may try passes the
    format check, the session a successful call returns is found again
    under its code, written in ASCII in any letter case, as long as the
    time elapsed since its creation, as time.Since reports it, is no more
    than the timeout of the manager: GetSession returns it with
    LastAccessed moved to the time of the call.  Once the elapsed time is
    more than the timeout the same call answers ErrSessionExpired and the
    session is gone.  The elapsed time is the difference of the two clock
    readings whenever that difference fits a Duration. *)
Theorem created_session_is_found (m : Manager) (gen : nat -> string)
        (cancelled : nat -> bool) (now now' now'' : Z) (opts : SessionOptions)
        (s : Session) (m' : Manager) (code : string) :
  (exists i : nat, Z.of_nat i <= MaxRetries opts /\ IsValidFormat (gen i) = true) ->
  is_Duration (SessionTimeout (options m)) ->
  CreateSession m gen cancelled now (Some opts) = (inl s, m') ->
  ascii_only code = true ->
  same_up_to_case code (Code s) ->
  (time_Since now' now <= SessionTimeout (options m) ->
   GetSession m' now' now'' code
   = (inl (touch s now''), set_sessions m' (<[Code s := touch s now'']> (sessions m'))))
  /\ (time_Since now' now > SessionTimeout (options m) ->
      GetSession m' now' now'' code
      = (inr ErrSessionExpired, set_sessions m' (delete (Code s) (sessions m'))))
  /\ (is_Duration (now' - now) -> time_Since now' now = now' - now).
Proof.
  intros Hex HT Hcreate _ Hcase.
  assert (HTd : as_Duration (SessionTimeout (options m)) = SessionTimeout (options m)).
  { unfold is_Duration in HT. unfold as_Duration. lia. }
  pose proof (CreateSession_outcome m gen cancelled now opts Hex) as H.
  rewrite Hcreate in H. destruct H as (_ & Hok & Hnorm & Hss & Hopt & _ & Hla & _).
  assert (Hget : GetSession m' now' now'' code = GetSession m' now' now'' (Code s)).
  { apply GetSession_by_normal_form.
    - rewrite (NormalizeCode_case _ _ Hcase). reflexivity.
    - apply same_up_to_case_empty, Hcase. }
  rewrite Hget. unfold GetSession. rewrite Hok, Hnorm.
  assert (Hne : String.eqb (Code s) "" = false).
  { destruct (String.eqb_spec (Code s) "") as [E|]; [|reflexivity].
    rewrite E in Hok. discriminate. }
  rewrite Hne. cbn [negb]. rewrite Hss, lookup_insert_eq.
  unfold isExpired. rewrite Hopt, Hla, HTd. split; [|split].
  - intros Ht.
    destruct (time_Since now' now >? SessionTimeout (options m)) eqn:E; [|reflexivity].
    apply Z.gtb_lt in E. lia.
  - intros Ht.
    destruct (time_Since now' now >? SessionTimeout (options m)) eqn:E; [reflexivity|].
    rewrite Z.gtb_ltb in E. apply Z.ltb_ge in E. lia.
  - intros Hd. unfold is_Duration in Hd. unfold time_Since, as_Duration. lia.
Qed.

Lemma created_session_is_found_witness :
  GetSession (set_sessions one_session (<["blue-river-7" := river]> (sessions one_session)))
             9 10 "Blue-River-7"
  = (inl (touch river 10),
     set_sessions one_session
       (<["blue-river-7" := touch river 10]>
          (<["blue-river-7" := river]> (sessions one_session)))).
Proof.
  assert (Hex : exists i : nat, Z.of_nat i <= MaxRetries DefaultSessionOptions
                                /\ IsValidFormat (taken_then_free i) = true).
  { exists 0%nat. split; [vm_compute; discriminate|reflexivity]. }
  assert (Hc : CreateSession one_session taken_then_free never 5 (Some DefaultSessionOptions)
               = (inl river,
                  set_sessions one_session (<["blue-river-7" := river]> (sessions one_session))))
    by reflexivity.
  assert (HT : is_Duration (SessionTimeout (options one_session))).
  { unfold is_Duration. vm_compute. split; discriminate. }
  destruct (created_session_is_found one_session taken_then_free never 5 9 10
              DefaultSessionOptions river _ "Blue-River-7" Hex HT Hc eq_refl eq_refl)
    as [H _].
  apply H. vm_compute. discriminate.
Defined.

(** ** Deleting and updating *)

(** X8.  DeleteSession answers true exactly when the code is well-formed
    and a session is stored under its normal form; afterwards nothing is
    stored under that normal form, every other entry is as before, a
    second call answers false and GetSession no longer finds the
    session. *)
Theorem DeleteSession_removes (m : Manager) (code : string) (now now' : Z) :
  (fst (DeleteSession m code) = true <->
   IsValidFormat code = true /\ is_Some (sessions m !! NormalizeCode code))
  /\ (IsValidFormat code = true ->
      sessions (snd (DeleteSession m code)) !! NormalizeCode code = None)
  /\ (forall k, k <> NormalizeCode code ->
      sessions (snd (DeleteSession m code)) !! k = sessions m !! k)
  /\ fst (DeleteSession (snd (DeleteSession m code)) code) = false
  /\ (exists e, fst (GetSession (snd (DeleteSession m code)) now now' code) = inr e
                /\ (e = ErrInvalidSessionCode \/ e = ErrSessionNotFound)).
Proof.
  assert (Hgone : IsValidFormat code = true ->
                  sessions (snd (DeleteSession m code)) !! NormalizeCode code = None).
  { unfold DeleteSession. intros Hv. rewrite Hv.
    destruct (String.eqb_spec code "") as [->|Hne]; [discriminate|]. cbn [negb].
    destruct (sessions m !! NormalizeCode code) eqn:E; simpl; [apply lookup_delete_eq|exact E]. }
  split; [|split; [exact Hgone|split; [|split]]].
  - unfold DeleteSession.
    destruct (String.eqb_spec code "") as [->|Hne].
    + simpl. split; [discriminate|]. intros [H _]. discriminate.
    + destruct (IsValidFormat code); cbn [negb].
      * destruct (sessions m !! NormalizeCode code); simpl.
        -- split; eauto.
        -- split; [discriminate|]. intros [_ [x Hx]]. discriminate.
      * simpl. split; [discriminate|]. intros [H _]. discriminate.
  - intros k Hk. unfold DeleteSession.
    destruct (String.eqb code ""); [reflexivity|].
    destruct (IsValidFormat code); [|reflexivity]. cbn [negb].
    destruct (sessions m !! NormalizeCode code); [|reflexivity].
    simpl. apply lookup_delete_ne. congruence.
  - destruct (IsValidFormat code) eqn:Hv.
    + specialize (Hgone eq_refl). unfold DeleteSession at 1. rewrite Hv, Hgone.
      destruct (String.eqb code ""); reflexivity.
    + unfold DeleteSession at 1. rewrite Hv. destruct (String.eqb code ""); reflexivity.
  - destruct (IsValidFormat code) eqn:Hv.
    + specialize (Hgone eq_refl). unfold GetSession. rewrite Hv, Hgone.
      destruct (String.eqb code ""); eauto.
    + unfold GetSession. rewrite Hv. destruct (String.eqb code ""); eauto.
Qed.

(** X9.  UpdateSessionData on a stored session that has not expired merges
    the new data into the session: a key of the new data gets the new
    value, every other key keeps its old one; LastAccessed moves to the
    time of the call, code and creation time stay, and the other sessions
    are untouched.  The code is only normalized, never checked for its
    format. *)
Theorem UpdateSessionData_merges (m : Manager) (now now' : Z) (code : string)
        (data : gmap string scalar) (s : Session) :
  code <> "" ->
  sessions m !! NormalizeCode code = Some s ->
  now - LastAccessed s <= SessionTimeout (options m) ->
  exists s',
    UpdateSessionData m now now' code data
    = (None, set_sessions m (<[NormalizeCode code := s']> (sessions m)))
    /\ (forall k v, data !! k = Some v -> Data s' !! k = Some v)
    /\ (forall k, data !! k = None -> Data s' !! k = Data s !! k)
    /\ LastAccessed s' = now'
    /\ Code s' = Code s /\ CreatedAt s' = CreatedAt s.
Proof.
  intros Hne Hs Hfresh. unfold UpdateSessionData.
  apply String.eqb_neq in Hne. rewrite Hne, Hs. unfold isExpired.
  assert (Hgt : (time_Since now (LastAccessed s)
                 >? as_Duration (SessionTimeout (options m))) = false).
  { rewrite Z.gtb_ltb. apply Z.ltb_ge. unfold time_Since, as_Duration. lia. }
  rewrite Hgt. eexists. split; [reflexivity|]. simpl.
  split; [|split; [|auto]].
  - intros k v Hk. apply lookup_union_Some_l. exact Hk.
  - intros k Hk. apply lookup_union_r. exact Hk.
Qed.

Lemma UpdateSessionData_merges_witness :
  exists s',
    UpdateSessionData one_session 5 6 " Happy-Panda-42" {[ "level" := SInt 3 ]}
    = (None, set_sessions one_session (<["happy-panda-42" := s']> (sessions one_session)))
    /\ Data s' !! "level" = Some (SInt 3).
Proof.
  destruct (UpdateSessionData_merges one_session 5 6 " Happy-Panda-42"
              {[ "level" := SInt 3 ]} panda) as (s' & H1 & H2 & _).
  - discriminate.
  - reflexivity.
  - vm_compute. discriminate.
  - exists s'. split; [exact H1|]. apply H2. reflexivity.
Defined.

(** ** The sweep *)

Lemma isExpired_set_sessions m ss now s :
  isExpired (set_sessions m ss) now s = isExpired m now s.
Proof. reflexivity. Qed.

(** X10.  Cleanup removes exactly the expired sessions: an entry is in the
    store afterwards if and only if it was there before and is not expired
    at the time it is visited.  The number returned is the number of
    entries removed, and a second sweep at the same times removes
    nothing. *)
Theorem Cleanup_sweeps_expired (m : Manager) (now : string -> Z) :
  (forall k s, sessions (snd (Cleanup m now)) !! k = Some s <->
               sessions m !! k = Some s /\ isExpired m (now k) s = false)
  /\ fst (Cleanup m now) + Z.of_nat (size (sessions (snd (Cleanup m now))))
     = Z.of_nat (size (sessions m))
  /\ Cleanup (snd (Cleanup m now)) now = (0, snd (Cleanup m now)).
Proof.
  assert (Hkept : forall k s, sessions (snd (Cleanup m now)) !! k = Some s <->
                    sessions m !! k = Some s /\ isExpired m (now k) s = false).
  { intros k s. unfold Cleanup. simpl. apply map_lookup_filter_Some. }
  split; [exact Hkept|]. split.
  - unfold Cleanup. simpl.
    set (P := fun kv : string * Session => isExpired m (now kv.1) kv.2 = true).
    assert (Hext : filter (fun kv : string * Session => isExpired m (now kv.1) kv.2 = false)
                          (sessions m)
                   = filter (fun kv => ~ P kv) (sessions m)).
    { apply map_filter_ext. intros i x _. unfold P. simpl.
      destruct (isExpired m (now i) x); split; congruence. }
    rewrite Hext.
    rewrite <- (map_filter_union_complement P (sessions m)) at 3.
    rewrite map_size_disj_union by apply map_disjoint_filter_complement.
    fold P. lia.
  - unfold Cleanup at 1. cbn [fst snd].
    set (kept := sessions (snd (Cleanup m now))).
    assert (Hopt : forall t s, isExpired (snd (Cleanup m now)) t s = isExpired m t s)
      by reflexivity.
    assert (Hnone : filter (fun kv : string * Session =>
                              isExpired (snd (Cleanup m now)) (now kv.1) kv.2 = true) kept = ∅).
    { apply map_eq. intros k. rewrite lookup_empty. apply map_lookup_filter_None.
      right. intros s Hs. simpl. rewrite Hopt.
      apply Hkept in Hs as [_ Hs]. rewrite Hs. discriminate. }
    assert (Hall : filter (fun kv : string * Session =>
                             isExpired (snd (Cleanup m now)) (now kv.1) kv.2 = false) kept
                   = kept).
    { apply map_eq. intros k. destruct (kept !! k) as [s|] eqn:Hk.
      - apply map_lookup_filter_Some. split; [exact Hk|]. simpl. rewrite Hopt.
        apply Hkept in Hk as [_ Hk]. exact Hk.
      - apply map_lookup_filter_None. left. exact Hk. }
    rewrite Hnone, Hall. rewrite map_size_empty. reflexivity.
Qed.

(** ** What holds in every state *)

Lemma apply_op_keys_are_codes m op : keys_are_codes m -> keys_are_codes (apply_op m op).
Proof.
  destruct op; simpl.
  - apply CreateSession_keys_are_codes.
  - apply GetSession_keys_are_codes.
  - apply UpdateSessionData_keys_are_codes.
  - apply DeleteSession_keys_are_codes.
  - apply Cleanup_keys_are_codes.
Qed.

Lemma apply_op_options m op : options (apply_op m op) = options m.
Proof.
  destruct op; simpl.
  - unfold CreateSession. destruct (createLoop _ _ _ _ _ _ _) as [|code collision];
      [reflexivity|]. destruct collision; reflexivity.
  - unfold GetSession. destruct (String.eqb code ""); [reflexivity|].
    destruct (IsValidFormat code); [|reflexivity]. simpl.
    destruct (sessions m !! NormalizeCode code) as [s|]; [|reflexivity].
    destruct (isExpired m now s); reflexivity.
  - unfold UpdateSessionData. destruct (String.eqb code ""); [reflexivity|].
    destruct (sessions m !! NormalizeCode code) as [s|]; [|reflexivity].
    destruct (isExpired m now s); reflexivity.
  - unfold DeleteSession. destruct (String.eqb code ""); [reflexivity|].
    destruct (IsValidFormat code); [|reflexivity]. simpl.
    destruct (sessions m !! NormalizeCode code) as [s|]; reflexivity.
  - reflexivity.
Qed.

(** X11.  In every state the manager can reach from NewManager, by any
    sequence of CreateSession, GetSession, UpdateSessionData, DeleteSession
    and Cleanup calls and whatever the generator yields, each session is
    stored under its own code, and the options of the manager are those it
    was built with. *)
Theorem store_keys_are_codes (opts : option SessionOptions) (ops : list StoreOp) :
  keys_are_codes (apply_ops (NewManager opts) ops)
  /\ options (apply_ops (NewManager opts) ops) = options (NewManager opts).
Proof.
  unfold apply_ops.
  assert (H : forall m, keys_are_codes m ->
            keys_are_codes (fold_left apply_op ops m)
            /\ options (fold_left apply_op ops m) = options m).
  { induction ops as [|op ops IH]; intros m Hm; simpl; [auto|].
    destruct (IH (apply_op m op) (apply_op_keys_are_codes m op Hm)) as [H1 H2].
    split; [exact H1|]. rewrite H2. apply apply_op_options. }
  apply H. intros k s Hs. simpl in Hs. rewrite lookup_empty in Hs. discriminate.
Qed.

(** ** The session of a new connection *)

Lemma createLoop_never_cancelled ss gen fuel : forall attempt code collision,
  createLoop ss gen (fun _ => false) fuel attempt code collision <> LoopCancelled.
Proof.
  induction fuel as [|fuel IH]; intros attempt code collision; simpl; [discriminate|].
  destruct (IsValidFormat (gen attempt)); simpl; [|apply IH].
  destruct (bool_decide _); simpl; [apply IH|discriminate].
Qed.

Lemma GetSession_success m now now' code existing m1 :
  GetSession m now now' code = (inl existing, m1) ->
  code <> "" /\ IsValidFormat code = true
  /\ exists s, sessions m !! NormalizeCode code = Some s
               /\ isExpired m now s = false
               /\ existing = touch s now'
               /\ m1 = set_sessions m (<[NormalizeCode code := touch s now']> (sessions m)).
Proof.
  unfold GetSession.
  destruct (String.eqb_spec code "") as [->|Hne]; [discriminate|].
  destruct (IsValidFormat code); [|discriminate]. cbn [negb].
  destruct (sessions m !! NormalizeCode code) as [s|]; [|discriminate].
  destruct (isExpired m now s) eqn:He; [discriminate|].
  intros H. injection H as <- <-. eauto 10.
Qed.

(** The loop ends without a collision on the first candidate of the
    generator that passes the format check and whose normal form is free
    (or with no well-formed candidate seen at all). *)
Lemma createLoop_first_free ss gen cancelled fuel : forall attempt code collision code',
  createLoop ss gen cancelled fuel attempt code collision = LoopDone code' false ->
  (exists i, (attempt <= i < attempt + fuel)%nat
             /\ code' = NormalizeCode (gen i)
             /\ IsValidFormat (gen i) = true
             /\ (forall j, (attempt <= j < i)%nat ->
                 IsValidFormat (gen j) = false
                 \/ is_Some (ss !! NormalizeCode (gen j))))
  \/ (collision = false
      /\ forall i, (attempt <= i < attempt + fuel)%nat -> IsValidFormat (gen i) = false).
Proof.
  induction fuel as [|fuel IH]; intros attempt code collision code'; simpl.
  - intros H. injection H as _ ->. right. split; [reflexivity|]. intros i Hi. lia.
  - destruct (IsValidFormat (gen attempt)) eqn:Hv; simpl.
    + destruct (bool_decide (is_Some (ss !! NormalizeCode (gen attempt)))) eqn:Hcol; simpl.
      * destruct (cancelled attempt); [discriminate|].
        intros H. apply IH in H as [(i & Hi & Hc & Hvi & Hbefore)|[H _]]; [|discriminate].
        left. exists i. split; [lia|]. split; [exact Hc|]. split; [exact Hvi|].
        intros j Hj. destruct (decide (j = attempt)) as [->|Hne].
        -- right. apply bool_decide_eq_true in Hcol. exact Hcol.
        -- apply Hbefore. lia.
      * intros H. injection H as <-. left. exists attempt.
        split; [lia|]. split; [reflexivity|]. split; [exact Hv|].
        intros j Hj. lia.
    + intros H. apply IH in H as [(i & Hi & Hc & Hvi & Hbefore)|[Hc Hall]].
      * left. exists i. split; [lia|]. split; [exact Hc|]. split; [exact Hvi|].
        intros j Hj. destruct (decide (j = attempt)) as [->|Hne].
        -- left. exact Hv.
        -- apply Hbefore. lia.
      * right. split; [exact Hc|]. intros i Hi.
        destruct (decide (i = attempt)) as [->|Hne]; [exact Hv|]. apply Hall. lia.
Qed.

(** X12.  The session code handleWebSocket gives a new connection, for an
    ASCII code asked for and a generator of ASCII codes that yields a
    well-formed candidate within the retries allowed, in a store where
    every session is stored under its code.  When the code asked for is
    well-formed and names a stored session that has not expired, the
    connection resumes that session: it gets the stored code (the normal
    form of the code asked for) and only LastAccessed of that session
    changes.  In every other case a new session is created after the
    lookup, and its code is the normal form of the first candidate of the
    generator that is well-formed and free in the store: the code asked
    for plays no part in it.  Either way the code given is well-formed,
    normalized and the key of a stored session, and the only error is
    ErrCodeGenerationFailed. *)
Theorem handleWebSocket_session_code (m : Manager) (gen : nat -> string)
        (now now' now'' : Z) (requested : string) :
  ascii_only requested = true ->
  (forall i, ascii_only (gen i) = true) ->
  keys_are_codes m ->
  (exists i : nat, Z.of_nat i <= MaxRetries (options m) /\ IsValidFormat (gen i) = true) ->
  match handleWebSocket_session m gen now now' now'' requested with
  | (inl code, m') =>
      IsValidFormat code = true /\ NormalizeCode code = code
      /\ (exists s', sessions m' !! code = Some s' /\ Code s' = code)
      /\ ((exists s,
             IsValidFormat requested = true /\ code = NormalizeCode requested
             /\ sessions m !! code = Some s
             /\ isExpired m now s = false
             /\ sessions m' = <[code := touch s now']> (sessions m))
          \/ (exists m1 s' i,
                m1 = (if String.eqb requested "" then m
                      else snd (GetSession m now now' requested))
                /\ (requested = "" \/ exists e, fst (GetSession m now now' requested) = inr e)
                /\ Z.of_nat i <= MaxRetries (options m)
                /\ code = NormalizeCode (gen i)
                /\ IsValidFormat (gen i) = true
                /\ (forall j, (j < i)%nat ->
                    IsValidFormat (gen j) = false
                    \/ is_Some (sessions m1 !! NormalizeCode (gen j)))
                /\ sessions m1 !! code = None
                /\ sessions m' = <[code := s']> (sessions m1)
                /\ Code s' = code /\ CreatedAt s' = now''))
  | (inr e, m') => e = ErrCodeGenerationFailed
  end.
Proof.
  intros _ _ Hkeys Hex. unfold handleWebSocket_session.
  assert (Hcreate : forall m1, options m1 = options m ->
            match CreateSession m1 gen (fun _ => false) now'' None with
            | (inl s, m') =>
                sessions m1 !! Code s = None
                /\ IsValidFormat (Code s) = true /\ NormalizeCode (Code s) = Code s
                /\ sessions m' = <[Code s := s]> (sessions m1)
                /\ CreatedAt s = now''
                /\ exists i, Z.of_nat i <= MaxRetries (options m)
                             /\ Code s = NormalizeCode (gen i)
                             /\ IsValidFormat (gen i) = true
                             /\ (forall j, (j < i)%nat ->
                                 IsValidFormat (gen j) = false
                                 \/ is_Some (sessions m1 !! NormalizeCode (gen j)))
            | (inr e, m') => e = ErrCodeGenerationFailed
            end).
  { intros m1 Hopt.
    change (CreateSession m1 gen (fun _ => false) now'' None)
      with (CreateSession m1 gen (fun _ => false) now'' (Some (options m1))).
    assert (Hex1 : exists i : nat, Z.of_nat i <= MaxRetries (options m1)
                                   /\ IsValidFormat (gen i) = true)
      by (rewrite Hopt; exact Hex).
    pose proof (CreateSession_outcome m1 gen (fun _ => false) now'' (options m1) Hex1) as H.
    destruct (CreateSession m1 gen (fun _ => false) now'' (Some (options m1)))
      as [[s|e] m'] eqn:E.
    - destruct H as (H1 & H2 & H3 & H4 & _ & H5 & _).
      split; [exact H1|]. split; [exact H2|]. split; [exact H3|].
      split; [exact H4|]. split; [exact H5|].
      unfold CreateSession in E.
      destruct (createLoop _ _ _ _ _ _ _) as [|code collision] eqn:HL; [discriminate|].
      destruct collision; [discriminate|]. injection E as <- _. cbn [Code].
      destruct Hex1 as (i0 & Hi0 & Hv0).
      apply createLoop_first_free in HL as [(i & Hi & Hc & Hvi & Hbefore)|[_ Hall]].
      + exists i. split; [rewrite <- Hopt; lia|]. split; [exact Hc|]. split; [exact Hvi|].
        intros j Hj. apply Hbefore. lia.
      + exfalso. rewrite Hall in Hv0; [discriminate|]. lia.
    - destruct H as [_ [H|H]]; [exact H|]. exfalso. subst e.
      unfold CreateSession in E.
      destruct (createLoop _ _ _ _ _ _ _) as [|code collision] eqn:HL.
      + exact (createLoop_never_cancelled _ _ _ _ _ _ HL).
      + destruct collision; discriminate. }
  destruct (String.eqb_spec requested "") as [->|Hne]; cbn [negb].
  - cbn [String.eqb].
    specialize (Hcreate m eq_refl).
    destruct (CreateSession m gen (fun _ => false) now'' None) as [[s|e] m'];
      [|exact Hcreate].
    destruct Hcreate as (H1 & H2 & H3 & H4 & H5 & i & Hi & Hc & Hvi & Hbefore).
    split; [exact H2|]. split; [exact H3|].
    split; [exists s; rewrite H4, lookup_insert_eq; auto|].
    right. exists m, s, i. repeat split; auto.
  - destruct (GetSession m now now' requested) as [[existing|e] m1] eqn:HG.
    + apply GetSession_success in HG as (_ & Hv & s & Hs & Hexp & -> & ->).
      cbn [touch Code].
      assert (Hcode : Code s = NormalizeCode requested) by (apply Hkeys, Hs).
      assert (Hvn : IsValidFormat (NormalizeCode requested) = true)
        by (apply IsValidFormat_NormalizeCode, Hv).
      rewrite Hcode.
      destruct (String.eqb_spec (NormalizeCode requested) "") as [E|_].
      { rewrite E in Hvn. discriminate. }
      split; [exact Hvn|]. split; [apply NormalizeCode_idem|].
      split.
      * exists (touch s now'). simpl. rewrite lookup_insert_eq. auto.
      * left. exists s. auto.
    + cbn [String.eqb].
      assert (Hopt : options m1 = options m).
      { change m1 with (snd (inr (A:=Session) e, m1)). rewrite <- HG.
        apply (apply_op_options m (OpGet now now' requested)). }
      specialize (Hcreate m1 Hopt).
      destruct (CreateSession m1 gen (fun _ => false) now'' None) as [[s|e'] m'];
        [|exact Hcreate].
      destruct Hcreate as (H1 & H2 & H3 & H4 & H5 & i & Hi & Hc & Hvi & Hbefore).
      split; [exact H2|]. split; [exact H3|].
      split; [exists s; rewrite H4, lookup_insert_eq; auto|].
      right. exists m1, s, i. split; [reflexivity|].
      split; [right; exists e; reflexivity|]. repeat split; auto.
Qed.

Lemma handleWebSocket_session_code_witness :
  (exists code m',
     handleWebSocket_session one_session taken_then_free 5 6 7 "HAPPY-PANDA-42"
     = (inl code, m')
     /\ code = "happy-panda-42"
     /\ IsValidFormat code = true /\ NormalizeCode code = code)
  /\ (exists m',
       handleWebSocket_session one_session taken_then_free 5 6 7 "calm-otter-7"
       = (inl "blue-river-7", m')
       /\ sessions m' !! "calm-otter-7" = None).
Proof.
  assert (Hkeys : keys_are_codes one_session).
  { intros k s Hs. destruct (decide (k = "happy-panda-42")) as [->|Hne].
    - vm_compute in Hs. injection Hs as <-. reflexivity.
    - unfold one_session in Hs. simpl in Hs.
      rewrite lookup_singleton_ne in Hs by congruence. discriminate. }
  assert (Hex : exists i : nat, Z.of_nat i <= MaxRetries (options one_session)
                                /\ IsValidFormat (taken_then_free i) = true).
  { exists 0%nat. split; [vm_compute; discriminate|reflexivity]. }
  assert (Hgen : forall i, ascii_only (taken_then_free i) = true).
  { intros [|i]; reflexivity. }
  split.
  - pose proof (handleWebSocket_session_code one_session taken_then_free 5 6 7
                  "HAPPY-PANDA-42" eq_refl Hgen Hkeys Hex) as H.
    destruct (handleWebSocket_session one_session taken_then_free 5 6 7 "HAPPY-PANDA-42")
      as [[code|e] m'] eqn:E.
    + exists code, m'. split; [reflexivity|].
      split; [vm_compute in E; injection E as <- _; reflexivity|].
      split; apply H.
    + vm_compute in E. discriminate.
  - eexists. split; [vm_compute; reflexivity|]. vm_compute. reflexivity.
Defined.

End StoreOpsProps.

(* ===================================================================== *)
(** * More on validation and routing *)
(* ===================================================================== *)

Module RoutingOpsProps.
Import GoStrings Generator JsonRpc Router RoutingSpec RouterProps JsonRpcOps RoutingExamples.

(** ** Validate *)

Lemma field_errors_nil fs : field_errors fs = [] <-> violations fs = [].
Proof.
  pose proof (field_errors_head fs) as H.
  destruct (field_errors fs), (violations fs); simpl in H; split; congruence.
Qed.

(** X13.  Validate accepts a struct value exactly when none of its fields
    violates a rule; when it rejects one it reports a single error; and a
    value that is not a struct is rejected as a whole, with an error that
    is not a list of field errors. *)
Theorem Validate_verdict (s : any) :
  (forall fs, s = AStruct fs -> (Validate s = None <-> violations fs = []))
  /\ (forall errs, Validate s = Some (ValidationErrors errs) ->
      List.length errs = 1%nat /\ is_struct s = true)
  /\ (is_struct s = false -> exists msg, Validate s = Some (OtherError msg)).
Proof.
  split; [|split].
  - intros fs ->. unfold Validate, validate_Struct.
    rewrite <- field_errors_nil.
    destruct (field_errors fs); split; congruence.
  - intros errs. unfold Validate, validate_Struct.
    destruct s as [v|fs|n]; try discriminate.
    destruct (field_errors fs) as [|e es]; [discriminate|].
    intros H. injection H as <-. auto.
  - destruct s as [v|fs|n]; try discriminate; intros _; eexists; reflexivity.
Qed.

(** ** The envelope *)

(** X14.  ValidateRequest on a request whose id is not a struct: an empty
    version is reported as a missing "jsonrpc" field, any other version
    than "2.0" as a "jsonrpc" field that must equal 2.0, and only then an
    empty method as a missing "method" field; otherwise the request
    passes.  One error is reported at most, and the min rule of the
    method is never the one reported. *)
Theorem ValidateRequest_verdict (req : Request) :
  nested_fields (Request_ID req) = [] ->
  ValidateRequest (Some req) =
  if String.eqb (Request_JSONRPCVersion req) "" then
    Some (ValidationErrors
            [ {| VE_Field := "jsonrpc"; VE_Tag := "required"; VE_Value := SString "";
                 VE_Param := ""; VE_Message := "field 'jsonrpc' is required" |} ])
  else if negb (String.eqb (Request_JSONRPCVersion req) "2.0") then
    Some (ValidationErrors
            [ {| VE_Field := "jsonrpc"; VE_Tag := "eq";
                 VE_Value := SString (Request_JSONRPCVersion req); VE_Param := "2.0";
                 VE_Message := "field 'jsonrpc' must equal '2.0', got '"
                               +:+ Request_JSONRPCVersion req +:+ "'" |} ])
  else if String.eqb (Request_Method req) "" then
    Some (ValidationErrors
            [ {| VE_Field := "method"; VE_Tag := "required"; VE_Value := SString "";
                 VE_Param := ""; VE_Message := "field 'method' is required" |} ])
  else None.
Proof.
  intros Hid. unfold ValidateRequest, Validate, Request_struct, validate_Struct.
  rewrite Hid. unfold field_errors.
  cbn [app omap list_omap field_name field_value field_rules].
  unfold first_violation. cbn [List.find required eq_rule min_rule rule_ok rule_tag
                                rule_param is_zero negb].
  destruct (String.eqb_spec (Request_JSONRPCVersion req) "") as [->|Hv].
  - cbn. destruct (String.eqb (Request_Method req) ""); reflexivity.
  - cbn [negb].
    destruct (String.eqb_spec (Request_JSONRPCVersion req) "2.0") as [E|Hv2].
    + cbn [negb]. destruct (String.eqb_spec (Request_Method req) "") as [->|Hm].
      * reflexivity.
      * cbn [negb]. destruct (Request_Method req) as [|c m]; [congruence|]. reflexivity.
    + cbn [negb]. destruct (String.eqb (Request_Method req) ""); cbn [negb].
      * reflexivity.
      * destruct (Nat.leb 1 (String.length (Request_Method req))); reflexivity.
Qed.

Lemma ValidateRequest_verdict_witness :
  ValidateRequest (Some old_version_notification)
  = Some (ValidationErrors
            [ {| VE_Field := "jsonrpc"; VE_Tag := "eq"; VE_Value := SString "1.0";
                 VE_Param := "2.0";
                 VE_Message := "field 'jsonrpc' must equal '2.0', got '1.0'" |} ]).
Proof.
  rewrite (ValidateRequest_verdict old_version_notification eq_refl). reflexivity.
Defined.

(** X15.  ValidateSessionCode accepts exactly the codes IsValidFormat
    accepts.  The empty code is reported under the rule "required", every
    other rejected code under the rule "sessioncode", with the code as the
    offending value. *)
Theorem ValidateSessionCode_agrees (code : string) :
  (ValidateSessionCode code = None <-> IsValidFormat code = true)
  /\ (IsValidFormat code = false ->
      exists e,
        ValidateSessionCode code = Some (ValidationErrors [e])
        /\ VE_Field e = "value" /\ VE_Value e = SString code
        /\ VE_Tag e = (if String.eqb code "" then "required" else "sessioncode")).
Proof.
  unfold ValidateSessionCode, ValidateVar, validate_Var, first_violation.
  cbn [List.find required sessioncode rule_ok rule_tag rule_param is_zero].
  rewrite (GeneratorProps.validateSessionCode_mirrors code).
  destruct (String.eqb_spec code "") as [->|Hne]; cbn [negb].
  - split; [split; discriminate|]. intros _. eexists. split; [reflexivity|]. auto.
  - destruct (IsValidFormat code); cbn [negb].
    + split; [split; reflexivity|discriminate].
    + split; [split; discriminate|]. intros _. eexists. split; [reflexivity|]. auto.
Qed.

(** ** Responses *)

Lemma error_response_valid e id :
  Error_Code e <> 0 -> Error_Message e <> "" ->
  nested_fields (Error_Data e) = [] -> nested_fields id = [] ->
  ValidateResponse (Some (NewErrorResponse e id)) = None.
Proof.
  intros Hc Hm Hd Hid.
  unfold ValidateResponse, Validate, Response_struct, validate_Struct, NewErrorResponse.
  cbn [Response_JSONRPCVersion Response_Result Response_Error Response_ID nested_fields nil].
  unfold Error_fields. rewrite Hd, Hid. unfold field_errors.
  cbn [app omap list_omap field_name field_value field_rules].
  unfold first_violation.
  cbn [List.find required eq_rule min_rule rule_ok rule_tag rule_param is_zero negb
       Version String.eqb Ascii.eqb Bool.eqb].
  apply Z.eqb_neq in Hc. rewrite Hc. cbn [negb].
  destruct (String.eqb_spec (Error_Message e) "") as [E|_]; [contradiction|]. cbn [negb].
  destruct (Error_Message e) as [|c m]; [contradiction|]. reflexivity.
Qed.

Lemma createValidationError_shape err :
  exists data, createValidationError err
               = NewErrorWithData InvalidRequest "Request validation failed"
                                  (AScalar (SString data)).
Proof. destruct err as [[|e0 errs]|msg]; eexists; reflexivity. Qed.

Lemma createParamsError_shape err :
  exists data, createParamsError err
               = NewErrorWithData InvalidParams "Parameter validation failed"
                                  (AScalar (SString data)).
Proof. destruct err as [[|e0 errs]|msg]; eexists; reflexivity. Qed.

Section Routing.

Variable json_Unmarshal : string -> any -> option string * any.
Variable reflect_New : GoType -> any.
Variable reflect_TypeOf : any -> GoType.
Variable AssignableTo : GoType -> GoType -> bool.
Variable type_String : GoType -> string.
Variable json_Unmarshal_Request : string -> Request + string.
Variable json_Marshal_Response : Response -> string + string.

Local Abbreviation Route := (Route json_Unmarshal reflect_New reflect_TypeOf AssignableTo type_String).
Local Abbreviation RouteJSON :=
  (RouteJSON json_Unmarshal reflect_New reflect_TypeOf AssignableTo type_String
             json_Unmarshal_Request json_Marshal_Response).
Local Abbreviation checkParams := (checkParams json_Unmarshal reflect_New).
Local Abbreviation validateParams := (validateParams json_Unmarshal reflect_New).
Local Abbreviation validateResult := (validateResult reflect_TypeOf AssignableTo type_String).

Ltac std_error :=
  split; [right; eexists _, _, _; split; [reflexivity|]; split; [auto|discriminate]
         |split; reflexivity].

Lemma Route_response_shape r req resp r' :
  Route r req = (Some resp, r') ->
  (exists e, resp = NewErrorResponse e (Request_ID req) /\ standard_error e)
  \/ (exists result, resp = NewResponse result (Request_ID req)
                     /\ ValidateResponse (Some resp) = None).
Proof.
  unfold Router.Route.
  destruct (ValidateRequest (Some req)) as [err|].
  { intros H. injection H as <- <-. left.
    destruct (createValidationError_shape err) as [data ->].
    eexists. split; [reflexivity|]. std_error. }
  destruct (IsNotification req); [discriminate|].
  destruct (methods r !! Request_Method req) as [methodInfo|].
  2: { intros H. injection H as <- <-. left. eexists. split; [reflexivity|].
       split; [left; reflexivity|split; reflexivity]. }
  destruct (checkParams r _ methodInfo _) as [perr r1].
  destruct perr as [err|].
  { intros H. injection H as <- <-. left.
    destruct (createParamsError_shape err) as [data ->].
    eexists. split; [reflexivity|]. std_error. }
  destruct (callHandler _ _) as [result herr].
  destruct herr as [err|].
  { intros H. injection H as <- <-. left. eexists. split; [reflexivity|]. std_error. }
  match goal with |- context [match ?x with Some _ => _ | None => _ end] =>
    destruct x as [err|] end.
  { intros H. injection H as <- <-. left. eexists. split; [reflexivity|]. std_error. }
  destruct (ValidateResponse _) as [err|] eqn:HV.
  { intros H. injection H as <- <-. left. eexists. split; [reflexivity|]. std_error. }
  intros H. injection H as <- <-. right. eexists. split; [reflexivity|exact HV].
Qed.

(** X16.  Every response Route returns to a request whose id is not a
    struct is a valid response: it passes ValidateResponse and names
    version 2.0.  A response with an error has no result, and its error
    has a non-empty message and one of the pre-defined reserved codes,
    none of which lies in the range left to the server. *)
Theorem Route_responses_are_valid (r : Router) (req : Request) (resp : Response)
        (r' : Router) :
  nested_fields (Request_ID req) = [] ->
  Route r req = (Some resp, r') ->
  ValidateResponse (Some resp) = None
  /\ Response_JSONRPCVersion resp = "2.0"
  /\ (forall e, Response_Error resp = Some e ->
      Response_Result resp = nil
      /\ Error_Message e <> ""
      /\ IsReservedErrorCode (Error_Code e) = true
      /\ IsServerErrorCode (Error_Code e) = false).
Proof.
  intros Hid HR.
  apply Route_response_shape in HR as [(e & -> & Hstd)|(result & -> & HV)].
  - destruct Hstd as (Hshape & Hres & Hsrv).
    assert (Hfacts : Error_Code e <> 0 /\ Error_Message e <> ""
                     /\ nested_fields (Error_Data e) = []).
    { destruct Hshape as [->|(code & message & data & -> & Hcode & Hmsg)].
      - repeat split; discriminate.
      - simpl. repeat split; [|exact Hmsg].
        destruct Hcode as [->|[->| ->]]; discriminate. }
    destruct Hfacts as (Hc & Hm & Hd).
    split; [apply error_response_valid; assumption|].
    split; [reflexivity|].
    intros e' He'. simpl in He'. injection He' as <-. auto.
  - split; [exact HV|]. split; [reflexivity|].
    intros e He. discriminate.
Qed.

(** ** Dispatch *)

Lemma plain_response_valid result id :
  nested_fields result = [] -> nested_fields id = [] ->
  ValidateResponse (Some (NewResponse result id)) = None.
Proof.
  intros Hr Hid.
  unfold ValidateResponse, Validate, Response_struct, validate_Struct, NewResponse.
  cbn [Response_JSONRPCVersion Response_Result Response_Error Response_ID].
  rewrite Hr, Hid. reflexivity.
Qed.

(** X17.  What Route answers once the envelope is valid and the request
    carries an id.  An unknown method is answered with the MethodNotFound
    error.  For a method without schemas: a handler that panics is
    answered with InternalError whose data is "handler panic: " and what
    was thrown; a handler that returns an error, with InternalError whose
    data is the text of that error; a handler that returns a result that
    is not a struct, with a success carrying that result.  The router is
    unchanged in all four cases. *)
Theorem Route_dispatch (r : Router) (req : Request) :
  ValidateRequest (Some req) = None ->
  IsNotification req = false ->
  (methods r !! Request_Method req = None ->
   Route r req = (Some (NewErrorResponse ErrMethodNotFound (Request_ID req)), r))
  /\ (forall info h,
      methods r !! Request_Method req = Some info ->
      ValidateParams info = false -> ValidateResult info = false ->
      Handler info = Some h ->
      (forall thrown, h (Request_Params req) = Panics thrown ->
         Route r req
         = (Some (NewErrorResponse
                    (NewErrorWithData InternalError "Internal error"
                       (AScalar (SString ("handler panic: " +:+ thrown))))
                    (Request_ID req)), r))
      /\ (forall result err, h (Request_Params req) = Returns result (Some err) ->
          Route r req
          = (Some (NewErrorResponse
                     (NewErrorWithData InternalError "Internal error"
                        (AScalar (SString (error_Error err))))
                     (Request_ID req)), r))
      /\ (forall result, h (Request_Params req) = Returns result None ->
          nested_fields result = [] -> nested_fields (Request_ID req) = [] ->
          Route r req = (Some (NewResponse result (Request_ID req)), r))).
Proof.
  intros Henv Hn. split.
  - intros Hm. unfold Router.Route. rewrite Henv, Hn, Hm. reflexivity.
  - intros info h Hm Hvp Hvr Hh.
    split; [|split].
    + intros thrown Hp. unfold Router.Route, Router.checkParams.
      rewrite Henv, Hn, Hm, Hvp, Hh. unfold callHandler. rewrite Hp. reflexivity.
    + intros result err Hp. unfold Router.Route, Router.checkParams.
      rewrite Henv, Hn, Hm, Hvp, Hh. unfold callHandler. rewrite Hp. reflexivity.
    + intros result Hp Hres Hid. unfold Router.Route, Router.checkParams.
      rewrite Henv, Hn, Hm, Hvp, Hvr, Hh. unfold callHandler. rewrite Hp.
      rewrite (plain_response_valid _ _ Hres Hid). reflexivity.
Qed.

(** X18.  Params and their schema.  A request that carries no params is
    dispatched as if the method had no params check at all: the schema is
    not consulted.  Params that cannot be decoded into the schema type
    are answered with InvalidParams whose data is "failed to parse
    params: " and the decoder's error, and the router is unchanged. *)
Theorem Route_params_edge_cases (r : Router) (req : Request) (info : MethodInfo) :
  ValidateRequest (Some req) = None ->
  IsNotification req = false ->
  methods r !! Request_Method req = Some info ->
  ValidateParams info = true ->
  (Request_Params req = None ->
   forall schema, ParamsSchema info = Some schema ->
   fst (Route r req) = fst (Route (without_params_check r (Request_Method req)) req))
  /\ (forall p schemaType e target,
      Request_Params req = Some p ->
      ParamsSchema info = Some (SchemaType schemaType) ->
      json_Unmarshal p (reflect_New schemaType) = (Some e, target) ->
      fst (Route r req)
      = Some (NewErrorResponse
                (NewErrorWithData InvalidParams "Parameter validation failed"
                   (AScalar (SString ("failed to parse params: " +:+ e))))
                (Request_ID req))
      /\ methods (snd (Route r req)) !! Request_Method req = Some info).
Proof.
  intros Henv Hn Hm Hvp. split.
  - intros Hp schema Hs. unfold Router.Route, without_params_check.
    rewrite Henv, Hn, Hm. cbn [methods]. rewrite lookup_insert_eq.
    unfold Router.checkParams. cbn [ValidateParams].
    rewrite Hvp, Hs, Hp. unfold Router.validateParams. cbn [Handler ResultSchema ValidateResult].
    destruct (callHandler (Handler info) None) as [result herr].
    destruct herr as [err|]; [reflexivity|].
    destruct (match ValidateResult info with
              | true => match ResultSchema info with
                        | Some schema0 =>
                            Router.validateResult reflect_TypeOf AssignableTo type_String
                                                  result schema0
                        | None => None
                        end
              | false => None
              end) as [err|]; [reflexivity|].
    destruct (ValidateResponse _); reflexivity.
  - intros p schemaType e target Hp Hs Hdec.
    unfold Router.Route, Router.checkParams. rewrite Henv, Hn, Hm, Hvp, Hs.
    unfold Router.validateParams. rewrite Hp, Hdec. cbn [fst snd methods].
    split; [reflexivity|]. rewrite lookup_insert_eq. f_equal.
    destruct info; simpl in *. subst. reflexivity.
Qed.

(** X19.  Routing never registers, removes or replaces a method: after
    any call of Route the same names are registered, each with the same
    handler, description, flags and result schema; of the params schema
    only a schema value that params are decoded into may have changed. *)
Theorem Route_keeps_registry (r : Router) (req : Request) (name : string) :
  match methods r !! name with
  | Some info =>
      exists info', methods (snd (Route r req)) !! name = Some info'
                    /\ same_method info info'
  | None => methods (snd (Route r req)) !! name = None
  end.
Proof.
  set (P := fun r1 : Router =>
              match methods r !! name with
              | Some info => exists info', methods r1 !! name = Some info'
                                           /\ same_method info info'
              | None => methods r1 !! name = None
              end).
  change (P (snd (Route r req))).
  assert (Hsame : forall info, same_method info info).
  { intros info. unfold same_method. repeat split.
    destruct (ParamsSchema info) as [[t|v]|]; eauto. }
  assert (Hid : P r).
  { unfold P. destruct (methods r !! name) eqn:E; [eauto|reflexivity]. }
  assert (Hcheck : forall info p,
    methods r !! Request_Method req = Some info ->
    P (snd (checkParams r (Request_Method req) info p))).
  { intros info p Hm. unfold Router.checkParams.
    destruct (ValidateParams info) eqn:Hvp; [|exact Hid].
    destruct (ParamsSchema info) as [schema|] eqn:Hs; [|exact Hid].
    destruct (validateParams p schema) as [err schema'] eqn:Hv. unfold P. cbn [snd methods].
    destruct (decide (name = Request_Method req)) as [->|Hne].
    - rewrite Hm, lookup_insert_eq. eexists; split; [reflexivity|].
      unfold same_method, with_ParamsSchema. cbn. repeat split. rewrite Hs.
      unfold Router.validateParams in Hv. destruct p as [p|].
      2: { injection Hv as _ <-. destruct schema; eauto. }
      destruct schema as [t|v].
      + destruct (json_Unmarshal p (reflect_New t)) as [[e|] inst];
          injection Hv as _ <-; reflexivity.
      + destruct (json_Unmarshal p v) as [[e|] v'];
          injection Hv as _ <-; eauto.
    - rewrite lookup_insert_ne by congruence. exact Hid. }
  clearbody P.
  unfold Router.Route.
  destruct (ValidateRequest (Some req)); [exact Hid|].
  destruct (IsNotification req).
  - cbn [snd]. unfold Router.routeNotification.
    destruct (methods r !! Request_Method req) as [info|] eqn:Hm; [|exact Hid].
    specialize (Hcheck info (Request_Params req) eq_refl).
    destruct (checkParams r _ info _) as [[e|] r1]; exact Hcheck.
  - destruct (methods r !! Request_Method req) as [info|] eqn:Hm; [|exact Hid].
    specialize (Hcheck info (Request_Params req) eq_refl).
    destruct (checkParams r _ info _) as [[e|] r1]; [exact Hcheck|].
    destruct (callHandler _ _) as [result [e|]]; [exact Hcheck|].
    match goal with |- context [match ?x with Some _ => _ | None => _ end] =>
      destruct x as [err|] end; [exact Hcheck|].
    destruct (ValidateResponse _); exact Hcheck.
Qed.

(** X21.  The result check of a method registered with a result type.  A
    result that is not nil and whose type is not assignable to that type
    is not sent: the response is InternalError, and its data says which
    type is not assignable to which.  A nil result is not checked and is
    sent as a success. *)
Theorem Route_result_check (r : Router) (req : Request) (info : MethodInfo)
        (h : HandlerFunc) (schemaType : GoType) (result : any) :
  ValidateRequest (Some req) = None ->
  IsNotification req = false ->
  nested_fields (Request_ID req) = [] ->
  methods r !! Request_Method req = Some info ->
  ValidateParams info = false ->
  ValidateResult info = true ->
  ResultSchema info = Some (SchemaType schemaType) ->
  Handler info = Some h ->
  h (Request_Params req) = Returns result None ->
  (is_nil result = true ->
   Route r req = (Some (NewResponse result (Request_ID req)), r))
  /\ (is_nil result = false ->
      AssignableTo (reflect_TypeOf result) schemaType = false ->
      Route r req
      = (Some (NewErrorResponse
                 (NewErrorWithData InternalError "Internal error"
                    (AScalar (SString
                       ("result validation failed: result type "
                        +:+ type_String (reflect_TypeOf result)
                        +:+ " is not assignable to schema type "
                        +:+ type_String schemaType))))
                 (Request_ID req)), r)).
Proof.
  intros Henv Hn Hid Hm Hvp Hvr Hrs Hh Hcall. split.
  - intros Hnil. unfold Router.Route, Router.checkParams.
    rewrite Henv, Hn, Hm, Hvp, Hvr, Hrs, Hh. unfold callHandler. rewrite Hcall.
    unfold Router.validateResult. rewrite Hnil.
    rewrite plain_response_valid; [reflexivity| |exact Hid].
    unfold is_nil in Hnil. destruct result as [[| | |]| |]; try discriminate. reflexivity.
  - intros Hnil Hna. unfold Router.Route, Router.checkParams.
    rewrite Henv, Hn, Hm, Hvp, Hvr, Hrs, Hh. unfold callHandler. rewrite Hcall.
    unfold Router.validateResult. rewrite Hnil, Hna. reflexivity.
Qed.

(** X23.  RouteJSON.  Bytes that do not decode to a request are answered
    with the rendered ParseError response, whose id is nil, and the
    router is unchanged.  RouteJSON returns an error only there, when
    that response cannot be rendered.  For a request that decodes, a
    response that cannot be rendered is replaced by the rendered
    Internal error response with the request's id. *)
Theorem RouteJSON_cases (r : Router) (requestJSON : string) :
  (forall e, json_Unmarshal_Request requestJSON = inr e ->
     RouteJSON r requestJSON
     = (marshal_pair (json_Marshal_Response (NewErrorResponse ErrParse nil)), r))
  /\ (forall req, json_Unmarshal_Request requestJSON = inl req ->
      snd (fst (RouteJSON r requestJSON)) = None
      /\ snd (RouteJSON r requestJSON) = snd (Route r req)
      /\ match fst (Route r req) with
         | None => fst (fst (RouteJSON r requestJSON)) = None
         | Some resp =>
             match json_Marshal_Response resp with
             | inl bytes => fst (fst (RouteJSON r requestJSON)) = Some bytes
             | inr _ =>
                 fst (fst (RouteJSON r requestJSON))
                 = fst (marshal_pair (json_Marshal_Response
                                        (NewErrorResponse ErrInternal (Request_ID req))))
             end
         end).
Proof.
  split.
  - intros e He. unfold Router.RouteJSON. rewrite He. reflexivity.
  - intros req Hreq. unfold Router.RouteJSON. rewrite Hreq.
    destruct (Route r req) as [[resp|] r1]; cbn [fst snd].
    + destruct (json_Marshal_Response resp); auto.
    + auto.
Qed.

End Routing.

(** ** The method registry *)

Lemma RegisterMethod_success r r' name h info :
  RegisterMethod r name (Some h) info = (None, r') ->
  name <> "" /\ methods r !! name = None
  /\ r' = {| methods := <[name := with_Handler
                                    (match info with Some i => i | None => emptyMethodInfo end)
                                    (Some h)]> (methods r) |}.
Proof.
  unfold RegisterMethod.
  destruct (String.eqb_spec name "") as [->|Hne]; [discriminate|].
  rewrite (method_name_accepted name Hne).
  destruct (methods r !! name) as [old|] eqn:E; [discriminate|].
  intros H. injection H as <-. auto.
Qed.

Lemma registered_insert r name entry :
  name <> "" -> methods r !! name = None ->
  registered r {| methods := <[name := entry]> (methods r) |} name
  /\ registered_own r {| methods := <[name := entry]> (methods r) |} name entry.
Proof.
  intros Hne E.
  assert (Hdel : delete name (<[name := entry]> (methods r)) = methods r)
    by (apply delete_insert_id; exact E).
  assert (Hback : {| methods := methods r |} = r) by (destruct r; reflexivity).
  unfold registered, registered_own, HasMethod, GetMethodInfo, MethodCount,
    UnregisterMethod, RegisterMethod.
  cbn [methods]. rewrite E, !lookup_insert_eq. cbn [is_some fst snd methods].
  rewrite Hdel, E, Hback.
  destruct (String.eqb_spec name "") as [->|_]; [contradiction|].
  rewrite (method_name_accepted name Hne).
  split.
  - split; [reflexivity|]. split; [reflexivity|].
    split; [rewrite map_size_insert_None by exact E; lia|].
    split; [intros other Ho; rewrite lookup_insert_ne by congruence; reflexivity|].
    split; [intros h2 info2; destruct h2; eauto|].
    repeat split; reflexivity.
  - split; [reflexivity|]. split; [|reflexivity].
    intros other Ho. apply lookup_insert_ne. congruence.
Qed.

(** X20.  A successful registration and its undoing.  After RegisterMethod
    has succeeded, with whatever info, the method was not registered
    before and is now, there is one method more, the other names are
    registered or not as before, registering the name again fails and
    changes nothing, and UnregisterMethod succeeds and frees the name.
    When the call allocates the info struct itself, which RegisterMethod
    does for a nil info and RegisterSimpleMethod and
    RegisterMethodWithValidation always do, no other name can share the
    struct: GetMethodInfo shows the entry that was built with the handler
    put in, the entries of all other names are untouched, and
    UnregisterMethod gives back the router as it was before. *)
Theorem register_then_unregister (r : Router) (name : string) (h : HandlerFunc) :
  (forall info r', RegisterMethod r name (Some h) info = (None, r') ->
     registered r r' name)
  /\ (forall r', RegisterMethod r name (Some h) None = (None, r') ->
      registered_own r r' name
        {| Handler := Some h; ParamsSchema := None; ResultSchema := None;
           Description := ""; ValidateParams := false; ValidateResult := false |})
  /\ (forall description r',
      RegisterSimpleMethod r name (Some h) description = (None, r') ->
      registered r r' name
      /\ registered_own r r' name
           {| Handler := Some h; ParamsSchema := None; ResultSchema := None;
              Description := description; ValidateParams := false;
              ValidateResult := false |})
  /\ (forall paramsSchema resultSchema description r',
      RegisterMethodWithValidation r name (Some h) paramsSchema resultSchema description
      = (None, r') ->
      registered r r' name
      /\ registered_own r r' name
           {| Handler := Some h; ParamsSchema := paramsSchema;
              ResultSchema := resultSchema; Description := description;
              ValidateParams := is_some paramsSchema;
              ValidateResult := is_some resultSchema |}).
Proof.
  split; [|split; [|split]].
  - intros info r' H. apply RegisterMethod_success in H as (Hne & E & ->).
    apply registered_insert; assumption.
  - intros r' H. apply RegisterMethod_success in H as (Hne & E & ->).
    apply (registered_insert r name _ Hne E).
  - intros description r' H. unfold RegisterSimpleMethod in H.
    apply RegisterMethod_success in H as (Hne & E & ->).
    apply (registered_insert r name _ Hne E).
  - intros paramsSchema resultSchema description r' H.
    unfold RegisterMethodWithValidation in H.
    apply RegisterMethod_success in H as (Hne & E & ->).
    apply (registered_insert r name _ Hne E).
Qed.

Lemma register_then_unregister_witness :
  HasMethod join_router "join" = true
  /\ UnregisterMethod join_router "join" = (None, NewRouter).
Proof.
  destruct (register_then_unregister NewRouter "join" pong) as (_ & _ & _ & H).
  destruct (H (Some (SchemaType 0%nat)) None "join a session" join_router eq_refl)
    as [(_ & H1 & _) (_ & _ & H2)].
  split; [exact H1|exact H2].
Defined.

(** ** Requests built by the constructors *)

(** X22.  NewRequest and NewNotification.  A failure to encode the params
    is the only way they fail, and is reported as "failed to marshal
    params: " and the encoder's error.  What NewNotification builds is a
    notification, and Route gives it no response whenever the method name
    is not empty; what NewRequest builds with an id that is not nil is
    answered by Route with a response carrying that id. *)
Theorem constructed_requests_route (json_Marshal : any -> string + string)
        (json_Unmarshal : string -> any -> option string * any)
        (reflect_New : GoType -> any) (reflect_TypeOf : any -> GoType)
        (AssignableTo : GoType -> GoType -> bool) (type_String : GoType -> string)
        (r : Router) (method : string) (params id : any) :
  method <> "" ->
  (forall e, NewRequest json_Marshal method params id = inr e ->
     is_nil params = false
     /\ exists m, json_Marshal params = inr m /\ e = "failed to marshal params: " +:+ m)
  /\ (forall req, NewNotification json_Marshal method params = inl req ->
      IsNotification req = true
      /\ fst (Route json_Unmarshal reflect_New reflect_TypeOf AssignableTo type_String r req)
         = None)
  /\ (forall req, NewRequest json_Marshal method params id = inl req ->
      is_nil id = false ->
      Request_JSONRPCVersion req = "2.0" /\ Request_Method req = method
      /\ Request_ID req = id
      /\ exists resp,
           fst (Route json_Unmarshal reflect_New reflect_TypeOf AssignableTo type_String r req)
           = Some resp
           /\ Response_ID resp = id).
Proof.
  intros Hne.
  assert (Hshape : forall id0 req, NewRequest json_Marshal method params id0 = inl req ->
            Request_JSONRPCVersion req = "2.0" /\ Request_Method req = method
            /\ Request_ID req = id0).
  { intros id0 req. unfold NewRequest. destruct (is_nil params).
    - intros H. injection H as <-. auto.
    - destruct (json_Marshal params); [|discriminate]. intros H. injection H as <-. auto. }
  split; [|split].
  - intros e. unfold NewRequest. destruct (is_nil params); [discriminate|].
    destruct (json_Marshal params) as [b|m]; [discriminate|].
    intros H. injection H as <-. eauto.
  - intros req Hreq. unfold NewNotification in Hreq.
    destruct (Hshape _ _ Hreq) as (Hv & Hm & Hid).
    assert (Hn : IsNotification req = true) by (unfold IsNotification; rewrite Hid; reflexivity).
    split; [exact Hn|].
    assert (Henv : ValidateRequest (Some req) = None).
    { apply ValidateRequest_pass; [rewrite Hid; reflexivity|]. rewrite Hv, Hm. auto. }
    unfold Router.Route. rewrite Henv, Hn. reflexivity.
  - intros req Hreq Hnn. destruct (Hshape _ _ Hreq) as (Hv & Hm & Hid).
    split; [exact Hv|]. split; [exact Hm|]. split; [exact Hid|].
    assert (Hn : IsNotification req = false) by (unfold IsNotification; rewrite Hid; exact Hnn).
    destruct (Route json_Unmarshal reflect_New reflect_TypeOf AssignableTo type_String r req)
      as [[resp|] r1] eqn:HR.
    + exists resp. split; [reflexivity|]. rewrite <- Hid.
      exact (proj1 (Route_response _ _ _ _ _ _ _ _ _ HR)).
    + exfalso. revert HR. unfold Router.Route.
      destruct (ValidateRequest (Some req)); [discriminate|]. rewrite Hn.
      destruct (methods r !! Request_Method req) as [info|]; [|discriminate].
      destruct (Router.checkParams _ _ _ _ _ _) as [[e|] r2]; [discriminate|].
      destruct (callHandler _ _) as [result [e|]]; [discriminate|].
      match goal with |- context [match ?x with Some _ => _ | None => _ end] =>
        destruct x as [err|] end; [discriminate|].
      destruct (ValidateResponse _); discriminate.
Qed.

Lemma constructed_requests_route_witness :
  exists req, NewNotification show "ping" nil = inl req
              /\ fst (Route plain_Unmarshal plain_New plain_TypeOf plain_AssignableTo
                            plain_type_String three_methods req) = None.
Proof.
  eexists. split; [reflexivity|].
  destruct (constructed_requests_route show plain_Unmarshal plain_New plain_TypeOf
              plain_AssignableTo plain_type_String three_methods "ping" nil nil)
    as (_ & H & _); [discriminate|].
  exact (proj2 (H _ eq_refl)).
Defined.

Lemma Route_params_edge_cases_witness :
  fst (Route failing_Unmarshal plain_New plain_TypeOf plain_AssignableTo plain_type_String
             join_router join_request)
  = Some (NewErrorResponse
            (NewErrorWithData InvalidParams "Parameter validation failed"
               (AScalar (SString "failed to parse params: unexpected end of JSON input")))
            (AScalar (SString "r1"))).
Proof.
  destruct (Route_params_edge_cases failing_Unmarshal plain_New plain_TypeOf
              plain_AssignableTo plain_type_String join_router join_request
              {| Handler := Some pong; ParamsSchema := Some (SchemaType 0%nat);
                 ResultSchema := None; Description := "join a session";
                 ValidateParams := true; ValidateResult := false |}
              eq_refl eq_refl eq_refl eq_refl) as [_ H].
  exact (proj1 (H "{}" 0%nat "unexpected end of JSON input" (AStruct [])
                  eq_refl eq_refl eq_refl)).
Defined.

Lemma Route_result_check_witness :
  Route plain_Unmarshal plain_New plain_TypeOf plain_AssignableTo type_name
        typed_router ping_request
  = (Some (NewErrorResponse
             (NewErrorWithData InternalError "Internal error"
                (AScalar (SString
                   "result validation failed: result type string is not assignable to schema type main.Pong")))
             (AScalar (SInt 1))), typed_router).
Proof.
  destruct (Route_result_check plain_Unmarshal plain_New plain_TypeOf plain_AssignableTo
              type_name typed_router ping_request
              {| Handler := Some pong; ParamsSchema := None;
                 ResultSchema := Some (SchemaType 1%nat); Description := "typed ping";
                 ValidateParams := false; ValidateResult := true |}
              pong 1%nat (AScalar (SString "pong"))
              eq_refl eq_refl eq_refl eq_refl eq_refl eq_refl eq_refl eq_refl eq_refl)
    as [_ H].
  exact (H eq_refl eq_refl).
Defined.

Lemma Route_dispatch_witness :
  Route plain_Unmarshal plain_New plain_TypeOf plain_AssignableTo plain_type_String
        three_methods (request_for "crash")
  = (Some (NewErrorResponse
             (NewErrorWithData InternalError "Internal error"
                (AScalar (SString "handler panic: boom")))
             (AScalar (SInt 7))), three_methods).
Proof.
  destruct (Route_dispatch plain_Unmarshal plain_New plain_TypeOf plain_AssignableTo
              plain_type_String three_methods (request_for "crash") eq_refl eq_refl)
    as [_ H].
  destruct (H {| Handler := Some crashing; ParamsSchema := None; ResultSchema := None;
                 Description := "crash"; ValidateParams := false;
                 ValidateResult := false |} crashing eq_refl eq_refl eq_refl eq_refl)
    as [Hpanic _].
  apply (Hpanic "boom"). reflexivity.
Defined.

Lemma Route_responses_are_valid_witness :
  exists resp r',
    Route plain_Unmarshal plain_New plain_TypeOf plain_AssignableTo plain_type_String
          three_methods (request_for "nothing") = (Some resp, r')
    /\ ValidateResponse (Some resp) = None
    /\ Response_Error resp = Some ErrMethodNotFound.
Proof.
  eexists _, _. split; [reflexivity|].
  split; [|reflexivity].
  apply (Route_responses_are_valid plain_Unmarshal plain_New plain_TypeOf
           plain_AssignableTo plain_type_String three_methods (request_for "nothing") _ _
           eq_refl eq_refl).
Defined.

End RoutingOpsProps.

(* ===================================================================== *)
(** * More on the hub and the connections *)
(* ===================================================================== *)

Module HubOpsProps.
Import JsonRpc Websocket HubSpec HubOps HubProps HubNotions.

(** ** When an enqueue panics *)

Lemma send_or_evict_panics g w p m :
  send_or_evict g w p m = None <->
  heap w !! p = None \/ exists c, heap w !! p = Some c /\ closed (send c) = true.
Proof.
  unfold send_or_evict, try_send, close_chan.
  destruct (heap w !! p) as [c|]; simpl.
  - destruct (closed (send c)) eqn:Hcl.
    + split; [intros _; right; eauto|reflexivity].
    + destruct (Nat.ltb _ _); simpl; rewrite ?Hcl; simpl.
      all: split; [discriminate|intros [H|(c' & H & Hc')]; congruence].
  - split; [auto|reflexivity].
Qed.

Lemma SendToSession_panics w code m :
  SendToSession w code m = None <->
  exists p, sessions (hub w) !! code = Some p /\ send_or_evict Other w p m = None.
Proof.
  unfold SendToSession. destruct (sessions (hub w) !! code) as [p|].
  - destruct (send_or_evict Other w p m) as [[w'|w']|] eqn:E.
    + split; [discriminate|]. intros (q & Hq & H). injection Hq as <-. congruence.
    + split; [discriminate|]. intros (q & Hq & H). injection Hq as <-. congruence.
    + split; [eauto|reflexivity].
  - split; [discriminate|]. intros (q & Hq & _). discriminate.
Qed.

Lemma send_or_drop_closed w p c m :
  heap w !! p = Some c -> closed (send c) = true -> send_or_drop w p m = None.
Proof.
  intros Hc Hcl. unfold send_or_drop, try_send. rewrite Hc. simpl. rewrite Hcl. reflexivity.
Qed.

(** A broadcast that reaches a closed queue panics: so it does when the
    connections visited before have open queues with room. *)
Lemma broadcastLoop_closed m p c : forall snapshot w,
  NoDup snapshot ->
  p ∈ snapshot -> heap w !! p = Some c -> closed (send c) = true ->
  (forall q, q ∈ snapshot -> q <> p ->
     exists cq, heap w !! q = Some cq /\ closed (send cq) = false
                /\ full (send cq) = false) ->
  broadcastLoop w snapshot m = None.
Proof.
  induction snapshot as [|q rest IH]; intros w Hnd Hin Hc Hcl Hroom.
  - inversion Hin.
  - apply NoDup_cons in Hnd as [Hq Hnd]. simpl.
    destruct (decide (q = p)) as [->|Hne].
    + rewrite (proj2 (send_or_evict_panics HubLoop w p m)); [reflexivity|eauto].
    + destruct (Hroom q) as (cq & Hcq & Hoq & Hfq); [left|exact Hne|].
      rewrite (send_or_evict_open HubLoop w q cq m Hcq Hoq), Hfq.
      apply IH.
      * exact Hnd.
      * apply elem_of_cons in Hin as [->|Hin]; [contradiction|exact Hin].
      * simpl. rewrite lookup_insert_ne by exact Hne. exact Hc.
      * exact Hcl.
      * intros q2 Hq2 Hne2. simpl.
        rewrite lookup_insert_ne by (intros ->; contradiction).
        apply Hroom; [right; exact Hq2|exact Hne2].
Qed.

(** ** What the hub keeps true *)

Lemma serve_keeps_allocated w req w' :
  clients_allocated w -> serve w req = Some w' -> clients_allocated w'.
Proof.
  intros Ha. destruct req as [p|p|m]; simpl.
  - unfold registerClient. destruct (heap w !! p) as [c|] eqn:Hc; [simpl|discriminate].
    intros H. injection H as <-. intros q. simpl. intros Hq.
    apply elem_of_union in Hq as [Hq|Hq]; [|exact (Ha q Hq)].
    apply elem_of_singleton in Hq as ->. eauto.
  - unfold unregisterClient. destruct (decide (p ∈ clients (hub w))) as [Hin|Hnin].
    2: { intros H. injection H as <-. exact Ha. }
    destruct (heap w !! p) as [c|] eqn:Hc; [simpl|discriminate].
    assert (Hgen : forall ch,
      clients_allocated (set_client
                     (set_hub w {| clients := clients (hub w) ∖ {[p]};
                                   sessions := delete (sessionCode c) (sessions (hub w)) |})
                     p (with_send c ch))).
    { intros ch q. simpl. intros Hq. apply elem_of_difference in Hq as [Hq _].
      apply lookup_insert_is_Some'. right. exact (Ha q Hq). }
    destruct (try_recv (send c)) as [ch|].
    + intros H. injection H as <-. apply Hgen.
    + destruct (close_chan (send c)) as [ch|]; [simpl|discriminate].
      intros H. injection H as <-. apply Hgen.
  - unfold broadcastMessage. intros H.
    apply broadcastLoop_keeps_codes in H as [Hh Hc].
    intros q. rewrite Hh. intros Hq. destruct (Ha q Hq) as [c Hq'].
    destruct (Hc q c Hq') as (c' & Hc' & _). eauto.
Qed.

(** X24.  What holds of the hub after any sequence of requests it has
    served, starting with nobody registered: every entry of the session
    index points to a registered client that carries the entry's code,
    and every registered client exists.  So SendToSession panics in one
    case only: the index points to a client whose queue is closed. *)
Theorem hub_invariants (w w' : World) (reqs : list HubRequest) :
  hub w = NewHub ->
  Run w reqs = Some w' ->
  index_sound w'
  /\ clients_allocated w'
  /\ (forall code message,
      SendToSession w' code message = None <->
      exists p c, sessions (hub w') !! code = Some p /\ heap w' !! p = Some c
                  /\ closed (send c) = true).
Proof.
  intros Hstart HRun.
  assert (Hs : index_sound w').
  { eapply Run_keeps_index_sound; [|exact HRun].
    intros code p. rewrite Hstart. simpl. rewrite lookup_empty. discriminate. }
  assert (Ha : clients_allocated w').
  { assert (Ha0 : clients_allocated w).
    { intros p. rewrite Hstart. simpl. intros Hp. apply elem_of_empty in Hp. contradiction. }
    clear Hstart Hs. revert w Ha0 HRun.
    induction reqs as [|req rest IH]; intros w Ha0; simpl.
    - intros H. injection H as <-. exact Ha0.
    - destruct (hub_blocked w); [intros H; injection H as <-; exact Ha0|].
      destruct (serve w req) as [w1|] eqn:H1; [simpl|discriminate].
      intros H2. eapply IH; [|exact H2]. eapply serve_keeps_allocated; eassumption. }
  split; [exact Hs|]. split; [exact Ha|].
  intros code message. rewrite SendToSession_panics. split.
  - intros (p & Hp & H). apply send_or_evict_panics in H.
    destruct (Hs code p Hp) as [_ (c & Hc & _)].
    destruct H as [H|(c' & Hc' & Hcl)]; [congruence|]. exists p, c'. auto.
  - intros (p & c & Hp & Hc & Hcl). exists p. split; [exact Hp|].
    apply send_or_evict_panics. right. eauto.
Qed.

Lemma hub_invariants_witness :
  exists w', Run two_clients_one_code
                 [ReqRegister 1%nat; ReqRegister 2%nat; ReqBroadcast "hello";
                  ReqUnregister 1%nat] = Some w'
             /\ index_sound w' /\ clients_allocated w'.
Proof.
  eexists. split; [vm_compute; reflexivity|].
  match goal with |- index_sound ?w /\ _ =>
    destruct (hub_invariants two_clients_one_code w
                [ReqRegister 1%nat; ReqRegister 2%nat; ReqBroadcast "hello";
                 ReqUnregister 1%nat] eq_refl) as (H1 & H2 & _)
  end; [vm_compute; reflexivity|].
  split; [exact H1|exact H2].
Defined.

(** ** A connection that goes away *)

(** X25.  A registered connection with an open queue and nothing queued
    is unregistered cleanly: it leaves the client set, its code leaves
    the index, and its queue is closed with nothing lost; nobody else
    and no pending request is touched.  Unregistering it once more
    changes nothing, and its writePump, on reading the closed queue,
    sends a close frame and stops. *)
Theorem clean_disconnect (w : World) (p : ptr) (c : Client) :
  heap w !! p = Some c ->
  p ∈ clients (hub w) ->
  buf (send c) = [] ->
  closed (send c) = false ->
  let ch := {| buf := []; cap := cap (send c); closed := true |} in
  exists w',
    unregisterClient w p = Some w'
    /\ (p ∉ clients (hub w'))
    /\ HasSession w' (sessionCode c) = false
    /\ heap w' !! p = Some (with_send c ch)
    /\ (forall q, q <> p -> heap w' !! q = heap w !! q)
    /\ (forall q, q <> p -> (q ∈ clients (hub w') <-> q ∈ clients (hub w)))
    /\ (forall code, code <> sessionCode c ->
        sessions (hub w') !! code = sessions (hub w) !! code)
    /\ inbox w' = inbox w
    /\ unregisterClient w' p = Some w'
    /\ (forall writer_ok close_ok,
        writePump_message ch writer_ok close_ok = Some ([CloseFrame], ch, false)).
Proof.
  intros Hc Hin Hbuf Hopen ch. unfold unregisterClient.
  rewrite decide_True by exact Hin. rewrite Hc. simpl.
  unfold try_recv, close_chan. rewrite Hbuf, Hopen. simpl.
  eexists. split; [reflexivity|]. simpl.
  assert (Hnot : p ∉ clients (hub w) ∖ {[p]}).
  { apply not_elem_of_difference. right. apply elem_of_singleton. reflexivity. }
  split; [exact Hnot|].
  split; [unfold HasSession; simpl; rewrite lookup_delete_eq; reflexivity|].
  split; [rewrite lookup_insert_eq; unfold with_send, ch; rewrite ?Hbuf; reflexivity|].
  split; [intros q Hq; apply lookup_insert_ne; congruence|].
  split.
  { intros q Hq. rewrite elem_of_difference, elem_of_singleton. tauto. }
  split; [intros code Hcode; apply lookup_delete_ne; congruence|].
  split; [reflexivity|].
  split; [rewrite decide_False by exact Hnot; reflexivity|].
  intros writer_ok close_ok. reflexivity.
Qed.

Lemma clean_disconnect_witness :
  exists w', unregisterClient two_sessions 1%nat = Some w'
             /\ HasSession w' "happy-panda-42" = false
             /\ HasSession w' "calm-otter-7" = true.
Proof.
  destruct (clean_disconnect two_sessions 1%nat (NewClient "happy-panda-42")
              eq_refl) as (w' & H1 & _ & H2 & _ & _ & _ & H3 & _);
    [vm_compute; reflexivity|reflexivity|reflexivity|].
  exists w'. split; [exact H1|]. split; [exact H2|].
  unfold HasSession. rewrite (H3 "calm-otter-7"); [reflexivity|discriminate].
Defined.

(** X26.  The window between an eviction and its unregistration.  When
    SendToSession meets a full queue it closes the queue and hands the
    connection over for unregistration, and the connection stays in the
    client set and in the index until the hub has served that request.
    Until then a second SendToSession to the code and Client.Send panic
    on the closed queue, and so does a broadcast by the hub when all the
    other registered connections have open queues with room, so that the
    loop reaches the closed queue.  Once the hub has served the request,
    a send to the code finds nobody and does nothing. *)
Theorem sends_to_evicted_connection_panic (w : World) (p : ptr) (c : Client)
        (m m' : string) :
  sessions (hub w) !! sessionCode c = Some p ->
  heap w !! p = Some c ->
  p ∈ clients (hub w) ->
  closed (send c) = false ->
  full (send c) = true ->
  exists w1,
    SendToSession w (sessionCode c) m = Some w1
    /\ inbox w1 = (inbox w ++ [ReqUnregister p])%list
    /\ p ∈ clients (hub w1)
    /\ sessions (hub w1) !! sessionCode c = Some p
    /\ SendToSession w1 (sessionCode c) m' = None
    /\ Send w1 p m' = None
    /\ ((forall q, q ∈ clients (hub w) -> q <> p ->
         exists cq, heap w !! q = Some cq /\ closed (send cq) = false
                    /\ full (send cq) = false) ->
        broadcastMessage w1 m' = None)
    /\ exists w2,
         serve w1 (ReqUnregister p) = Some w2
         /\ (p ∉ clients (hub w2))
         /\ SendToSession w2 (sessionCode c) m' = Some w2.
Proof.
  intros Hidx Hc Hin Hopen Hfull.
  unfold SendToSession at 1. rewrite Hidx.
  rewrite (send_or_evict_open Other w p c m Hc Hopen), Hfull.
  set (c1 := with_send c (after_hub_send (send c) m)).
  set (w1 := UnregisterClient Other (set_client w p c1) p).
  assert (Hc1 : heap w1 !! p = Some c1) by (simpl; apply lookup_insert_eq).
  assert (Hcl : closed (send c1) = true).
  { unfold c1, after_hub_send. simpl. rewrite Hfull. reflexivity. }
  exists w1. split; [reflexivity|]. split; [reflexivity|].
  split; [exact Hin|]. split; [exact Hidx|].
  split.
  { apply SendToSession_panics. exists p. split; [exact Hidx|].
    apply send_or_evict_panics. eauto. }
  split.
  { exact (send_or_drop_closed w1 p c1 m' Hc1 Hcl). }
  split.
  { intros Hroom. unfold broadcastMessage.
    apply (broadcastLoop_closed m' p c1); [apply NoDup_elements| |exact Hc1|exact Hcl|].
    - apply elem_of_elements. exact Hin.
    - intros q Hq Hne. apply elem_of_elements in Hq.
      destruct (Hroom q Hq Hne) as (cq & Hcq & Hoq & Hfq).
      exists cq. split; [|auto]. simpl. rewrite lookup_insert_ne by congruence. exact Hcq. }
  destruct (evicted_client_is_unregistered w1 p c1 Hc1 Hcl Hin)
    as (w2 & c2 & H1 & Hout & H2 & _).
  exists w2. split; [exact H1|]. split; [exact Hout|].
  unfold SendToSession. change (sessionCode c1) with (sessionCode c) in H2.
  rewrite H2. reflexivity.
Qed.

Lemma sends_to_evicted_connection_panic_witness :
  exists w1, SendToSession full_world "happy-panda-42" "one more" = Some w1
             /\ SendToSession w1 "happy-panda-42" "and another" = None
             /\ broadcastMessage w1 "and another" = None.
Proof.
  destruct (sends_to_evicted_connection_panic full_world 1%nat full_client
              "one more" "and another" eq_refl eq_refl)
    as (w1 & H1 & _ & _ & _ & H2 & _ & H3 & _);
    [vm_compute; reflexivity|reflexivity|reflexivity|].
  exists w1. split; [exact H1|]. split; [exact H2|].
  apply H3. intros q Hq Hne. exfalso. apply Hne.
  change (clients (hub full_world)) with ({[ 1%nat ]} : gset ptr) in Hq.
  apply elem_of_singleton in Hq. exact Hq.
Defined.

(** ** Delivery *)

Lemma broadcastLoop_room m : forall snapshot w,
  NoDup snapshot ->
  (forall p, p ∈ snapshot ->
     exists c, heap w !! p = Some c /\ closed (send c) = false /\ full (send c) = false) ->
  exists w',
    broadcastLoop w snapshot m = Some w'
    /\ hub w' = hub w /\ inbox w' = inbox w /\ router w' = router w
    /\ (forall p, p ∉ snapshot -> heap w' !! p = heap w !! p)
    /\ (forall p c, p ∈ snapshot -> heap w !! p = Some c ->
        heap w' !! p = Some (with_send c (enqueued (send c) m))).
Proof.
  induction snapshot as [|p rest IH]; intros w Hnd Hroom.
  - exists w. simpl. repeat split; auto. intros ? ? H; inversion H.
  - apply NoDup_cons in Hnd as [Hp Hnd].
    destruct (Hroom p) as (c & Hc & Hcl & Hf); [left|].
    simpl. rewrite (send_or_evict_open HubLoop w p c m Hc Hcl), Hf.
    assert (Hq : after_hub_send (send c) m = enqueued (send c) m).
    { unfold after_hub_send, enqueued. rewrite Hf. reflexivity. }
    rewrite Hq.
    set (w1 := set_client w p (with_send c (enqueued (send c) m))).
    destruct (IH w1 Hnd) as (w' & HL & Hh & Hi & Hr & Hout & Hinm).
    { intros q Hqin. unfold w1. simpl.
      rewrite lookup_insert_ne by (intros ->; contradiction).
      apply Hroom. right. exact Hqin. }
    exists w'. split; [exact HL|]. split; [exact Hh|]. split; [exact Hi|].
    split; [exact Hr|]. split.
    + intros q Hqn. apply not_elem_of_cons in Hqn as [Hne Hqn].
      rewrite (Hout q Hqn). unfold w1. simpl. apply lookup_insert_ne. congruence.
    + intros q cq Hqin Hcq. apply elem_of_cons in Hqin as [->|Hqin].
      * rewrite (Hout p Hp). unfold w1. simpl. rewrite lookup_insert_eq. congruence.
      * apply Hinm; [exact Hqin|]. unfold w1. simpl.
        rewrite lookup_insert_ne by (intros ->; contradiction). exact Hcq.
Qed.

(** X27.  A broadcast while every registered connection has an open
    queue with room: the message is put at the end of every registered
    connection's queue, nobody is evicted, no request is handed to the
    hub, the registry is as before, and connections that are not
    registered are not touched. *)
Theorem broadcast_reaches_every_connection (w : World) (m : string) :
  (forall p, p ∈ clients (hub w) ->
     exists c, heap w !! p = Some c /\ closed (send c) = false /\ full (send c) = false) ->
  exists w',
    broadcastMessage w m = Some w'
    /\ hub w' = hub w /\ inbox w' = inbox w /\ router w' = router w
    /\ (forall p c, p ∈ clients (hub w) -> heap w !! p = Some c ->
        heap w' !! p = Some (with_send c (enqueued (send c) m)))
    /\ (forall p, p ∉ clients (hub w) -> heap w' !! p = heap w !! p).
Proof.
  intros Hroom. unfold broadcastMessage.
  destruct (broadcastLoop_room m (elements (clients (hub w))) w)
    as (w' & HL & Hh & Hi & Hr & Hout & Hin).
  - apply NoDup_elements.
  - intros p Hp. apply Hroom. apply elem_of_elements. exact Hp.
  - exists w'. split; [exact HL|]. split; [exact Hh|]. split; [exact Hi|].
    split; [exact Hr|]. split.
    + intros p c Hp. apply Hin. apply elem_of_elements. exact Hp.
    + intros p Hp. apply Hout. intros Hx. apply Hp. apply elem_of_elements. exact Hx.
Qed.

Lemma broadcast_reaches_every_connection_witness :
  exists w', broadcastMessage two_sessions "hello" = Some w'
             /\ heap w' !! 2%nat
                = Some {| sessionCode := "calm-otter-7";
                          send := {| buf := ["hello"]; cap := 256; closed := false |} |}
             /\ inbox w' = [].
Proof.
  destruct (broadcast_reaches_every_connection two_sessions "hello")
    as (w' & H1 & _ & H2 & _ & H3 & _).
  - intros p Hp. apply elem_of_union in Hp as [Hp|Hp]; apply elem_of_singleton in Hp as ->.
    + exists (NewClient "happy-panda-42"). split; [reflexivity|]. split; reflexivity.
    + exists (NewClient "calm-otter-7"). split; [reflexivity|]. split; reflexivity.
  - exists w'. split; [exact H1|]. split; [|exact H2].
    apply (H3 2%nat (NewClient "calm-otter-7")); [|reflexivity].
    apply elem_of_union. right. apply elem_of_singleton. reflexivity.
Defined.

(** ** From the queue to the socket *)

Lemma writeQueued_app a b queued :
  writeQueued (a +:+ b) queued = a +:+ writeQueued b queued.
Proof.
  revert a b. induction queued as [|x rest IH]; intros a b; simpl; [reflexivity|].
  rewrite <- IH. f_equal.
  induction a as [|ch a IHa]; [reflexivity|].
  change (String ch (a +:+ b) +:+ newline +:+ x = String ch (a +:+ b +:+ newline +:+ x)).
  change (String ch ((a +:+ b) +:+ newline +:+ x) = String ch (a +:+ b +:+ newline +:+ x)).
  f_equal. exact IHa.
Qed.

Lemma writeQueued_Join message queued :
  writeQueued message queued = GoStrings.Join (message :: queued) newline.
Proof.
  revert message. induction queued as [|x rest IH]; intros message; [reflexivity|].
  change (writeQueued (message +:+ newline +:+ x) rest
          = message +:+ newline +:+ GoStrings.Join (x :: rest) newline).
  rewrite <- IH.
  rewrite writeQueued_app. f_equal. apply writeQueued_app.
Qed.

Lemma send_all_room p : forall messages w c,
  heap w !! p = Some c -> closed (send c) = false ->
  (List.length (buf (send c)) + List.length messages <= cap (send c))%nat ->
  exists w',
    send_all w p messages = Some w'
    /\ heap w' !! p
       = Some (with_send c {| buf := buf (send c) ++ messages; cap := cap (send c);
                              closed := false |})
    /\ hub w' = hub w /\ inbox w' = inbox w
    /\ (forall q, q <> p -> heap w' !! q = heap w !! q).
Proof.
  induction messages as [|m rest IH]; intros w c Hc Hopen Hlen.
  - exists w. simpl. split; [reflexivity|]. rewrite app_nil_r.
    split; [|auto]. rewrite Hc. f_equal. destruct c as [code [b k cl]]. simpl in *.
    subst cl. reflexivity.
  - simpl in Hlen. simpl. unfold Send.
    rewrite (send_or_drop_open w p c m Hc Hopen).
    assert (Hf : full (send c) = false).
    { unfold full. apply negb_false_iff. apply Nat.ltb_lt. lia. }
    rewrite Hf. simpl. unfold after_hub_send. rewrite Hf.
    set (c1 := with_send c {| buf := buf (send c) ++ [m]; cap := cap (send c);
                              closed := closed (send c) |}).
    destruct (IH (set_client w p c1) c1) as (w' & HS & Hq & Hh & Hi & Hother).
    + simpl. apply lookup_insert_eq.
    + exact Hopen.
    + unfold c1. simpl. rewrite length_app. simpl. lia.
    + exists w'. split; [exact HS|]. split.
      * rewrite Hq. unfold c1. simpl. unfold with_send. simpl.
        rewrite <- app_assoc. reflexivity.
      * split; [exact Hh|]. split; [exact Hi|].
        intros q Hne. rewrite (Hother q Hne). simpl. apply lookup_insert_ne. congruence.
Qed.

(** X28.  From Client.Send to the socket.  Messages sent one after the
    other to a connection whose open queue has room for them are all
    queued, in order, behind what was queued before.  One pass of
    writePump then takes the whole queue and writes it as a single text
    frame, the messages in the order they were queued and separated by a
    newline; the queue is empty again and stays open. *)
Theorem queued_messages_leave_in_one_frame (w : World) (p : ptr) (c : Client)
        (messages : list string) :
  heap w !! p = Some c ->
  closed (send c) = false ->
  messages <> [] ->
  (List.length (buf (send c)) + List.length messages <= cap (send c))%nat ->
  exists w' c',
    send_all w p messages = Some w'
    /\ heap w' !! p = Some c'
    /\ buf (send c') = (buf (send c) ++ messages)%list
    /\ writePump_message (send c') true true
       = Some ([TextFrame (GoStrings.Join (buf (send c) ++ messages) newline)],
               {| buf := []; cap := cap (send c); closed := false |}, true)
    /\ hub w' = hub w /\ inbox w' = inbox w
    /\ (forall q, q <> p -> heap w' !! q = heap w !! q).
Proof.
  intros Hc Hopen Hne Hlen.
  destruct (send_all_room p messages w c Hc Hopen Hlen) as (w' & HS & Hq & Hh & Hi & Ho).
  eexists w', _. split; [exact HS|]. split; [exact Hq|]. simpl.
  split; [reflexivity|]. split; [|auto].
  unfold writePump_message. simpl.
  destruct (buf (send c) ++ messages)%list as [|m0 queued] eqn:E.
  - apply app_eq_nil in E as [_ ->]. contradiction.
  - simpl. rewrite writeQueued_Join. reflexivity.
Qed.

Lemma queued_messages_leave_in_one_frame_witness :
  exists w' c',
    send_all one_client 1%nat ["a"; "b"; "c"] = Some w'
    /\ heap w' !! 1%nat = Some c'
    /\ writePump_message (send c') true true
       = Some ([TextFrame ("a" +:+ newline +:+ "b" +:+ newline +:+ "c")],
               {| buf := []; cap := 256; closed := false |}, true).
Proof.
  destruct (queued_messages_leave_in_one_frame one_client 1%nat
              (NewClient "happy-panda-42") ["a"; "b"; "c"] eq_refl eq_refl)
    as (w' & c' & H1 & H2 & _ & H3 & _); [discriminate|simpl; lia|].
  exists w', c'. split; [exact H1|]. split; [exact H2|exact H3].
Defined.

(** ** A new connection *)

(** X30.  ServeWS hands the new connection to the hub and does not
    register it itself: until the hub has served the request the
    registry is as before, so a message sent to a code that nobody held
    is dropped.  Once the request is served the code is in the index,
    and a message sent to the code is the first in the queue of the new
    connection, a queue with room for 256 messages. *)
Theorem new_connection_is_reached_once_registered (w : World) (p : ptr)
        (code welcome : string) :
  hub (ServeWS w p code) = hub w
  /\ inbox (ServeWS w p code) = (inbox w ++ [ReqRegister p])%list
  /\ (sessions (hub w) !! code = None ->
      SendToSession (ServeWS w p code) code welcome = Some (ServeWS w p code))
  /\ exists w1 w2,
       serve (ServeWS w p code) (ReqRegister p) = Some w1
       /\ HasSession w1 code = true
       /\ p ∈ clients (hub w1)
       /\ (forall q, q ∈ clients (hub w) -> q ∈ clients (hub w1))
       /\ SendToSession w1 code welcome = Some w2
       /\ hub w2 = hub w1
       /\ heap w2 !! p
          = Some {| sessionCode := code;
                    send := {| buf := [welcome]; cap := 256; closed := false |} |}.
Proof.
  split; [reflexivity|]. split; [reflexivity|]. split.
  { intros Hnone. unfold SendToSession. simpl. rewrite Hnone. reflexivity. }
  unfold ServeWS. simpl. unfold registerClient. simpl. rewrite lookup_insert_eq. simpl.
  eexists _, _. split; [reflexivity|].
  split; [unfold HasSession; simpl; rewrite lookup_insert_eq; reflexivity|].
  split; [simpl; apply elem_of_union; left; apply elem_of_singleton; reflexivity|].
  split; [intros q Hq; simpl; apply elem_of_union; right; exact Hq|].
  unfold SendToSession. simpl. rewrite lookup_insert_eq.
  unfold send_or_evict. simpl. rewrite lookup_insert_eq. simpl.
  split; [reflexivity|]. split; [reflexivity|]. simpl.
  rewrite lookup_insert_eq. reflexivity.
Qed.

Section ClientPumps.

Variable json_Unmarshal : string -> any -> option string * any.
Variable reflect_New : Router.GoType -> any.
Variable reflect_TypeOf : any -> Router.GoType.
Variable AssignableTo : Router.GoType -> Router.GoType -> bool.
Variable type_String : Router.GoType -> string.
Variable json_Unmarshal_Request : string -> Request + string.
Variable json_Marshal_Response : Response -> string + string.

Local Abbreviation processJSONRPCMessage :=
  (processJSONRPCMessage json_Unmarshal reflect_New reflect_TypeOf AssignableTo
                         type_String json_Unmarshal_Request json_Marshal_Response).
Local Abbreviation RouteJSON :=
  (Router.RouteJSON json_Unmarshal reflect_New reflect_TypeOf AssignableTo type_String
                    json_Unmarshal_Request json_Marshal_Response).

(** X29.  A message from the peer, read while the connection's own queue
    is open and has room.  The reply goes to the end of that queue and
    nowhere else: the registry, the pending requests and every other
    connection are untouched.  What RouteJSON returns as bytes is
    queued as it is; when RouteJSON returns nothing (a notification)
    nothing is queued; and the router is left as RouteJSON left it.  A
    connection without a router answers with the Internal error whose
    data is "JSON-RPC router not available" and whose id is nil. *)
Theorem reply_goes_to_the_sender (w : World) (p : ptr) (c : Client) (message : string) :
  heap w !! p = Some c ->
  closed (send c) = false ->
  full (send c) = false ->
  exists w',
    processJSONRPCMessage w p message = Some w'
    /\ hub w' = hub w /\ inbox w' = inbox w
    /\ (forall q, q <> p -> heap w' !! q = heap w !! q)
    /\ (forall r bytes r',
        router w = Some r -> RouteJSON r message = ((Some bytes, None), r') ->
        heap w' !! p = Some (with_send c (enqueued (send c) bytes))
        /\ router w' = Some r')
    /\ (forall r r',
        router w = Some r -> RouteJSON r message = ((None, None), r') ->
        heap w' !! p = Some c /\ router w' = Some r')
    /\ (forall bytes,
        router w = None ->
        json_Marshal_Response
          (NewErrorResponse
             (NewErrorWithData InternalError "Internal error"
                (AScalar (SString "JSON-RPC router not available"))) nil) = inl bytes ->
        heap w' !! p = Some (with_send c (enqueued (send c) bytes))).
Proof.
  intros Hc Hopen Hroom.
  assert (Hq : forall bytes, after_hub_send (send c) bytes = enqueued (send c) bytes).
  { intros bytes. unfold after_hub_send, enqueued. rewrite Hroom. reflexivity. }
  assert (Hdrop : forall w0 bytes, heap w0 = heap w ->
            send_or_drop w0 p bytes
            = Some (set_client w0 p (with_send c (enqueued (send c) bytes)))).
  { intros w0 bytes Hw0. rewrite (send_or_drop_open w0 p c bytes); [|rewrite Hw0; exact Hc|exact Hopen].
    rewrite Hroom, Hq. reflexivity. }
  unfold Websocket.processJSONRPCMessage.
  destruct (router w) as [r|] eqn:Hr.
  - destruct (RouteJSON r message) as [[responseBytes err] r1] eqn:HR.
    assert (Hsame : forall r0 x r', Some r = Some r0 -> RouteJSON r0 message = (x, r') ->
                      x = (responseBytes, err) /\ r' = r1).
    { intros r0 x r' Hr0 HR0. injection Hr0 as <-. rewrite HR in HR0.
      injection HR0 as <- <-. auto. }
    clear HR.
    destruct err as [e|].
    + unfold sendJSONRPCError.
      destruct (json_Marshal_Response _) as [bytes|merr].
      * rewrite (Hdrop (set_router w (Some r1)) bytes eq_refl).
        eexists. split; [reflexivity|]. cbn [hub inbox heap router set_client set_router].
        split; [reflexivity|]. split; [reflexivity|].
        split; [intros q Hne; apply lookup_insert_ne; congruence|].
        split; [intros r0 b r' Hr0 HR0; destruct (Hsame _ _ _ Hr0 HR0); discriminate|].
        split; [intros r0 r' Hr0 HR0; destruct (Hsame _ _ _ Hr0 HR0); discriminate|].
        intros b Hn. discriminate.
      * eexists. split; [reflexivity|]. cbn [hub inbox heap router set_client set_router].
        split; [reflexivity|]. split; [reflexivity|]. split; [reflexivity|].
        split; [intros r0 b r' Hr0 HR0; destruct (Hsame _ _ _ Hr0 HR0); discriminate|].
        split; [intros r0 r' Hr0 HR0; destruct (Hsame _ _ _ Hr0 HR0); discriminate|].
        intros b Hn. discriminate.
    + destruct responseBytes as [bytes|].
      * rewrite (Hdrop (set_router w (Some r1)) bytes eq_refl).
        eexists. split; [reflexivity|]. cbn [hub inbox heap router set_client set_router].
        split; [reflexivity|]. split; [reflexivity|].
        split; [intros q Hne; apply lookup_insert_ne; congruence|].
        split.
        { intros r0 b r' Hr0 HR0. destruct (Hsame _ _ _ Hr0 HR0) as [Hx ->].
          injection Hx as ->. rewrite lookup_insert_eq. auto. }
        split; [intros r0 r' Hr0 HR0; destruct (Hsame _ _ _ Hr0 HR0); discriminate|].
        intros b Hn. discriminate.
      * eexists. split; [reflexivity|]. cbn [hub inbox heap router set_client set_router].
        split; [reflexivity|]. split; [reflexivity|]. split; [reflexivity|].
        split; [intros r0 b r' Hr0 HR0; destruct (Hsame _ _ _ Hr0 HR0); discriminate|].
        split.
        { intros r0 r' Hr0 HR0. destruct (Hsame _ _ _ Hr0 HR0) as [_ ->]. auto. }
        intros b Hn. discriminate.
  - unfold sendJSONRPCError. cbn [negb String.eqb Ascii.eqb Error_Code Error_Message ErrInternal].
    change (negb (String.eqb "JSON-RPC router not available" "")) with true. cbv iota.
    change (Error_Code ErrInternal) with InternalError.
    change (Error_Message ErrInternal) with "Internal error".
    destruct (json_Marshal_Response _) as [bytes|merr] eqn:HM.
    + rewrite (Hdrop w bytes eq_refl).
      eexists. split; [reflexivity|]. cbn [hub inbox heap router set_client set_router].
      split; [reflexivity|]. split; [reflexivity|].
      split; [intros q Hne; apply lookup_insert_ne; congruence|].
      split; [intros r0 b r' Hr0; discriminate|].
      split; [intros r0 r' Hr0; discriminate|].
      intros b _ Hb. rewrite lookup_insert_eq. congruence.
    + eexists. split; [reflexivity|]. cbn [hub inbox heap router set_client set_router].
      split; [reflexivity|]. split; [reflexivity|]. split; [reflexivity|].
      split; [intros r0 b r' Hr0; discriminate|].
      split; [intros r0 r' Hr0; discriminate|].
      intros b _ Hb. congruence.
Qed.

End ClientPumps.

Lemma reply_goes_to_the_sender_witness :
  exists w',
    processJSONRPCMessage RoutingSpec.plain_Unmarshal RoutingSpec.plain_New
      RoutingSpec.plain_TypeOf RoutingSpec.plain_AssignableTo RoutingSpec.plain_type_String
      (RoutingSpec.decode_as RoutingSpec.ping_request) RoutingSpec.render
      ping_world 1%nat "ping" = Some w'
    /\ heap w' !! 1%nat
       = Some {| sessionCode := "happy-panda-42";
                 send := {| buf := ["result"]; cap := 256; closed := false |} |}.
Proof.
  destruct (reply_goes_to_the_sender RoutingSpec.plain_Unmarshal RoutingSpec.plain_New
              RoutingSpec.plain_TypeOf RoutingSpec.plain_AssignableTo
              RoutingSpec.plain_type_String
              (RoutingSpec.decode_as RoutingSpec.ping_request) RoutingSpec.render
              ping_world 1%nat (NewClient "happy-panda-42") "ping"
              eq_refl eq_refl eq_refl) as (w' & H1 & _ & _ & _ & H2 & _).
  exists w'. split; [exact H1|].
  exact (proj1 (H2 _ "result" _ eq_refl eq_refl)).
Defined.

End HubOpsProps.
